(** * Project Chimera CI tooling: source-hygiene checkers and the Tier 2 splitter

    Shallow embedding of
    - [tier2_auto_refactor.py]                 (module [Refactor]),
    - [CI/run_quality_gates.py]                (module [QualityGates]),
    - [CI/enforce_resources_load_ban.py]       (module [ResourcesBan]),
    - [CI/enforce_debug_log_ban.py]            (module [DebugLogBan]),
    - [CI/enforce_findobjectoftype_ban.py]     (module [FindObjectBan]),
    - [CI/enforce_update_method_ban.py]        (module [UpdateBan]),
    - [CI/enforce_file_size_limits.py]         (module [FileSize]),
    followed by the properties established about them.

    Conventions.  A Python [str] is a [string]; a character is a code point
    below 256.  A Python [int] is a [Z]; list indices and lengths are [nat].
    The file system is a finite map from paths to file texts. *)

From Stdlib Require Import ZArith QArith Lqa Ascii String List Lia Sorted.
From Stdlib Require Import PrimFloat Uint63 FloatOps SpecFloat.
From stdpp Require Import gmap strings list.

Close Scope Q_scope.
Local Open Scope string_scope.
Local Open Scope list_scope.
Local Open Scope nat_scope.

(** ** Python string built-ins *)

Module Py.

Definition code (c : ascii) : N := N_of_ascii c.

(** [str.isspace] for one character (also the class [\s] of [re]). *)
Definition is_space (c : ascii) : bool :=
  let n := code c in
  ((9 <=? n) && (n <=? 13) || (28 <=? n) && (n <=? 32)
   || (n =? 133) || (n =? 160))%N.

(** The class [\w] of [re]: alphanumeric characters and the underscore. *)
Definition is_word (c : ascii) : bool :=
  let n := code c in
  ((48 <=? n) && (n <=? 57) || (65 <=? n) && (n <=? 90)
   || (97 <=? n) && (n <=? 122) || (n =? 95)
   || (n =? 170) || (n =? 181) || (n =? 186)
   || (n =? 178) || (n =? 179) || (n =? 185)
   || (188 <=? n) && (n <=? 190)
   || (192 <=? n) && (n <=? 214) || (216 <=? n) && (n <=? 246)
   || (248 <=? n))%N.

(** [str.lower] for one character. *)
Definition lower_char (c : ascii) : ascii :=
  let n := code c in
  if ((65 <=? n) && (n <=? 90)
      || (192 <=? n) && (n <=? 214) || (216 <=? n) && (n <=? 222))%N
  then ascii_of_N (n + 32) else c.

Fixpoint lower (s : string) : string :=
  match s with
  | "" => ""
  | String c s' => String (lower_char c) (lower s')
  end.

Fixpoint lstrip (s : string) : string :=
  match s with
  | "" => ""
  | String c s' => if is_space c then lstrip s' else s
  end.

(** [s.rstrip()]: a character is kept when something non-blank follows it
    or it is non-blank itself. *)
Fixpoint rstrip (s : string) : string :=
  match s with
  | "" => ""
  | String c s' =>
      match rstrip s' with
      | "" => if is_space c then "" else String c ""
      | r => String c r
      end
  end.

Definition strip (s : string) : string := rstrip (lstrip s).

(** [s.startswith(p)] *)
Definition startswith (p s : string) : bool := String.prefix p s.

(** [sub in s] *)
Fixpoint contains (sub s : string) : bool :=
  startswith sub s ||
  match s with
  | "" => false
  | String _ s' => contains sub s'
  end.

(** [s.count(c)] for a one-character [c], as an [int]. *)
Fixpoint count (c : ascii) (s : string) : Z :=
  match s with
  | "" => 0%Z
  | String a s' => ((if Ascii.eqb a c then 1 else 0) + count c s')%Z
  end.

(** [s.split(sep)[0]]: the text before the first occurrence of [sep]
    (all of [s] when [sep] does not occur). *)
Fixpoint split_head (sep s : string) : string :=
  if startswith sep s then ""
  else match s with
       | "" => ""
       | String c s' => String c (split_head sep s')
       end.

(** [s[n:]] *)
Fixpoint skip (n : nat) (s : string) : string :=
  match n, s with
  | O, _ => s
  | S n', String _ s' => skip n' s'
  | S _, "" => ""
  end.

Fixpoint take_while (p : ascii -> bool) (s : string) : string :=
  match s with
  | "" => ""
  | String c s' => if p c then String c (take_while p s') else ""
  end.

(** The newline character, and a line of text ended by it. *)
Definition nl : string := String "010"%char "".
Definition ln (s : string) : string := s ++ nl.

(** The double quote character. *)
Definition dq : string := String "034"%char "".

(** [''.join(l)] *)
Definition join (l : list string) : string := String.concat "" l.

(** [any(x in s for x in xs)] *)
Definition any_in (xs : list string) (s : string) : bool :=
  existsb (fun x => contains x s) xs.

(** Text-mode reading with universal newlines: ["\r\n"] and a lone ["\r"]
    are read as ["\n"]. *)
Fixpoint universal_newlines (s : string) : string :=
  match s with
  | "" => ""
  | String c s' =>
      if Ascii.eqb c "013"%char then
        match s' with
        | String d _ =>
            if Ascii.eqb d "010"%char then universal_newlines s'
            else String "010"%char (universal_newlines s')
        | "" => String "010"%char ""
        end
      else String c (universal_newlines s')
  end.

(** Cutting a text after each newline, the newline kept with its line;
    the accumulator [cur] holds the current line reversed. *)
Fixpoint lines_go (cur : string) (s : string) : list string :=
  match s with
  | "" => match cur with "" => [] | _ => [String.rev cur] end
  | String c s' =>
      if Ascii.eqb c "010"%char
      then String.rev (String c cur) :: lines_go "" s'
      else lines_go (String c cur) s'
  end.

(** [f.readlines()] of a file opened in text mode. *)
Definition readlines (text : string) : list string :=
  lines_go "" (universal_newlines text).

(** [a / b] on two ints, [a] not negative and [b] positive, as
    [long_true_divide] computes it: the exact quotient rounded once to the
    nearest binary64 number, a tie to the even one.  A finite binary64
    number is a whole multiple of 2^-1074 and is held as that multiple,
    its units.  [n / d] rounded to the nearest whole number: *)
Definition round_half_even (n d : Z) : Z :=
  let f := (n / d)%Z in
  let r := (n mod d)%Z in
  if (2 * r <? d)%Z then f
  else if (d <? 2 * r)%Z then (f + 1)%Z
  else if Z.even f then f else (f + 1)%Z.

(** The quotient in units is [n / b]; it is rounded to a multiple of the
    quantum, 2^g units: 1 unit below 2^53 units (the subnormal numbers and
    the first binade of the normal ones), doubling with each binade, so
    that 53 bits are kept. *)
Definition nearest_binary64 (a b : Z) : Z :=
  let n := (a * 2 ^ 1074)%Z in
  let g := Z.max 0 (Z.log2 (n / b) - 52) in
  (round_half_even n (b * 2 ^ g) * 2 ^ g)%Z.

(** [a / b] on ints, in units: [None] for [ZeroDivisionError] and for
    [OverflowError], raised when the rounded quotient is 2^1024 or more. *)
Definition true_divide (a b : Z) : option Z :=
  if (b =? 0)%Z then None
  else
    let v := nearest_binary64 (Z.abs a) (Z.abs b) in
    if (2 ^ 2098 <=? v)%Z then None
    else Some (Z.sgn a * Z.sgn b * v)%Z.

End Py.

(** ** Regular expressions ([re.match] and [re.search] as booleans)

    The patterns of the scripts use literals, character classes, grouping,
    alternation, [?], [*] and [+] only, so whether [re.match] or [re.search]
    finds a match depends on the language of the pattern alone.  Membership
    is decided by Brzozowski derivatives. *)

Module Re.

Inductive cls : Type :=
| CChr (c : ascii)          (* a literal character *)
| CNot (c : ascii)          (* [^c] *)
| CSpace                    (* \s *)
| CWord.                    (* \w *)

Inductive regex : Type :=
| Void
| Eps
| Cls (k : cls)
| Cat (r1 r2 : regex)
| Alt (r1 r2 : regex)
| Star (r : regex).

Definition in_cls (k : cls) (a : ascii) : bool :=
  match k with
  | CChr c => Ascii.eqb a c
  | CNot c => negb (Ascii.eqb a c)
  | CSpace => Py.is_space a
  | CWord => Py.is_word a
  end.

Fixpoint nullable (r : regex) : bool :=
  match r with
  | Void => false
  | Eps => true
  | Cls _ => false
  | Cat r1 r2 => nullable r1 && nullable r2
  | Alt r1 r2 => nullable r1 || nullable r2
  | Star _ => true
  end.

Definition cat (r1 r2 : regex) : regex :=
  match r1, r2 with
  | Void, _ => Void
  | _, Void => Void
  | Eps, _ => r2
  | _, _ => Cat r1 r2
  end.

Definition alt (r1 r2 : regex) : regex :=
  match r1, r2 with
  | Void, _ => r2
  | _, Void => r1
  | _, _ => Alt r1 r2
  end.

Fixpoint deriv (a : ascii) (r : regex) : regex :=
  match r with
  | Void => Void
  | Eps => Void
  | Cls k => if in_cls k a then Eps else Void
  | Cat r1 r2 =>
      if nullable r1 then alt (cat (deriv a r1) r2) (deriv a r2)
      else cat (deriv a r1) r2
  | Alt r1 r2 => alt (deriv a r1) (deriv a r2)
  | Star r1 => cat (deriv a r1) (Star r1)
  end.

(** [re.match(r, s) is not None]: some prefix of [s] is in the language. *)
Fixpoint matches (r : regex) (s : string) : bool :=
  nullable r ||
  match s with
  | "" => false
  | String a s' => matches (deriv a r) s'
  end.

(** [re.search(r, s) is not None]: a match starts at some position. *)
Fixpoint search (r : regex) (s : string) : bool :=
  matches r s ||
  match s with
  | "" => false
  | String _ s' => search r s'
  end.

(** The words of a pattern, for reference: [matches] and [search] are
    proved against it below. *)
Inductive lang : regex -> string -> Prop :=
| lang_eps : lang Eps ""
| lang_cls (k : cls) (a : ascii) :
    in_cls k a = true -> lang (Cls k) (String a "")
| lang_cat (r1 r2 : regex) (s1 s2 : string) :
    lang r1 s1 -> lang r2 s2 -> lang (Cat r1 r2) (s1 +:+ s2)
| lang_alt_l (r1 r2 : regex) (s : string) :
    lang r1 s -> lang (Alt r1 r2) s
| lang_alt_r (r1 r2 : regex) (s : string) :
    lang r2 s -> lang (Alt r1 r2) s
| lang_star_nil (r : regex) : lang (Star r) ""
| lang_star_cons (r : regex) (s1 s2 : string) :
    lang r s1 -> lang (Star r) s2 -> lang (Star r) (s1 +:+ s2).

(** Pattern syntax. *)
Fixpoint lit (s : string) : regex :=
  match s with
  | "" => Eps
  | String c "" => Cls (CChr c)
  | String c s' => Cat (Cls (CChr c)) (lit s')
  end.

Definition opt (r : regex) : regex := Alt r Eps.
Definition plus (r : regex) : regex := Cat r (Star r).
Definition ws : regex := Cls CSpace.
Definition word : regex := Cls CWord.
Definition none_of (c : ascii) : regex := Cls (CNot c).

Fixpoint seq (rs : list regex) : regex :=
  match rs with
  | [] => Eps
  | [r] => r
  | r :: rs' => Cat r (seq rs')
  end.

Fixpoint alts (rs : list regex) : regex :=
  match rs with
  | [] => Void
  | [r] => r
  | r :: rs' => Alt r (alts rs')
  end.

(** A pattern of a checker: its source text (what a violation records
    under ['pattern']) and its syntax tree. *)
Record pattern : Type := Pattern { src : string; re : regex }.

(** The loop [for pattern in patterns: if re.search(pattern, text):
    violations.append(...)], where [mk] builds the appended entry. *)
Definition scan_patterns {V : Type} (mk : pattern -> V) (text : string)
    (patterns : list pattern) (violations : list V) : list V :=
  fold_left
    (fun vs p => if search (re p) text then vs ++ [mk p] else vs)
    patterns violations.

End Re.

(** ** tier2_auto_refactor.py *)

Module Refactor.

(** The file system: path to file text. *)
Abbreviation files := (gmap string string).

(** What a run does to the file system, in order. *)
Inductive event : Type :=
| EvWrite (path content : string)          (* open(path, 'w') ... write *)
| EvCopy (src dst content : string).       (* shutil.copy2(src, dst) *)

Record world : Type := World { fs : files; log : list event }.

(** [os.path.exists(p)] *)
Definition exists_ (w : world) (p : string) : bool :=
  match fs w !! p with Some _ => true | None => false end.

Definition write_file (p content : string) (w : world) : world :=
  World (<[p := content]> (fs w)) (log w ++ [EvWrite p content]).

(** [shutil.copy2(src, dst)]; [None] when [src] is missing (it raises). *)
Definition copy2 (src dst : string) (w : world) : option world :=
  match fs w !! src with
  | Some c => Some (World (<[dst := c]> (fs w)) (log w ++ [EvCopy src dst c]))
  | None => None
  end.

(** *** pathlib, on normalised paths *)

(** [s.rpartition(c)]: the text before and after the last [c]. *)
Fixpoint rsplit (c : ascii) (s : string) : option (string * string) :=
  match s with
  | "" => None
  | String a s' =>
      match rsplit c s' with
      | Some (l, r) => Some (String a l, r)
      | None => if Ascii.eqb a c then Some ("", s') else None
      end
  end.

(** [Path(p).name] *)
Definition path_name (p : string) : string :=
  match rsplit "/" p with Some (_, n) => n | None => p end.

(** [PurePath.stem] of a name: the name without its last suffix; a dot
    that starts or ends the name starts no suffix. *)
Definition name_stem (n : string) : string :=
  match rsplit "." n with
  | Some (String c l, String d r) => String c l
  | _ => n
  end.

(** [Path(p).stem] *)
Definition path_stem (p : string) : string := name_stem (path_name p).

(** [Path(p).parent / n] *)
Definition sibling (p n : string) : string :=
  match rsplit "/" p with Some (d, _) => d ++ "/" ++ n | None => n end.

(** *** The functions of the script *)

(** [count_lines(filepath)]; the caller has checked that the file exists. *)
Definition count_lines (w : world) (filepath : string) : nat :=
  match fs w !! filepath with
  | Some text => length (Py.readlines text)
  | None => 0
  end.

Definition is_name_char (c : ascii) : bool :=
  Py.is_word c || Ascii.eqb c "."%char.

(** A match of [namespace\s+([\w\.]+)] at the start of [s]: group 1.
    [\s+] takes every blank and [[\w\.]+] every following name
    character, which is the only way the pattern can match there. *)
Definition namespace_at (s : string) : option string :=
  if Py.startswith "namespace" s then
    match Py.skip 9 s with
    | String c rest =>
        if Py.is_space c then
          match Py.take_while is_name_char (Py.lstrip rest) with
          | "" => None
          | name => Some name
          end
        else None
    | "" => None
    end
  else None.

Fixpoint namespace_search (s : string) : option string :=
  match namespace_at s with
  | Some n => Some n
  | None =>
      match s with
      | "" => None
      | String _ s' => namespace_search s'
      end
  end.

Definition extract_namespace (content : string) : string :=
  match namespace_search content with
  | Some n => n
  | None => "ProjectChimera"
  end.

Fixpoint extract_using_statements (lines : list string) : list string :=
  match lines with
  | [] => []
  | line :: rest =>
      let stripped := Py.strip line in
      if Py.startswith "using " stripped
         && negb (Py.startswith "using (" stripped)
      then Py.rstrip line :: extract_using_statements rest
      else if negb (String.eqb stripped "")
              && negb (Py.startswith "//" stripped)
              && negb (Py.startswith "using" stripped)
      then []
      else extract_using_statements rest
  end.

(** [(public|private|internal|protected)?\s*(class|struct|enum)\s+\w+] *)
Definition DECL_HEADER : Re.regex :=
  Re.seq [ Re.opt (Re.alts [Re.lit "public"; Re.lit "private";
                            Re.lit "internal"; Re.lit "protected"]);
           Re.Star Re.ws;
           Re.alts [Re.lit "class"; Re.lit "struct"; Re.lit "enum"];
           Re.plus Re.ws;
           Re.plus Re.word ].

Definition is_header (stripped : string) : bool :=
  Re.matches DECL_HEADER stripped.

(** The loop of [find_data_structure_start] from index [i] on. *)
Fixpoint find_from (i : nat) (rest : list string) : option nat :=
  match rest with
  | [] => None
  | l :: rest' =>
      if is_header (Py.strip l) && (50 <? i) then Some i
      else find_from (S i) rest'
  end.

Definition min_line : nat := 400.

Definition find_data_structure_start (lines : list string) : option nat :=
  find_from min_line (drop min_line lines).

(** The local variables of [extract_data_structures]. *)
Record scan : Type := Scan {
  data_structures : list string;
  current_structure : list string;
  brace_count : Z;
  in_structure : bool
}.

(** [line.count('{') - line.count('}')] *)
Definition braces (line : string) : Z :=
  (Py.count "{" line - Py.count "}" line)%Z.

(** One iteration of the loop of [extract_data_structures]. *)
Definition scan_line (st : scan) (line : string) : scan :=
  if is_header (Py.strip line) && negb (in_structure st) then
    Scan (data_structures st) [line] (braces line) true
  else if in_structure st then
    let cur := current_structure st ++ [line] in
    let bc := (brace_count st + braces line)%Z in
    if (bc =? 0)%Z
    then Scan (data_structures st ++ [Py.join cur]) [] bc false
    else Scan (data_structures st) cur bc true
  else st.

Definition scan_init : scan := Scan [] [] 0 false.

Definition extract_data_structures
    (lines : list string) (start_line : option nat) : list string :=
  match start_line with
  | None => []
  | Some start =>
      data_structures (fold_left scan_line (drop start lines) scan_init)
  end.

(** The path written by [create_data_structures_file]. *)
Definition data_structures_path (original_file : string) : string :=
  sibling original_file (path_stem original_file ++ "DataStructures.cs").

Definition data_structures_text (original_file : string)
    (data_structures : list string) (namespace : string)
    (using_statements : list string) : string :=
  Py.ln "// REFACTORED: Data Structures"
  ++ Py.ln ("// Extracted from " ++ path_name original_file
            ++ " for better separation of concerns") ++ Py.nl
  ++ Py.join (map Py.ln using_statements)
  ++ Py.nl ++ Py.ln ("namespace " ++ namespace) ++ Py.ln "{"
  ++ Py.join (map Py.ln data_structures)
  ++ Py.ln "}".

Definition create_data_structures_file (original_file : string)
    (data_structures : list string) (namespace : string)
    (using_statements : list string) (w : world) : string * world :=
  let output_file := data_structures_path original_file in
  (output_file,
   write_file output_file
     (data_structures_text original_file data_structures namespace
        using_statements) w).

Definition backup_path (original_file : string) : string :=
  original_file ++ ".backup".

(** [data_structure_start if data_structure_start else len(lines)] *)
Definition end_line (lines : list string) (data_structure_start : option nat)
  : nat :=
  match data_structure_start with
  | Some (S n) => S n
  | _ => length lines
  end.

(** The lines the coordinator keeps. *)
Definition retained (lines : list string) (data_structure_start : option nat)
  : list string :=
  take (end_line lines data_structure_start) lines.

(** The residual brace count over the retained lines. *)
Definition residual (lines : list string) (data_structure_start : option nat)
  : Z :=
  fold_left (fun bc l => (bc + braces l)%Z)
    (retained lines data_structure_start) 0%Z.

Definition coordinator_text (lines : list string)
    (data_structure_start : option nat) : string :=
  Py.join (retained lines data_structure_start)
  ++ Py.join (replicate (Z.to_nat (residual lines data_structure_start))
                (Py.ln "    }")).

(** The backup is copied first; then the residual braces are counted over
    [lines[0 .. end_line - 1]], which raises when [end_line] exceeds the
    number of lines; then the file is rewritten.  The result is [None]
    when an exception leaves the function. *)
Definition create_streamlined_coordinator (original_file : string)
    (lines : list string) (data_structure_start : option nat) (w : world)
  : option string * world :=
  let backup_file := backup_path original_file in
  match copy2 original_file backup_file w with
  | None => (None, w)
  | Some w1 =>
      if length lines <? end_line lines data_structure_start then (None, w1)
      else
        (Some backup_file,
         write_file original_file
           (coordinator_text lines data_structure_start) w1)
  end.

(** How [refactor_file] ends: the reason it prints before returning
    [False], or success, or an exception leaving the function. *)
Inductive outcome : Type :=
| NotFound              (* "File not found, skipping..." *)
| UnderLimit            (* "Already under 500 lines, skipping..." *)
| AlreadyRefactored     (* "Already refactored (backup exists), skipping..." *)
| NoStructuresFound     (* "No data structures found, skipping..." *)
| NoneExtracted         (* "No data structures extracted, skipping..." *)
| Refactored            (* return True *)
| Raised.

Definition returns_true (o : outcome) : bool :=
  match o with Refactored => true | _ => false end.

Definition refactor_file (filepath : string) (w : world) : outcome * world :=
  if negb (exists_ w filepath) then (NotFound, w)
  else
    let line_count := count_lines w filepath in
    if line_count <? 500 then (UnderLimit, w)
    else if exists_ w (backup_path filepath) then (AlreadyRefactored, w)
    else
      match fs w !! filepath with
      | None => (Raised, w)
      | Some text =>
          let lines := Py.readlines text in
          let content := Py.join lines in
          let namespace := extract_namespace content in
          let using_statements := extract_using_statements lines in
          let data_structure_start := find_data_structure_start lines in
          match data_structure_start with
          | None => (NoStructuresFound, w)
          | Some _ =>
              let data_structures :=
                extract_data_structures lines data_structure_start in
              match data_structures with
              | [] => (NoneExtracted, w)
              | _ =>
                  let '(ds_file, w1) :=
                    create_data_structures_file filepath data_structures
                      namespace using_statements w in
                  match create_streamlined_coordinator filepath lines
                          data_structure_start w1 with
                  | (None, w2) => (Raised, w2)
                  | (Some _, w2) => (Refactored, w2)
                  end
              end
          end
      end.

Definition FILES_TO_REFACTOR : list string :=
  [ "Assets/ProjectChimera/Systems/Equipment/Degradation/MalfunctionRepairProcessor.cs";
    "Assets/ProjectChimera/Core/Assets/AddressableAssetCacheManager.cs";
    "Assets/ProjectChimera/Data/Cultivation/Plant/PlantDataValidationEngine.cs";
    "Assets/ProjectChimera/Data/Cultivation/Plant/PlantInstanceSO.cs";
    "Assets/ProjectChimera/Systems/Cultivation/PlantInstance.cs";
    "Assets/ProjectChimera/Systems/Services/SpeedTree/Environmental/WindSystem.cs";
    "Assets/ProjectChimera/Systems/Equipment/Degradation/CostConfigurationManager.cs";
    "Assets/ProjectChimera/Systems/Equipment/Degradation/Database/CostDatabasePersistenceManager.cs";
    "Assets/ProjectChimera/Systems/Services/SpeedTree/Environmental/SeasonalSystem.cs";
    "Assets/ProjectChimera/Data/Cultivation/Plant/PlantGrowthProcessor.cs";
    "Assets/ProjectChimera/Systems/Equipment/Degradation/Cache/CacheValidationManager.cs";
    "Assets/ProjectChimera/Core/Assets/AddressableAssetLoadingEngine.cs";
    "Assets/ProjectChimera/Systems/Services/SpeedTree/Environmental/StressVisualizationSystem.cs";
    "Assets/ProjectChimera/Systems/Equipment/Degradation/Cache/CacheOptimizationManager.cs";
    "Assets/ProjectChimera/Systems/UI/OptimizedUIManager.cs";
    "Assets/ProjectChimera/Systems/Equipment/Degradation/Database/CostDatabaseStorageManager.cs" ].

(** The counters of [main]. *)
Record tally : Type := Tally { refactored_count : nat; skipped_count : nat }.

(** One iteration of the loop of [main]: a file that is not refactored, or
    whose processing raises, is counted as skipped. *)
Definition main_step (st : tally * world) (filepath : string) : tally * world :=
  let '(t, w) := st in
  let '(o, w') := refactor_file filepath w in
  if returns_true o
  then (Tally (S (refactored_count t)) (skipped_count t), w')
  else (Tally (refactored_count t) (S (skipped_count t)), w').

(** The loop of [main] over a list of files. *)
Definition main_over (files : list string) (w : world) : tally * world :=
  fold_left main_step files (Tally 0 0, w).

Definition main (w : world) : tally * world := main_over FILES_TO_REFACTOR w.

End Refactor.

(** ** The pattern checkers

    Each checker receives the files found under the project root as pairs of
    a path and the file's text.  A file that cannot be read is reported and
    skipped by the scripts; such files are not in the list. *)

Record violation : Type := Violation {
  v_file : string;
  v_line : nat;
  v_content : string;
  v_pattern : string
}.

(** [for line_num, line in enumerate(lines, 1)] with the list of violations
    as loop state. *)
Fixpoint enumerate_from {V : Type} (body : nat -> string -> list V -> list V)
    (i : nat) (lines : list string) (violations : list V) : list V :=
  match lines with
  | [] => violations
  | line :: rest => enumerate_from body (S i) rest (body i line violations)
  end.

(** ** CI/run_quality_gates.py *)

Module QualityGates.

Definition FORBIDDEN_PATTERNS : list Re.pattern :=
  [ Re.Pattern "FindObjectOfType<" (Re.lit "FindObjectOfType<");
    Re.Pattern "FindObjectsOfType<" (Re.lit "FindObjectsOfType<");
    Re.Pattern "GameObject\.Find\(" (Re.lit "GameObject.Find(");
    Re.Pattern "Resources\.Load" (Re.lit "Resources.Load");
    Re.Pattern "Debug\.Log\(" (Re.lit "Debug.Log(");
    Re.Pattern "Debug\.LogWarning\(" (Re.lit "Debug.LogWarning(");
    Re.Pattern "Debug\.LogError\(" (Re.lit "Debug.LogError(");
    Re.Pattern "\.GetField\(" (Re.lit ".GetField(");
    Re.Pattern "\.GetProperty\(" (Re.lit ".GetProperty(");
    Re.Pattern "\.GetMethod\(" (Re.lit ".GetMethod(");
    Re.Pattern "typeof\([^)]+\)\.GetProperty"
      (Re.seq [Re.lit "typeof("; Re.plus (Re.none_of ")");
               Re.lit ").GetProperty"]);
    Re.Pattern "Activator\.CreateInstance" (Re.lit "Activator.CreateInstance");
    Re.Pattern "Assembly\.Load" (Re.lit "Assembly.Load") ].

(** [find_cs_files]: the files outside Testing and Editor directories. *)
Definition find_cs_files (found : list (string * string))
  : list (string * string) :=
  filter (fun f => negb (Py.contains "Testing" (fst f)
                         || Py.contains "Editor" (fst f))) found.

(** The code text of a line: the stripped line, cut before an inline
    comment marker when there is one. *)
Definition code_text (line_content : string) : string :=
  if Py.contains "//" line_content
  then Py.strip (Py.split_head "//" line_content)
  else line_content.

(** The body of the loop over the lines of one file. *)
Definition check_line (file_path : string) (i : nat) (line : string)
    (violations : list violation) : list violation :=
  let line_content := Py.strip line in
  if Py.startswith "//" line_content || Py.startswith "///" line_content
     || Py.startswith "*" line_content
  then violations
  else
    let line_content := code_text line_content in
    if Py.contains (Py.dq ++ "FindObjectOfType") line_content
       || Py.contains (Py.dq ++ "Resources.Load") line_content
       || Py.contains (Py.dq ++ "Debug.Log") line_content
    then violations
    else if Py.contains "UnityEngine.Object.FindObject" line_content
    then violations
    else if Py.contains "ChimeraLogger.Log" line_content
            || Py.contains "UnityEngine.Debug.Log" line_content
    then violations
    else if Py.any_in ["QualityGateRunner.cs"; "QualityGates.cs";
                       "run_quality_gates.py"] file_path
    then violations
    else if Py.any_in ["AntiPatternMigrationTool"; "DebugLogMigrationTool";
                       "BatchMigration"; "MigrationScript"] file_path
    then violations
    else if Py.any_in ["ServiceContainer"; "ServiceAdvancedFeatures";
                       "TypedServiceRegistration"; "/Core/"] file_path
            && (Py.contains ".GetMethod(" line_content
                || Py.contains "Activator.CreateInstance" line_content)
    then violations
    else if (Py.any_in ["AudioLoadingService"; "DataManager"; "/Interfaces/"]
               file_path
             || Py.contains "// Legacy" line_content
             || Py.contains "// MIGRATION" line_content)
            && Py.contains "Resources.Load" line_content
    then violations
    else if Py.any_in ["ChimeraLogger.cs"; "ChimeraScriptableObject.cs";
                       "SharedLogger.cs"; "/Shared/"] file_path
    then violations
    else if Py.any_in ["UIProgressBarManager"; "UINotificationManager"]
              file_path
            && Py.contains "GameObject.Find" line_content
    then violations
    else
      Re.scan_patterns
        (fun p => Violation file_path i line_content (Re.src p))
        line_content FORBIDDEN_PATTERNS violations.

Definition check_file (violations : list violation) (f : string * string)
  : list violation :=
  enumerate_from (check_line (fst f)) 1 (Py.readlines (snd f)) violations.

Definition check_anti_patterns (found : list (string * string))
  : list violation :=
  fold_left check_file (find_cs_files found) [].

Record di_issue : Type := DiIssue {
  i_file : string;
  i_type : string;
  i_description : string
}.

(** [ServiceLocator\.] *)
Definition SERVICE_LOCATOR : Re.regex := Re.lit "ServiceLocator.".

(** The body of the loop of [check_dependency_injection]; [content] is the
    text read from the file. *)
Definition check_di_file (issues : list di_issue) (f : string * string)
  : list di_issue :=
  let file_path := fst f in
  let content := Py.universal_newlines (snd f) in
  let issues :=
    if Re.search SERVICE_LOCATOR content
       && negb (Py.contains "Fallback" content)
    then issues
         ++ [DiIssue file_path "Deprecated ServiceLocator"
               "Using legacy ServiceLocator - migrate to ServiceContainer"]
    else issues in
  if Py.contains "using ProjectChimera.Core.DependencyInjection" content
     && negb (Py.contains "/Core/" file_path)
     && negb (Py.contains "/CI/" file_path)
  then issues
       ++ [DiIssue file_path "Deprecated DI Namespace"
             "Using deprecated DependencyInjection namespace - migrate to ServiceContainer"]
  else issues.

Definition check_dependency_injection (found : list (string * string))
  : list di_issue :=
  fold_left check_di_file (find_cs_files found) [].

Record size_warning : Type := SizeWarning {
  w_file : string;
  w_line_count : nat;
  w_max_allowed : nat
}.

Definition max_lines : nat := 500.

(** [l.strip() and not l.strip().startswith('//')] *)
Definition counted (l : string) : bool :=
  negb (String.eqb (Py.strip l) "") && negb (Py.startswith "//" (Py.strip l)).

Definition check_size_file (violations : list size_warning)
    (f : string * string) : list size_warning :=
  let lines := Py.readlines (snd f) in
  let line_count := length (List.filter counted lines) in
  if max_lines <? line_count
  then violations ++ [SizeWarning (fst f) line_count max_lines]
  else violations.

Definition check_file_sizes (found : list (string * string))
  : list size_warning :=
  fold_left check_size_file (find_cs_files found) [].

(** The value [main] returns; printing left out. *)
Definition main (found : list (string * string)) : Z :=
  let anti_pattern_violations := check_anti_patterns found in
  let di_issues := check_dependency_injection found in
  let file_size_violations := check_file_sizes found in
  let critical_violations :=
    length anti_pattern_violations + length di_issues in
  if 0 <? critical_violations then 1%Z else 0%Z.

End QualityGates.

(** ** CI/enforce_resources_load_ban.py *)

Module ResourcesBan.

Record rviolation : Type := RViolation {
  base : violation;
  severity : string
}.

Definition exempted_files : list string :=
  [ "DefaultAssetManager.cs"; "IAssetManager.cs"; "AssetManagerTest.cs";
    "QualityGates.cs"; "AntiPatternMigrationTool.cs";
    "AudioLoadingService.cs"; "DataManager.cs";
    "ServiceContainerBootstrapper.cs"; "AddressablesMigrationPhase1.cs";
    "AddressablePrefabResolver.cs"; "AddressablesInfrastructure.cs";
    "AddressablesAssetManager.cs"; "SchematicManager.cs";
    "SpeedTreeAssetManagementService.cs"; "enforce_resources_load_ban.py" ].

Definition violation_patterns : list Re.pattern :=
  [ Re.Pattern "Resources\.Load<[^>]+>\s*\("
      (Re.seq [Re.lit "Resources.Load<"; Re.plus (Re.none_of ">");
               Re.lit ">"; Re.Star Re.ws; Re.lit "("]);
    Re.Pattern "Resources\.Load\s*\("
      (Re.seq [Re.lit "Resources.Load"; Re.Star Re.ws; Re.lit "("]);
    Re.Pattern "Resources\.LoadAll<[^>]+>\s*\("
      (Re.seq [Re.lit "Resources.LoadAll<"; Re.plus (Re.none_of ">");
               Re.lit ">"; Re.Star Re.ws; Re.lit "("]);
    Re.Pattern "Resources\.LoadAll\s*\("
      (Re.seq [Re.lit "Resources.LoadAll"; Re.Star Re.ws; Re.lit "("]) ].

Definition context_lines : nat := 5.

(** The indicator list of [_is_legitimate_fallback], as written. *)
Definition indicators : list string :=
  [ "fallback to resources";
    "addressablesassetmanager not available";
    "fallback mechanism";
    "if (assetManager == null)";
    "catch (system.exception";
    "backup loading method" ].

(** The lines [lines[i]] for [i] in
    [range(max(0, line_idx - 5), min(len(lines), line_idx + 5))]. *)
Definition window (lines : list string) (line_idx : nat) : list string :=
  let start_idx := line_idx - context_lines in
  drop start_idx (take (min (length lines) (line_idx + context_lines)) lines).

(** The test of the loop, for a given indicator list. *)
Definition fallback_with (inds : list string) (lines : list string)
    (line_idx : nat) : bool :=
  existsb (fun l => Py.any_in inds (Py.lower (Py.strip l)))
    (window lines line_idx).

Definition _is_legitimate_fallback (lines : list string) (line_idx : nat)
    (line_content : string) : bool :=
  fallback_with indicators lines line_idx.

Definition _assess_severity (line_content file_path : string) : string :=
  let path_str := Py.lower file_path in
  if Py.any_in ["core/"; "manager"; "system"] path_str then "HIGH"
  else if Py.contains "loadall" (Py.lower line_content) then "HIGH"
  else if Py.any_in ["ui/"; "gameplay"] path_str then "MEDIUM"
  else "LOW".

(** The first test of the loop body: comments, string literals,
    attributes and fallback remarks. *)
Definition skipped (line_content : string) : bool :=
  Py.startswith "//" line_content
  || Py.startswith "*" line_content
  || Py.contains (Py.dq ++ "Resources.Load") line_content
  || Py.startswith "[" line_content
  || Py.contains "Fallback to Resources" line_content
  || Py.contains "AddressablesAssetManager not available" line_content.

Definition check_line (file_path : string) (lines : list string)
    (line_num : nat) (line : string) (violations : list rviolation)
  : list rviolation :=
  let line_content := Py.strip line in
  if skipped line_content then violations
  else if _is_legitimate_fallback lines (line_num - 1) line_content
  then violations
  else
    Re.scan_patterns
      (fun p => RViolation
                  (Violation file_path line_num line_content (Re.src p))
                  (_assess_severity line_content file_path))
      line violation_patterns violations.

Definition check_file (violations : list rviolation) (f : string * string)
  : list rviolation :=
  let file_path := fst f in
  if Py.any_in exempted_files file_path then violations
  else if Py.any_in [".backup"; "Testing/"; "Tests/"; "Editor/"] file_path
  then violations
  else
    let lines := Py.readlines (snd f) in
    enumerate_from (check_line file_path lines) 1 lines violations.

Definition check_resources_load_violations (cs_files : list (string * string))
  : list rviolation :=
  fold_left check_file cs_files [].

(** The value [main] returns; printing left out. *)
Definition main (cs_files : list (string * string)) : Z :=
  match check_resources_load_violations cs_files with
  | [] => 0%Z
  | _ => 1%Z
  end.

End ResourcesBan.

(** ** CI/enforce_debug_log_ban.py *)

Module DebugLogBan.

Definition exempted_files : list string :=
  [ "ChimeraLogger.cs"; "ChimeraScriptableObject.cs"; "SharedLogger.cs";
    "QualityGates.cs"; "QualityGateRunner.cs"; "AntiPatternMigrationTool.cs";
    "DebugLogMigrationTool.cs"; "DebugLogAutoMigrationTool.cs";
    "BatchMigrationScript.cs" ].

Definition exempted_dirs : list string := [ "/Shared/"; "/CI/"; "/Editor/" ].

Definition violation_patterns : list Re.pattern :=
  [ Re.Pattern "Debug\.Log\s*\("
      (Re.seq [Re.lit "Debug.Log"; Re.Star Re.ws; Re.lit "("]);
    Re.Pattern "Debug\.LogWarning\s*\("
      (Re.seq [Re.lit "Debug.LogWarning"; Re.Star Re.ws; Re.lit "("]);
    Re.Pattern "Debug\.LogError\s*\("
      (Re.seq [Re.lit "Debug.LogError"; Re.Star Re.ws; Re.lit "("]);
    Re.Pattern "UnityEngine\.Debug\.Log\s*\("
      (Re.seq [Re.lit "UnityEngine.Debug.Log"; Re.Star Re.ws; Re.lit "("]) ].

Definition skipped (line_content : string) : bool :=
  Py.startswith "//" line_content
  || Py.startswith "*" line_content
  || Py.contains (Py.dq ++ "Debug.Log") line_content
  || Py.contains ("@" ++ Py.dq ++ "Debug\.Log") line_content.

Definition check_line (file_path : string) (line_num : nat) (line : string)
    (violations : list violation) : list violation :=
  let line_content := Py.strip line in
  if skipped line_content then violations
  else
    Re.scan_patterns
      (fun p => Violation file_path line_num line_content (Re.src p))
      line violation_patterns violations.

Definition check_file (violations : list violation) (f : string * string)
  : list violation :=
  let file_path := fst f in
  if Py.any_in exempted_files file_path then violations
  else if Py.any_in exempted_dirs file_path then violations
  else if Py.contains ".backup" file_path then violations
  else enumerate_from (check_line file_path) 1 (Py.readlines (snd f))
         violations.

Definition check_debug_log_violations (cs_files : list (string * string))
  : list violation :=
  fold_left check_file cs_files [].

(** The value [main] returns; printing left out. *)
Definition main (cs_files : list (string * string)) : Z :=
  match check_debug_log_violations cs_files with
  | [] => 0%Z
  | _ => 1%Z
  end.

End DebugLogBan.

(** ** CI/enforce_findobjectoftype_ban.py *)

Module FindObjectBan.

Definition exempted_files : list string :=
  [ "QualityGates.cs"; "AntiPatternMigrationTool.cs";
    "ServiceContainerBootstrapper.cs"; "DefaultLightingService.cs";
    "FindObjectOfTypeMigrationTest.cs" ].

(** [name<[^>]+>\s*\(] *)
Definition generic_call (name : string) : Re.regex :=
  Re.seq [Re.lit (name ++ "<"); Re.plus (Re.none_of ">"); Re.lit ">";
          Re.Star Re.ws; Re.lit "("].

Definition violation_patterns : list Re.pattern :=
  [ Re.Pattern "FindObjectOfType<[^>]+>\s*\("
      (generic_call "FindObjectOfType");
    Re.Pattern "FindObjectsOfType<[^>]+>\s*\("
      (generic_call "FindObjectsOfType");
    Re.Pattern "GameObject\.FindObjectOfType<[^>]+>\s*\("
      (generic_call "GameObject.FindObjectOfType");
    Re.Pattern "UnityEngine\.Object\.FindObjectOfType<[^>]+>\s*\("
      (generic_call "UnityEngine.Object.FindObjectOfType");
    Re.Pattern "Object\.FindObjectOfType<[^>]+>\s*\("
      (generic_call "Object.FindObjectOfType") ].

Definition skipped (line_content : string) : bool :=
  Py.startswith "//" line_content
  || Py.startswith "*" line_content
  || Py.contains (Py.dq ++ "FindObjectOfType") line_content
  || Py.startswith "[" line_content.

Definition check_line (file_path : string) (line_num : nat) (line : string)
    (violations : list violation) : list violation :=
  let line_content := Py.strip line in
  if skipped line_content then violations
  else
    Re.scan_patterns
      (fun p => Violation file_path line_num line_content (Re.src p))
      line violation_patterns violations.

Definition check_file (violations : list violation) (f : string * string)
  : list violation :=
  let file_path := fst f in
  if Py.any_in exempted_files file_path then violations
  else if Py.contains ".backup" file_path then violations
  else enumerate_from (check_line file_path) 1 (Py.readlines (snd f))
         violations.

Definition check_findobjectoftype_violations
    (cs_files : list (string * string)) : list violation :=
  fold_left check_file cs_files [].

(** The value [main] returns; printing left out. *)
Definition main (cs_files : list (string * string)) : Z :=
  match check_findobjectoftype_violations cs_files with
  | [] => 0%Z
  | _ => 1%Z
  end.

End FindObjectBan.

(** ** CI/enforce_update_method_ban.py *)

Module UpdateBan.

Definition exempted_files : list string :=
  [ "UpdateOrchestrator.cs"; "ITickable.cs"; "TickableExamples.cs";
    "UpdateOrchestratorTest.cs"; "QualityGates.cs";
    "AntiPatternMigrationTool.cs"; "UpdateMethodMigrator.cs";
    "enforce_update_method_ban.py" ].

Definition exempted_dirs : list string :=
  [ "/Interfaces/"; "/Documentation/"; "/Examples/" ].

(** [void\s+Update\s*\(\s*\)] *)
Definition VOID_UPDATE : Re.regex :=
  Re.seq [Re.lit "void"; Re.plus Re.ws; Re.lit "Update"; Re.Star Re.ws;
          Re.lit "("; Re.Star Re.ws; Re.lit ")"].

Definition violation_patterns : list Re.pattern :=
  [ Re.Pattern "(private|protected|public)?\s*void\s+Update\s*\(\s*\)"
      (Re.seq [Re.opt (Re.alts [Re.lit "private"; Re.lit "protected";
                                Re.lit "public"]);
               Re.Star Re.ws; VOID_UPDATE]);
    Re.Pattern "void\s+Update\s*\(\s*\)" VOID_UPDATE ].

Definition skipped (line_content : string) : bool :=
  Py.startswith "//" line_content
  || Py.startswith "*" line_content
  || Py.contains (Py.dq ++ "Update(") line_content
  || Py.startswith "[" line_content
  || Py.contains "ITickable" line_content.

Definition check_line (file_path : string) (line_num : nat) (line : string)
    (violations : list violation) : list violation :=
  let line_content := Py.strip line in
  if skipped line_content then violations
  else
    Re.scan_patterns
      (fun p => Violation file_path line_num line_content (Re.src p))
      line violation_patterns violations.

Definition check_file (violations : list violation) (f : string * string)
  : list violation :=
  let file_path := fst f in
  if Py.any_in exempted_files file_path then violations
  else if Py.any_in exempted_dirs file_path then violations
  else if Py.any_in [".backup"; "Testing/"; "Tests/"; "Editor/"] file_path
  then violations
  else enumerate_from (check_line file_path) 1 (Py.readlines (snd f))
         violations.

Definition check_update_method_violations (cs_files : list (string * string))
  : list violation :=
  fold_left check_file cs_files [].

(** The value [main] returns; printing left out. *)
Definition main (cs_files : list (string * string)) : Z :=
  match check_update_method_violations cs_files with
  | [] => 0%Z
  | _ => 1%Z
  end.

End UpdateBan.

(** ** CI/enforce_file_size_limits.py *)

Module FileSize.

Inductive severity : Type := LOW | MEDIUM | HIGH | CRITICAL.

Global Instance severity_eq_dec : EqDecision severity.
Proof. solve_decision. Defined.

(** The order LOW < MEDIUM < HIGH < CRITICAL. *)
Definition rank (s : severity) : nat :=
  match s with LOW => 0 | MEDIUM => 1 | HIGH => 2 | CRITICAL => 3 end.

Record size_violation : Type := SizeViolation {
  sv_file : string;
  sv_lines : Z;
  sv_limit : Z;
  sv_excess : Z;
  sv_system : string;
  sv_severity : severity
}.

Definition system_limits : gmap string Z :=
  list_to_map [ ("Core", 500%Z); ("Systems", 500%Z); ("Data", 500%Z);
                ("UI", 500%Z); ("Testing", 600%Z); ("Editor", 500%Z) ].

Definition exempted_files : list string :=
  [ "QualityGates.cs"; "AntiPatternMigrationTool.cs";
    "ServiceContainerBootstrapper.cs"; "ServiceContainerBuilder.cs" ].

(** [s.split('/')]; the accumulator holds the current part reversed. *)
Fixpoint split_slash_go (cur : string) (s : string) : list string :=
  match s with
  | "" => [String.rev cur]
  | String c s' =>
      if Ascii.eqb c "/"%char then String.rev cur :: split_slash_go "" s'
      else split_slash_go (String c cur) s'
  end.

Definition split_slash (s : string) : list string := split_slash_go "" s.

Definition determine_system_type (path_parts : list string) : string :=
  let path_str := Py.lower (String.concat "/" path_parts) in
  if Py.contains "/core/" path_str then "Core"
  else if Py.contains "/systems/" path_str then "Systems"
  else if Py.contains "/data/" path_str then "Data"
  else if Py.contains "/ui/" path_str then "UI"
  else if Py.contains "/testing/" path_str || Py.contains "/tests/" path_str
  then "Testing"
  else if Py.contains "/editor/" path_str then "Editor"
  else "Unknown".

(** [(line_count - limit) / limit], as the exact quotient.  Python rounds
    the quotient once to a binary64 number and raises [OverflowError] when
    it is too large; [calculate_severity_binary64] below computes that.
    For limits below 2^53 and line counts below 2^1023, so for the budgets
    of the table and the length of any list, every comparison of
    [calculate_severity] has the outcome of the comparison of the exact
    quotient, and the two functions are equal. *)
Definition excess_ratio (line_count limit : Z) : Q :=
  (inject_Z (line_count - limit) / inject_Z limit)%Q.

Definition tier (ratio : Q) : severity :=
  if Qle_bool 1 ratio then CRITICAL
  else if Qle_bool (1 # 2) ratio then HIGH
  else if Qle_bool (1 # 4) ratio then MEDIUM
  else LOW.

(** The same grading in binary64 arithmetic, for a line count above a
    positive limit, both below 2^53: the two integers are converted
    exactly and divided with one rounding, as Python divides them, and the
    quotient is compared with the three constants. *)
Definition binary64_ratio (line_count limit : Z) : float :=
  PrimFloat.div (PrimFloat.of_uint63 (Uint63.of_Z (line_count - limit)))
    (PrimFloat.of_uint63 (Uint63.of_Z limit)).

Definition binary64_tier (line_count limit : Z) : severity :=
  let ratio := binary64_ratio line_count limit in
  if PrimFloat.leb 1%float ratio then CRITICAL
  else if PrimFloat.leb 0.5%float ratio then HIGH
  else if PrimFloat.leb 0.25%float ratio then MEDIUM
  else LOW.

(** [None] when the division raises (a zero limit). *)
Definition calculate_severity (line_count limit : Z) : option severity :=
  if (limit =? 0)%Z then None
  else Some (tier (excess_ratio line_count limit)).

(** [calculate_severity] with the quotient rounded as Python rounds it.
    The binary64 numbers 1.0, 0.5 and 0.25 are 2^1074, 2^1073 and 2^1072
    units.  [None] when the division raises. *)
Definition calculate_severity_binary64 (line_count limit : Z)
  : option severity :=
  match Py.true_divide (line_count - limit) limit with
  | None => None
  | Some excess_ratio =>
      Some (if (2 ^ 1074 <=? excess_ratio)%Z then CRITICAL
            else if (2 ^ 1073 <=? excess_ratio)%Z then HIGH
            else if (2 ^ 1072 <=? excess_ratio)%Z then MEDIUM
            else LOW)
  end.

(** The units of a finite binary64 number of the machine. *)
Definition binary64_units (f : float) : option Z :=
  match Prim2SF f with
  | S754_zero _ => Some 0%Z
  | S754_finite s m e =>
      Some ((if s then -1 else 1) * (Z.pos m * 2 ^ (e + 1074)))%Z
  | _ => None
  end.

Definition check_file (violations : list size_violation)
    (f : string * string) : list size_violation :=
  let file_path := fst f in
  if Py.contains ".backup" file_path then violations
  else if Py.any_in exempted_files file_path then violations
  else
    let line_count := Z.of_nat (length (Py.readlines (snd f))) in
    let system_type := determine_system_type (split_slash file_path) in
    let limit := default 500%Z (system_limits !! system_type) in
    if (limit <? line_count)%Z then
      match calculate_severity line_count limit with
      | Some sev =>
          violations ++ [SizeViolation file_path line_count limit
                           (line_count - limit) system_type sev]
      | None => violations
      end
    else violations.

Definition check_file_size_violations (cs_files : list (string * string))
  : list size_violation :=
  fold_left check_file cs_files [].

(** The sort key [(x['severity'] == 'CRITICAL', x['excess'])]. *)
Definition sort_key (v : size_violation) : bool * Z :=
  (bool_decide (sv_severity v = CRITICAL), sv_excess v).

(** Tuple comparison [k1 < k2]: [False < True], then the excess. *)
Definition key_lt (k1 k2 : bool * Z) : bool :=
  match fst k1, fst k2 with
  | false, true => true
  | true, false => false
  | _, _ => (snd k1 <? snd k2)%Z
  end.

(** [violations.sort(key=..., reverse=True)]: descending and stable. *)
Fixpoint insert_desc (v : size_violation) (sorted : list size_violation)
  : list size_violation :=
  match sorted with
  | [] => [v]
  | x :: rest =>
      if key_lt (sort_key v) (sort_key x) then x :: insert_desc v rest
      else v :: sorted
  end.

Definition sort_desc (vs : list size_violation) : list size_violation :=
  foldr insert_desc [] vs.

(** [severity_counts = defaultdict(int)] filled by the loop
    [severity_counts[v['severity']] += 1]. *)
Definition bump (counts : severity -> Z) (v : size_violation)
  : severity -> Z :=
  fun s => if decide (s = sv_severity v) then (counts s + 1)%Z else counts s.

Definition severity_counts (vs : list size_violation) : severity -> Z :=
  fold_left bump vs (fun _ => 0%Z).

(** The total above which [main] only warns. *)
Definition total_ceiling : nat := 110.

(** The value [main] returns for the violations found; printing left out. *)
Definition main_exit (found : list size_violation) : Z :=
  match found with
  | [] => 0%Z
  | _ =>
      let violations := sort_desc found in
      let critical_count := severity_counts violations CRITICAL in
      if (0 <? critical_count)%Z then 1%Z
      else if total_ceiling <? length violations then 0%Z
      else 0%Z
  end.

Definition main (cs_files : list (string * string)) : Z :=
  main_exit (check_file_size_violations cs_files).

End FileSize.

(** * Vocabulary of the properties *)

(** A text is brace balanced. *)
Definition balanced (s : string) : Prop := Py.count "{" s = Py.count "}" s.

(** The invariant of the loop of [extract_data_structures]: the counter is
    the balance of the lines captured so far, and every finished
    declaration is balanced. *)
Definition scan_inv (st : Refactor.scan) : Prop :=
  Refactor.brace_count st
  = Refactor.braces (Py.join (Refactor.current_structure st))
  /\ Forall balanced (Refactor.data_structures st).

(** Lines among which there is no declaration header. *)
Definition no_header (ls : list string) : Prop :=
  Forall (fun l => Refactor.is_header (Py.strip l) = false) ls.

(** A declaration that is being captured: a header line followed by lines
    none of which has brought the brace balance back to 0. *)
Definition open_run (run : list string) : Prop :=
  exists header body,
    run = header :: body
    /\ Refactor.is_header (Py.strip header) = true
    /\ forall k, 0 < k <= length body ->
         Refactor.braces (Py.join (header :: take k body)) <> 0%Z.

(** A captured declaration: a header line followed by at least one line,
    the last of which is the first to bring the brace balance back to 0. *)
Definition closed_run (run : list string) : Prop :=
  exists header body,
    run = header :: body /\ body <> []
    /\ Refactor.is_header (Py.strip header) = true
    /\ Refactor.braces (Py.join run) = 0%Z
    /\ forall k, 0 < k < length body ->
         Refactor.braces (Py.join (header :: take k body)) <> 0%Z.

(** The lines of a list of segments, each made of dropped lines followed
    by a captured declaration. *)
Definition segment_lines (segs : list (list string * list string))
  : list string :=
  concat (map (fun s => fst s ++ snd s) segs).

(** The way [extract_data_structures] reads a list of lines: dropped lines
    without a header and a captured declaration, any number of times; then
    dropped lines without a header; then nothing more, or a declaration
    that is never closed. *)
Definition segmented (ls : list string)
    (segs : list (list string * list string)) (gap tail : list string)
  : Prop :=
  ls = segment_lines segs ++ gap ++ tail
  /\ Forall (fun s => no_header (fst s) /\ closed_run (snd s)) segs
  /\ no_header gap
  /\ (tail = [] \/ open_run tail).

(** The invariant of the loop of [extract_data_structures] over the lines
    [seen] so far. *)
Definition segments_inv (seen : list string) (st : Refactor.scan) : Prop :=
  exists segs gap,
    Refactor.data_structures st = map (fun s => Py.join (snd s)) segs
    /\ seen = segment_lines segs ++ gap ++ Refactor.current_structure st
    /\ Forall (fun s => no_header (fst s) /\ closed_run (snd s)) segs
    /\ no_header gap
    /\ Refactor.brace_count st
       = Refactor.braces (Py.join (Refactor.current_structure st))
    /\ (if Refactor.in_structure st
        then open_run (Refactor.current_structure st)
        else Refactor.current_structure st = []).

(** The number of lines of a text, as [count_lines] counts them. *)
Definition text_lines (t : string) : nat := length (Py.readlines t).

(** The split loses nothing: the retained lines followed by the extracted
    declarations are the original text, and the line counts add up. *)
Definition reproduces_original (lines : list string) (start : option nat)
  : Prop :=
  Py.join (Refactor.retained lines start)
    +:+ Py.join (Refactor.extract_data_structures lines start)
  = Py.join lines
  /\ length (Refactor.retained lines start)
     + sum_list (map text_lines (Refactor.extract_data_structures lines start))
     = length lines.

(** The world after a successful split of the file [f] whose text is
    [text]: the declarations file, then the backup, then the coordinator. *)
Definition split_world (f text : string) (w : Refactor.world)
  : Refactor.world :=
  let lines := Py.readlines text in
  let start := Refactor.find_data_structure_start lines in
  let w1 :=
    Refactor.write_file (Refactor.data_structures_path f)
      (Refactor.data_structures_text f
         (Refactor.extract_data_structures lines start)
         (Refactor.extract_namespace (Py.join lines))
         (Refactor.extract_using_statements lines)) w in
  Refactor.write_file f (Refactor.coordinator_text lines start)
    (Refactor.World
       (<[Refactor.backup_path f := text]> (Refactor.fs w1))
       (Refactor.log w1
        ++ [Refactor.EvCopy f (Refactor.backup_path f) text])).

(** The patterns of a list that are found in a text, in list order. *)
Definition matching (text : string) (patterns : list Re.pattern)
  : list Re.pattern :=
  List.filter (fun p => Re.search (Re.re p) text) patterns.

(** The indicator list of [_is_legitimate_fallback] without the one that is
    written with an upper-case letter. *)
Definition indicators_without_guard : list string :=
  [ "fallback to resources";
    "addressablesassetmanager not available";
    "fallback mechanism";
    "catch (system.exception";
    "backup loading method" ].

(** The number of violations of a given severity in a list. *)
Fixpoint occurrences (s : FileSize.severity) (vs : list FileSize.size_violation)
  : Z :=
  match vs with
  | [] => 0%Z
  | v :: rest =>
      ((if decide (s = FileSize.sv_severity v) then 1 else 0)
       + occurrences s rest)%Z
  end.

Definition quality_gate_suppressed (file_path line : string) : bool :=
  let stripped := Py.strip line in
  Py.startswith "//" stripped || Py.startswith "///" stripped
  || Py.startswith "*" stripped
  || (let line_content := QualityGates.code_text stripped in
      Py.contains (Py.dq ++ "FindObjectOfType") line_content
      || Py.contains (Py.dq ++ "Resources.Load") line_content
      || Py.contains (Py.dq ++ "Debug.Log") line_content
      || Py.contains "UnityEngine.Object.FindObject" line_content
      || Py.contains "ChimeraLogger.Log" line_content
      || Py.contains "UnityEngine.Debug.Log" line_content
      || Py.any_in ["QualityGateRunner.cs"; "QualityGates.cs";
                    "run_quality_gates.py"] file_path
      || Py.any_in ["AntiPatternMigrationTool"; "DebugLogMigrationTool";
                    "BatchMigration"; "MigrationScript"] file_path
      || Py.any_in ["ServiceContainer"; "ServiceAdvancedFeatures";
                    "TypedServiceRegistration"; "/Core/"] file_path
         && (Py.contains ".GetMethod(" line_content
             || Py.contains "Activator.CreateInstance" line_content)
      || Py.any_in ["AudioLoadingService"; "DataManager"; "/Interfaces/"]
           file_path
         && Py.contains "Resources.Load" line_content
      || Py.any_in ["ChimeraLogger.cs"; "ChimeraScriptableObject.cs";
                    "SharedLogger.cs"; "/Shared/"] file_path
      || Py.any_in ["UIProgressBarManager"; "UINotificationManager"]
           file_path
         && Py.contains "GameObject.Find" line_content).

(** The budget [check_file_size_violations] looks up for a path. *)
Definition budget (file_path : string) : Z :=
  default 500%Z
    (FileSize.system_limits
       !! FileSize.determine_system_type (FileSize.split_slash file_path)).

(** A text made of name characters only. *)
Fixpoint name_text (s : string) : bool :=
  match s with
  | "" => true
  | String c s' => Refactor.is_name_char c && name_text s'
  end.

(** A line at which [extract_using_statements] stops: it is not blank, not
    a comment and does not start with [using]. *)
Definition stops_scan (line : string) : bool :=
  negb (String.eqb (Py.strip line) "")
  && negb (Py.startswith "//" (Py.strip line))
  && negb (Py.startswith "using" (Py.strip line)).

(** The last character of a text. *)
Fixpoint last_char (s : string) : option ascii :=
  match s with
  | "" => None
  | String c "" => Some c
  | String _ s' => last_char s'
  end.

(** What a text adds to its newline count when it is read as lines: 1 for
    a last line that no newline ends. *)
Definition open_last_line (t : string) : Z :=
  match last_char t with
  | Some c => if Ascii.eqb c "010"%char then 0%Z else 1%Z
  | None => 0%Z
  end.

(** The order of the report: no later violation has a greater sort key. *)
Definition not_below (a b : FileSize.size_violation) : Prop :=
  FileSize.key_lt (FileSize.sort_key a) (FileSize.sort_key b) = false.

(** The grading by whole-number comparisons of the line count. *)
Definition graded (line_count limit : Z) : FileSize.severity :=
  if (2 * limit <=? line_count)%Z then FileSize.CRITICAL
  else if (3 * limit <=? 2 * line_count)%Z then FileSize.HIGH
  else if (5 * limit <=? 4 * line_count)%Z then FileSize.MEDIUM
  else FileSize.LOW.

(** The machine's binary64 quotient of [c - l] by [l] is the quotient that
    [Py.true_divide] computes. *)
Definition same_quotient (c l : Z) : bool :=
  bool_decide (FileSize.binary64_units (FileSize.binary64_ratio c l)
               = Py.true_divide (c - l) l).

(** ** Sample inputs *)

Module Samples.

Definition sample_path : string :=
  "Assets/ProjectChimera/Systems/Cultivation/PlantInstance.cs".

(** A file of 501 lines: the opening of the namespace and a class on lines
    1 to 400, a struct of 50 lines, a blank line, an enum of 49 lines and
    the closing brace of the namespace. *)
Definition sample_lines : list string :=
  map Py.ln
    ([ "using System;"; "namespace ProjectChimera.Systems"; "{";
       "    public class PlantInstance"; "    {" ]
     ++ replicate 393 "        // growth logic"
     ++ [ "    }"; "" ]
     ++ [ "    public struct GrowthSample"; "    {" ]
     ++ replicate 47 "        public float Value;"
     ++ [ "    }"; "" ]
     ++ [ "    public enum GrowthStage"; "    {" ]
     ++ replicate 46 "        Stage,"
     ++ [ "    }"; "}" ]).

Definition sample_text : string := Py.join sample_lines.

Definition sample_world : Refactor.world :=
  Refactor.World {[ sample_path := sample_text ]} [].

(** The same file after a first run left its backup, cut to ten lines. *)
Definition short_text : string := Py.join (take 10 sample_lines).

Definition rerun_world : Refactor.world :=
  Refactor.World
    {[ sample_path := short_text;
       Refactor.backup_path sample_path := sample_text ]} [].

(** A file of 501 lines that already has a backup. *)
Definition backed_up_world : Refactor.world :=
  Refactor.World
    {[ sample_path := sample_text;
       Refactor.backup_path sample_path := sample_text ]} [].

(** A line of code guarded by a test for a missing asset manager. *)
Definition guard_lines : list string :=
  map Py.ln
    [ "        if (assetManager == null)";
      "            return Resources.Load<Texture>(path);" ].

(** A banned call followed, five lines below, by a fallback remark. *)
Definition remark_below_lines : list string :=
  map Py.ln
    [ "        var icon = Resources.Load<Texture>(path);";
      "        Apply(icon);"; "        Refresh();"; "        Log();";
      "        Done();";
      "        // fallback mechanism for the missing atlas" ].

Definition gameplay_path : string :=
  "Assets/ProjectChimera/Gameplay/IconLoader.cs".

(** Lines whose only banned token stands in a trailing comment. *)
Definition commented_load : string :=
  Py.ln "        int count = 1; // was: Resources.Load(path)".

Definition commented_find : string :=
  Py.ln "        int count = 1; // was: FindObjectOfType<Camera>()".




Definition finding (lines : Z) (sev : FileSize.severity)
  : FileSize.size_violation :=
  FileSize.SizeViolation "Assets/ProjectChimera/Systems/Big.cs" lines 500
    (lines - 500) "Systems" sev.

End Samples.

(** * Properties *)

(** ** Facts about the string built-ins *)

Section StringFacts.

Lemma append_cons (a : ascii) (s1 s2 : string) :
  String a s1 +:+ s2 = String a (s1 +:+ s2).
Proof. reflexivity. Qed.

Lemma append_empty_l (s : string) : "" +:+ s = s.
Proof. reflexivity. Qed.

Lemma append_empty_r (s : string) : s +:+ "" = s.
Proof. induction s as [|a s IH]; [done | by rewrite append_cons, IH]. Qed.

Lemma append_assoc (s1 s2 s3 : string) :
  (s1 +:+ s2) +:+ s3 = s1 +:+ (s2 +:+ s3).
Proof. induction s1 as [|a s1 IH]; [done | by rewrite !append_cons, IH]. Qed.

Lemma count_app (c : ascii) (s1 s2 : string) :
  Py.count c (s1 +:+ s2) = (Py.count c s1 + Py.count c s2)%Z.
Proof.
  induction s1 as [|a s1 IH]; [done|].
  rewrite append_cons. simpl. rewrite IH. lia.
Qed.

Lemma count_nonneg (c : ascii) (s : string) : (0 <= Py.count c s)%Z.
Proof. induction s as [|a s IH]; simpl; [done | destruct (Ascii.eqb a c); lia]. Qed.

Lemma join_nil : Py.join [] = "".
Proof. reflexivity. Qed.

Lemma join_cons (x : string) (l : list string) :
  Py.join (x :: l) = x +:+ Py.join l.
Proof.
  unfold Py.join. destruct l as [|y l]; simpl; [|done].
  by rewrite append_empty_r.
Qed.

Lemma join_app (l1 l2 : list string) :
  Py.join (l1 ++ l2) = Py.join l1 +:+ Py.join l2.
Proof.
  induction l1 as [|x l1 IH]; [done|].
  by rewrite <- app_comm_cons, !join_cons, IH, append_assoc.
Qed.

Lemma join_singleton (x : string) : Py.join [x] = x.
Proof. reflexivity. Qed.

Lemma rev_app_append (s1 s2 : string) :
  String.rev_app s1 s2 = String.rev s1 +:+ s2.
Proof.
  revert s2. induction s1 as [|a s1 IH]; intros s2; [done|].
  unfold String.rev. cbn [String.rev_app].
  by rewrite (IH (String a s2)), (IH (String a "")), append_assoc.
Qed.

Lemma rev_cons (a : ascii) (s : string) :
  String.rev (String a s) = String.rev s +:+ String a "".
Proof. unfold String.rev at 1. cbn [String.rev_app]. apply rev_app_append. Qed.

Lemma lines_go_join (s cur : string) :
  Py.join (Py.lines_go cur s) = String.rev cur +:+ s.
Proof.
  revert cur. induction s as [|c s IH]; intros cur; cbn [Py.lines_go].
  - destruct cur; [done | by rewrite join_singleton, append_empty_r].
  - destruct (Ascii.eqb c "010"%char).
    + by rewrite join_cons, IH, rev_cons, append_assoc.
    + by rewrite IH, rev_cons, append_assoc.
Qed.

(** Joining the lines of a text gives the text back, up to the reading of
    carriage returns: [content = ''.join(lines)] is the text read. *)
Lemma readlines_join (text : string) :
  Py.join (Py.readlines text) = Py.universal_newlines text.
Proof. unfold Py.readlines. by rewrite lines_go_join. Qed.

Lemma prefix_count (c : ascii) (p s : string) :
  String.prefix p s = true -> (Py.count c p <= Py.count c s)%Z.
Proof.
  revert s. induction p as [|a p IH]; intros s H; simpl.
  - apply count_nonneg.
  - destruct s as [|b s]; simpl in H; [done|].
    destruct (ascii_dec a b) as [->|]; [|done].
    simpl. specialize (IH _ H). lia.
Qed.

Lemma contains_eq (sub s : string) :
  Py.contains sub s =
  String.prefix sub s
  || match s with "" => false | String _ s' => Py.contains sub s' end.
Proof. destruct s; reflexivity. Qed.

(** A text contains no more of a character than a text it occurs in. *)
Lemma contains_count (c : ascii) (sub s : string) :
  Py.contains sub s = true -> (Py.count c sub <= Py.count c s)%Z.
Proof.
  induction s as [|b s IH]; rewrite contains_eq; intros H.
  - rewrite orb_false_r in H. by apply (prefix_count c) in H.
  - apply orb_true_iff in H as [H|H].
    + by apply (prefix_count c) in H.
    + specialize (IH H). simpl. destruct (Ascii.eqb b c); lia.
Qed.

Lemma lower_char_not_upper_M (c : ascii) : Py.lower_char c <> "M"%char.
Proof. destruct c as [[] [] [] [] [] [] [] []]; vm_compute; discriminate. Qed.

Lemma lower_no_upper_M (s : string) : Py.count "M" (Py.lower s) = 0%Z.
Proof.
  induction s as [|a s IH]; simpl; [done|].
  rewrite IH. destruct (Ascii.eqb_spec (Py.lower_char a) "M"%char) as [E|]; [|done].
  by apply lower_char_not_upper_M in E.
Qed.

End StringFacts.

(** ** The matcher decides the language of a pattern *)

Section RegexFacts.

Import Re.

Lemma append_eq_empty (s1 s2 : string) : s1 +:+ s2 = "" -> s1 = "" /\ s2 = "".
Proof. destruct s1; [done | discriminate]. Qed.

Lemma append_eq_cons (s1 s2 s : string) (a : ascii) :
  s1 +:+ s2 = String a s ->
  (s1 = "" /\ s2 = String a s) \/ (exists s1', s1 = String a s1' /\ s = s1' +:+ s2).
Proof.
  destruct s1 as [|b s1]; intros H; [by left|].
  rewrite append_cons in H. injection H as -> <-. right. by exists s1.
Qed.

Lemma nullable_lang (r : regex) : nullable r = true <-> lang r "".
Proof.
  induction r as [| |k|r1 IH1 r2 IH2|r1 IH1 r2 IH2|r IH]; simpl.
  - split; [done | inversion 1].
  - split; [constructor | done].
  - split; [done | inversion 1].
  - rewrite andb_true_iff, IH1, IH2. split.
    + intros [H1 H2]. apply (lang_cat _ _ "" "" H1 H2).
    + inversion 1 as [| |? ? s1 s2 H1 H2 E1 E2| | | |]; subst.
      apply append_eq_empty in E2 as [-> ->]. done.
  - rewrite orb_true_iff, IH1, IH2. split.
    + intros [H|H]; [by apply lang_alt_l | by apply lang_alt_r].
    + inversion 1; subst; auto.
  - split; [constructor | done].
Qed.

Lemma lang_void (s : string) : ~ lang Void s.
Proof. inversion 1. Qed.

Lemma lang_eps_inv (s : string) : lang Eps s -> s = "".
Proof. by inversion 1. Qed.

Lemma cat_lang (r1 r2 : regex) (s : string) :
  lang (cat r1 r2) s <-> lang (Cat r1 r2) s.
Proof.
  assert (forall r, lang Void s <-> lang (Cat Void r) s) as HV1.
  { intros r. split; [inversion 1|].
    inversion 1 as [| |? ? s1 s2 H1 H2 E1 E2| | | |]. by apply lang_void in H1. }
  assert (forall r, lang Void s <-> lang (Cat r Void) s) as HV2.
  { intros r. split; [inversion 1|].
    inversion 1 as [| |? ? s1 s2 H1 H2 E1 E2| | | |]. by apply lang_void in H2. }
  assert (forall r, lang r s <-> lang (Cat Eps r) s) as HE.
  { intros r. split.
    - intros H. apply (lang_cat Eps r "" s); [constructor | done].
    - inversion 1 as [| |? ? s1 s2 H1 H2 E1 E2| | | |]; subst.
      apply lang_eps_inv in H1 as ->. done. }
  destruct r1; simpl; try apply HV1; destruct r2; simpl;
    try apply HV2; try apply HE; done.
Qed.

Lemma alt_lang (r1 r2 : regex) (s : string) :
  lang (alt r1 r2) s <-> lang (Alt r1 r2) s.
Proof.
  assert (forall r, lang r s <-> lang (Alt Void r) s) as HV1.
  { intros r. split; [by apply lang_alt_r|].
    inversion 1; subst; [by exfalso; eapply lang_void | done]. }
  assert (forall r, lang r s <-> lang (Alt r Void) s) as HV2.
  { intros r. split; [by apply lang_alt_l|].
    inversion 1; subst; [done | by exfalso; eapply lang_void]. }
  destruct r1; simpl; try apply HV1; destruct r2; simpl; try apply HV2; done.
Qed.

(** A non-empty word of a starred language starts with a non-empty word of
    the language. *)
Lemma star_cons_inv (r : regex) (a : ascii) (s : string) :
  lang (Star r) (String a s) ->
  exists s1 s2, s = s1 +:+ s2 /\ lang r (String a s1) /\ lang (Star r) s2.
Proof.
  intros H. remember (Star r) as r' eqn:Er. remember (String a s) as x eqn:Ex.
  revert s Ex. induction H as [| | | | | |r0 s1 s2 H1 _ H2 IH2]; try done.
  injection Er as ->. intros s Ex.
  apply append_eq_cons in Ex as [[-> ->]|(s1' & -> & ->)].
  - by apply IH2.
  - by exists s1', s2.
Qed.

Lemma deriv_lang (a : ascii) (r : regex) (s : string) :
  lang (deriv a r) s <-> lang r (String a s).
Proof.
  revert s. induction r as [| |k|r1 IH1 r2 IH2|r1 IH1 r2 IH2|r IH]; intros s; simpl.
  - split; inversion 1.
  - split; inversion 1.
  - destruct (in_cls k a) eqn:E; split.
    + intros H. apply lang_eps_inv in H as ->. by constructor.
    + inversion 1; subst. constructor.
    + inversion 1.
    + inversion 1; subst. congruence.
  - assert (lang (cat (deriv a r1) r2) s
            <-> exists s1 s2, s = s1 +:+ s2 /\ lang r1 (String a s1) /\ lang r2 s2)
      as Hleft.
    { rewrite cat_lang. split.
      - inversion 1 as [| |? ? s1 s2 H1 H2 E1 E2| | | |]; subst.
        exists s1, s2. by rewrite <- IH1.
      - intros (s1 & s2 & -> & H1 & H2). constructor; [by apply IH1 | done]. }
    assert (lang (Cat r1 r2) (String a s)
            <-> (exists s1 s2, s = s1 +:+ s2 /\ lang r1 (String a s1) /\ lang r2 s2)
                \/ (lang r1 "" /\ lang r2 (String a s))) as Hcat.
    { split.
      - inversion 1 as [| |? ? s1 s2 H1 H2 E1 E2| | | |]; subst.
        apply append_eq_cons in E2 as [[-> ->]|(s1' & -> & ->)].
        + by right.
        + left. by exists s1', s2.
      - intros [(s1 & s2 & -> & H1 & H2)|[H1 H2]].
        + rewrite <- append_cons. by constructor.
        + by apply (lang_cat r1 r2 "" (String a s)). }
    rewrite Hcat. destruct (nullable r1) eqn:N.
    + rewrite alt_lang. apply nullable_lang in N. split.
      * inversion 1; subst; [left; by apply Hleft | right; by rewrite <- IH2].
      * intros [H|[_ H]]; [apply lang_alt_l; by apply Hleft
                          | apply lang_alt_r; by apply IH2].
    + rewrite Hleft. split; [by left|]. intros [H|[H _]]; [done|].
      apply nullable_lang in H. congruence.
  - rewrite alt_lang. split.
    + inversion 1; subst; [apply lang_alt_l; by apply IH1
                          | apply lang_alt_r; by apply IH2].
    + inversion 1; subst; [apply lang_alt_l; by apply IH1
                          | apply lang_alt_r; by apply IH2].
  - rewrite cat_lang. split.
    + inversion 1 as [| |? ? s1 s2 H1 H2 E1 E2| | | |]; subst.
      rewrite <- append_cons. constructor; [by apply IH | done].
    + intros H. apply star_cons_inv in H as (s1 & s2 & -> & H1 & H2).
      constructor; [by apply IH | done].
Qed.

(** [matches] holds exactly when a prefix of the text is a word of the
    pattern. *)
Lemma matches_lang (r : regex) (s : string) :
  matches r s = true <-> exists p rest, s = p +:+ rest /\ lang r p.
Proof.
  revert r. induction s as [|a s IH]; intros r; simpl.
  - rewrite orb_false_r, nullable_lang. split.
    + intros H. by exists "", "".
    + intros (p & rest & E & H). symmetry in E.
      apply append_eq_empty in E as [-> _]. done.
  - rewrite orb_true_iff, nullable_lang, IH. split.
    + intros [H|(p & rest & -> & H)].
      * by exists "", (String a s).
      * exists (String a p), rest. split; [done | by apply deriv_lang].
    + intros (p & rest & E & H). symmetry in E.
      apply append_eq_cons in E as [[-> _]|(p' & -> & ->)]; [by left|].
      right. exists p', rest. split; [done | by apply deriv_lang].
Qed.

(** [search] holds exactly when some part of the text is a word of the
    pattern. *)
Lemma search_lang (r : regex) (s : string) :
  search r s = true <-> exists pre p post, s = pre +:+ p +:+ post /\ lang r p.
Proof.
  induction s as [|a s IH]; cbn [search].
  - rewrite orb_false_r, matches_lang. split.
    + intros (p & rest & E & H). by exists "", p, rest.
    + intros (pre & p & post & E & H). symmetry in E.
      apply append_eq_empty in E as [-> E]. by exists p, post.
  - rewrite orb_true_iff, matches_lang, IH. split.
    + intros [(p & rest & E & H)|(pre & p & post & -> & H)].
      * by exists "", p, rest.
      * by exists (String a pre), p, post.
    + intros (pre & p & post & E & H). destruct pre as [|b pre].
      * left. by exists p, post.
      * rewrite append_cons in E. injection E as <- ->.
        right. by exists pre, p, post.
Qed.

End RegexFacts.

(** ** The brace balance of extracted declarations *)

Section Balance.

Import Refactor.

Lemma braces_app (s1 s2 : string) :
  braces (s1 +:+ s2) = (braces s1 + braces s2)%Z.
Proof. unfold braces. rewrite !count_app. lia. Qed.

Lemma scan_inv_init : scan_inv scan_init.
Proof. split; [reflexivity | constructor]. Qed.

Lemma scan_inv_step (st : scan) (line : string) :
  scan_inv st -> scan_inv (scan_line st line).
Proof.
  intros [Hbc Hds]. unfold scan_line.
  destruct (is_header (Py.strip line) && negb (in_structure st)).
  { split; [done | done]. }
  destruct (in_structure st); [|done].
  destruct (Z.eqb_spec (brace_count st + braces line) 0) as [E|E];
    unfold scan_inv; cbn [brace_count current_structure data_structures].
  - split; [by rewrite E|].
    apply Forall_app; split; [done|]. constructor; [|constructor].
    unfold balanced. rewrite join_app, join_singleton.
    rewrite Hbc, <- braces_app in E. unfold braces in E. lia.
  - split; [|done]. by rewrite join_app, join_singleton, braces_app, Hbc.
Qed.

Lemma scan_inv_fold (rest : list string) (st : scan) :
  scan_inv st -> scan_inv (fold_left scan_line rest st).
Proof.
  revert st. induction rest as [|l rest IH]; intros st H; simpl; [done|].
  by apply IH, scan_inv_step.
Qed.

End Balance.

(** C4.  Every declaration returned by [extract_data_structures] is brace
    balanced: over its captured lines the number of opening braces equals
    the number of closing braces.  This holds for every line list and start
    line, so in particular for any file that is split. *)
Theorem extracted_declarations_balanced
    (lines : list string) (start_line : option nat) :
  Forall balanced (Refactor.extract_data_structures lines start_line).
Proof.
  destruct start_line as [start|]; simpl; [|constructor].
  apply scan_inv_fold, scan_inv_init.
Qed.

(** Two declarations, of 50 and 49 lines, are extracted from the sample. *)
Example sample_declarations :
  Refactor.find_data_structure_start Samples.sample_lines = Some 400
  /\ map text_lines
       (Refactor.extract_data_structures Samples.sample_lines (Some 400))
     = [50; 49].
Proof. split; vm_compute; reflexivity. Qed.

(** ** Paths *)

Section Paths.

Import Refactor.

Lemma rsplit_Some (c : ascii) (s l r : string) :
  rsplit c s = Some (l, r) -> s = l +:+ String c r.
Proof.
  revert l r. induction s as [|a s IH]; intros l r H; simpl in H; [done|].
  destruct (rsplit c s) as [[l' r']|].
  - injection H as <- <-. by rewrite append_cons, <- (IH l' r').
  - destruct (Ascii.eqb_spec a c) as [->|]; [|done].
    by injection H as <- <-.
Qed.

Lemma append_neq_self (s t : string) : t <> "" -> s +:+ t <> s.
Proof.
  intros Ht E. apply Ht. apply (inj (String.app s)).
  by rewrite append_empty_r.
Qed.

(** A name is never its own stem followed by [DataStructures.cs]: what
    follows the stem in a name is empty or starts with a dot. *)
Lemma stem_suffix_differs (n : string) :
  name_stem n +:+ "DataStructures.cs" <> n.
Proof.
  unfold name_stem. destruct (rsplit "." n) as [[l r]|] eqn:E.
  - apply rsplit_Some in E.
    destruct l as [|c l]; [by apply append_neq_self|].
    destruct r as [|d r]; [by apply append_neq_self|].
    intros H. rewrite E in H.
    by apply (inj (String.app (String c l))) in H.
  - by apply append_neq_self.
Qed.

(** The declarations file is never the file being split. *)
Lemma data_structures_path_fresh (f : string) : data_structures_path f <> f.
Proof.
  unfold data_structures_path, path_stem, path_name, sibling.
  destruct (rsplit "/" f) as [[d n]|] eqn:E.
  - apply rsplit_Some in E. intros H. rewrite E in H.
    apply (inj (String.app d)) in H.
    change ("/" +:+ ?x) with (String "/" x) in H.
    injection H as H. by apply stem_suffix_differs in H.
  - apply stem_suffix_differs.
Qed.

Lemma backup_path_fresh (f : string) : backup_path f <> f.
Proof. by apply append_neq_self. Qed.

End Paths.

(** ** The runs of [refactor_file] *)

Section RefactorRuns.

Import Refactor.

Lemma find_from_bounds (rest : list string) (i k : nat) :
  find_from i rest = Some k -> i <= k < i + length rest /\ 50 < k.
Proof.
  revert i. induction rest as [|l rest IH]; intros i H; simpl in H; [done|].
  destruct (is_header (Py.strip l) && (50 <? i)) eqn:E.
  - injection H as <-. apply andb_true_iff in E as [_ E].
    apply Nat.ltb_lt in E. simpl. lia.
  - apply IH in H. simpl. lia.
Qed.

Lemma find_start_bounds (lines : list string) (k : nat) :
  find_data_structure_start lines = Some k -> min_line <= k < length lines.
Proof.
  unfold find_data_structure_start. intros H.
  apply find_from_bounds in H. rewrite length_drop in H. lia.
Qed.

Lemma end_line_found (lines : list string) (k : nat) :
  find_data_structure_start lines = Some k -> end_line lines (Some k) = k.
Proof.
  intros H. apply find_start_bounds in H. unfold min_line in H.
  destruct k; [lia | done].
Qed.

(** [refactor_file] either skips and changes nothing, or performs the
    split described by [split_world]; no exception leaves it. *)
Lemma refactor_file_cases (f : string) (w : world) :
  (exists o, refactor_file f w = (o, w) /\ returns_true o = false /\ o <> Raised)
  \/ (exists text start,
        fs w !! f = Some text
        /\ exists_ w (backup_path f) = false
        /\ find_data_structure_start (Py.readlines text) = Some start
        /\ extract_data_structures (Py.readlines text) (Some start) <> []
        /\ refactor_file f w = (Refactored, split_world f text w)).
Proof.
  unfold refactor_file, exists_, count_lines.
  destruct (fs w !! f) as [text|] eqn:Hf; cbn [negb];
    [|left; by exists NotFound].
  destruct (length (Py.readlines text) <? 500); [left; by exists UnderLimit|].
  destruct (fs w !! backup_path f) eqn:Hb; [left; by exists AlreadyRefactored|].
  destruct (find_data_structure_start (Py.readlines text)) as [start|] eqn:Hs;
    [|left; by exists NoStructuresFound].
  destruct (extract_data_structures (Py.readlines text) (Some start)) eqn:Hd;
    [left; by exists NoneExtracted|].
  right. exists text, start. split_and!; try done; [by rewrite Hd|].
  unfold create_data_structures_file, create_streamlined_coordinator,
    copy2, write_file. cbn [fs log].
  rewrite lookup_insert_ne by apply data_structures_path_fresh.
  rewrite Hf, (end_line_found _ _ Hs).
  pose proof (find_start_bounds _ _ Hs) as Hk.
  destruct (Nat.ltb_spec (length (Py.readlines text)) start); [lia|].
  unfold split_world, write_file. cbn [fs log]. by rewrite Hs, Hd.
Qed.

Lemma segment_lines_snoc (segs : list (list string * list string))
    (gap run : list string) :
  segment_lines (segs ++ [(gap, run)]) = segment_lines segs ++ gap ++ run.
Proof.
  unfold segment_lines. rewrite map_app, concat_app. cbn [map concat fst snd].
  by rewrite app_nil_r.
Qed.

Lemma segments_inv_step (seen : list string) (st : scan) (l : string) :
  segments_inv seen st -> segments_inv (seen ++ [l]) (scan_line st l).
Proof.
  intros (segs & gap & Hds & Hseen & Hsegs & Hgap & Hbc & Hin).
  unfold scan_line.
  destruct (in_structure st) eqn:Hst.
  - rewrite andb_false_r.
    destruct Hin as (header & body & Hcur & Hhead & Hopen).
    assert (brace_count st + braces l
            = braces (Py.join (current_structure st ++ [l])))%Z as Hbc'.
    { by rewrite join_app, braces_app, join_singleton, Hbc. }
    assert (forall k, 0 < k <= length body ->
              take k (body ++ [l]) = take k body) as Htake.
    { intros k Hk. by rewrite take_app_le by lia. }
    destruct (brace_count st + braces l =? 0)%Z eqn:Hz.
    + apply Z.eqb_eq in Hz.
      exists (segs ++ [(gap, current_structure st ++ [l])]), [].
      cbn [data_structures current_structure brace_count in_structure].
      split_and!.
      * by rewrite map_app, Hds.
      * rewrite segment_lines_snoc, Hseen, !app_nil_r.
        by rewrite <- !app_assoc.
      * apply Forall_app. split; [done|]. constructor; [|constructor].
        cbn [fst snd]. split; [done|].
        exists header, (body ++ [l]). rewrite Hcur. split_and!.
        -- done.
        -- by destruct body.
        -- done.
        -- rewrite <- Hcur. lia.
        -- intros k Hk. rewrite length_app in Hk. cbn [length] in Hk.
           rewrite Htake by lia. apply Hopen. lia.
      * constructor.
      * done.
      * done.
    + apply Z.eqb_neq in Hz.
      exists segs, gap.
      cbn [data_structures current_structure brace_count in_structure].
      split_and!; try done.
      * rewrite Hseen. by rewrite <- !app_assoc.
      * exists header, (body ++ [l]). rewrite Hcur. split_and!; try done.
        intros k Hk. rewrite length_app in Hk. cbn [length] in Hk.
        destruct (decide (k <= length body)) as [Hle|Hgt].
        -- rewrite Htake by lia. apply Hopen. lia.
        -- rewrite take_ge by (rewrite length_app; cbn [length]; lia).
           change (header :: body ++ [l]) with ((header :: body) ++ [l]).
           rewrite <- Hcur. lia.
  - rewrite andb_true_r. rewrite Hin in Hseen.
    destruct (is_header (Py.strip l)) eqn:Hl.
    + exists segs, gap.
      cbn [data_structures current_structure brace_count in_structure].
      split_and!; try done.
      * rewrite Hseen, app_nil_r. by rewrite <- app_assoc.
      * exists l, []. split_and!; try done. intros k Hk. cbn [length] in Hk. lia.
    + exists segs, (gap ++ [l]). rewrite Hst, Hin. split_and!; try done.
      * rewrite Hseen, !app_nil_r. by rewrite <- app_assoc.
      * apply Forall_app. split; [done|]. by constructor.
      * by rewrite <- Hin.
Qed.

Lemma segments_inv_fold (rest seen : list string) (st : scan) :
  segments_inv seen st ->
  segments_inv (seen ++ rest) (fold_left scan_line rest st).
Proof.
  revert seen st. induction rest as [|l rest IH]; intros seen st H; simpl.
  - by rewrite app_nil_r.
  - replace (seen ++ l :: rest) with ((seen ++ [l]) ++ rest)
      by (by rewrite <- app_assoc).
    by apply IH, segments_inv_step.
Qed.

(** The declarations extracted from a list of lines are those of the one
    way to read it as segments. *)
Lemma extracted_segments (lines : list string) (start : nat) :
  exists segs gap tail,
    segmented (drop start lines) segs gap tail
    /\ extract_data_structures lines (Some start)
       = map (fun s => Py.join (snd s)) segs.
Proof.
  destruct (segments_inv_fold (drop start lines) [] scan_init)
    as (segs & gap & Hds & Hseen & Hsegs & Hgap & _ & Hin).
  { exists [], []. split_and!; try done; constructor. }
  exists segs, gap, (current_structure (fold_left scan_line (drop start lines)
                                           scan_init)).
  split; [|done]. split_and!; try done.
  destruct (in_structure _); [by right | by left].
Qed.

(** The captured lines are met in this order among all the lines. *)
Lemma segment_runs_sublist (segs : list (list string * list string))
    (rest : list string) :
  concat (map snd segs) `sublist_of` segment_lines segs ++ rest.
Proof.
  induction segs as [|[gap run] segs IH]; [apply sublist_nil_l|].
  unfold segment_lines in *. cbn [map concat fst snd].
  rewrite <- !app_assoc. apply sublist_inserts_l.
  by apply sublist_app.
Qed.

Lemma segment_lines_length (segs : list (list string * list string)) :
  length (segment_lines segs)
  = length (concat (map fst segs)) + length (concat (map snd segs)).
Proof.
  induction segs as [|[gap run] segs IH]; [done|].
  unfold segment_lines in *. cbn [map concat fst snd].
  rewrite !length_app, IH. lia.
Qed.

(** Outside a declaration, lines without a header change nothing. *)
Lemma scan_gap (gap : list string) (st : scan) :
  no_header gap -> in_structure st = false ->
  fold_left scan_line gap st = st.
Proof.
  intros Hgap Hst. induction Hgap as [|l gap Hl _ IH]; [done|].
  cbn [fold_left]. unfold scan_line at 2. by rewrite Hl, Hst.
Qed.

(** Inside a declaration, lines that do not bring the balance back to 0
    are captured. *)
Lemma scan_body (body : list string) (ds cur : list string) (bc : Z) :
  (forall k, 0 < k <= length body ->
     (bc + braces (Py.join (take k body)) <> 0)%Z) ->
  fold_left scan_line body (Scan ds cur bc true)
  = Scan ds (cur ++ body) (bc + braces (Py.join body)) true.
Proof.
  revert cur bc. induction body as [|l body IH]; intros cur bc Hopen.
  - cbn [fold_left]. rewrite app_nil_r, join_nil.
    change (braces "") with 0%Z. by rewrite Z.add_0_r.
  - cbn [fold_left]. unfold scan_line at 2.
    cbn [in_structure current_structure brace_count data_structures].
    rewrite andb_false_r.
    pose proof (Hopen 1 ltac:(cbn [length]; lia)) as H1.
    cbn [take] in H1. rewrite take_0, join_singleton in H1.
    destruct (Z.eqb_spec (bc + braces l) 0); [done|].
    rewrite IH.
    + rewrite <- app_assoc, join_cons, braces_app. f_equal. lia.
    + intros k Hk. specialize (Hopen (S k) ltac:(cbn [length]; lia)).
      cbn [take] in Hopen. rewrite join_cons, braces_app in Hopen. lia.
Qed.

(** A captured declaration is appended, and the scan is outside a
    declaration again. *)
Lemma scan_closed (run : list string) (ds cur : list string) (bc : Z) :
  closed_run run ->
  fold_left scan_line run (Scan ds cur bc false)
  = Scan (ds ++ [Py.join run]) [] 0 false.
Proof.
  intros (header & body & -> & Hbody & Hhead & Hzero & Hopen).
  destruct (exists_last Hbody) as (body0 & l & ->).
  cbn [fold_left]. unfold scan_line at 2.
  cbn [in_structure]. rewrite Hhead. cbn [andb negb data_structures].
  rewrite fold_left_app, scan_body.
  - cbn [fold_left]. unfold scan_line.
    cbn [in_structure current_structure brace_count data_structures].
    rewrite andb_false_r.
    assert (braces header + braces (Py.join body0) + braces l = 0)%Z as Hz.
    { rewrite <- Hzero, join_cons, braces_app, join_app, braces_app.
      rewrite join_singleton. lia. }
    rewrite Hz. cbn [Z.eqb]. by rewrite <- app_assoc.
  - intros k Hk. specialize (Hopen k).
    rewrite length_app in Hopen. cbn [length] in Hopen.
    rewrite take_app_le, join_cons, braces_app in Hopen by lia.
    apply Hopen. lia.
Qed.

(** A declaration that is never closed adds nothing. *)
Lemma scan_open (tail : list string) (ds cur : list string) (bc : Z) :
  open_run tail ->
  data_structures (fold_left scan_line tail (Scan ds cur bc false)) = ds.
Proof.
  intros (header & body & -> & Hhead & Hopen).
  cbn [fold_left]. unfold scan_line at 2.
  cbn [in_structure]. rewrite Hhead. cbn [andb negb data_structures].
  rewrite scan_body; [done|].
  intros k Hk. specialize (Hopen k Hk).
  by rewrite join_cons, braces_app in Hopen.
Qed.

Lemma scan_segments (segs : list (list string * list string))
    (ds cur : list string) (bc : Z) :
  Forall (fun s => no_header (fst s) /\ closed_run (snd s)) segs ->
  segs <> [] ->
  fold_left scan_line (segment_lines segs) (Scan ds cur bc false)
  = Scan (ds ++ map (fun s => Py.join (snd s)) segs) [] 0 false.
Proof.
  intros Hsegs. revert ds cur bc.
  induction Hsegs as [|[gap run] segs [Hgap Hrun] _ IH]; intros ds cur bc Hne;
    [done|].
  unfold segment_lines in *. cbn [map concat fst snd] in *.
  rewrite !fold_left_app, (scan_gap gap), (scan_closed run) by done.
  destruct segs as [|s segs]; [done|].
  rewrite IH by done. by rewrite <- app_assoc.
Qed.

(** However a list of lines is read as segments, the declarations
    extracted are the captured ones. *)
Lemma extract_segmented (lines : list string) (start : nat)
    (segs : list (list string * list string)) (gap tail : list string) :
  segmented (drop start lines) segs gap tail ->
  extract_data_structures lines (Some start)
  = map (fun s => Py.join (snd s)) segs.
Proof.
  intros (Hls & Hsegs & Hgap & Htail).
  unfold extract_data_structures. rewrite Hls, !fold_left_app.
  assert (exists cur bc,
            fold_left scan_line (segment_lines segs) scan_init
            = Scan (map (fun s => Py.join (snd s)) segs) cur bc false)
    as (cur & bc & ->).
  { destruct segs as [|s segs]; [by exists [], 0%Z|].
    exists [], 0%Z. unfold scan_init. by rewrite scan_segments. }
  rewrite (scan_gap gap) by done.
  destruct Htail as [->|Hopen]; [done|]. by apply scan_open.
Qed.

End RefactorRuns.

(** ** What a split keeps *)

(** C1 as stated fails.  The sample file of 501 lines is split, yet the
    400 retained lines followed by the two extracted declarations (50 and
    49 lines) are not the original text, and the line counts add up to 499:
    the blank line between the declarations and the closing brace of the
    namespace are in neither part. *)
Lemma split_drops_lines :
  let lines := Py.readlines Samples.sample_text in
  let start := Refactor.find_data_structure_start lines in
  fst (Refactor.refactor_file Samples.sample_path Samples.sample_world)
  = Refactor.Refactored
  /\ Py.join (Refactor.retained lines start)
       +:+ Py.join (Refactor.extract_data_structures lines start)
     <> Py.join lines
  /\ length (Refactor.retained lines start)
     + sum_list (map text_lines (Refactor.extract_data_structures lines start))
     <> length lines
  /\ ~ reproduces_original lines start.
Proof.
  assert (forall a b : nat, (a =? b) = false -> a <> b) as Hne
    by (intros a b H; by apply Nat.eqb_neq).
  cbv zeta. split_and!.
  - vm_compute. reflexivity.
  - apply String.eqb_neq. vm_compute. reflexivity.
  - apply Hne. vm_compute. reflexivity.
  - intros [_ H]. revert H. apply Hne. vm_compute. reflexivity.
Qed.

(** C1, amended.  When [refactor_file] returns [True], the original lines
    are, in this order: the lines before the first detected header, which
    the coordinator retains (followed there by the synthetic closing
    lines); then dropped lines and captured declarations by turns; then
    dropped lines and possibly a declaration that is never closed, dropped
    too.  Each extracted declaration is the exact text of one captured run
    of consecutive original lines.  So the retained lines followed by the
    lines of the declarations are a subsequence of the original lines, and
    the coordinator's retained line count plus the declarations' line
    counts plus the number of dropped lines is the original line count. *)
Theorem split_keeps_lines_in_order (f : string) (w w' : Refactor.world) :
  Refactor.refactor_file f w = (Refactor.Refactored, w') ->
  exists (text : string) (start : nat)
         (segs : list (list string * list string)) (gap tail : list string),
    let lines := Py.readlines text in
    let runs := map snd segs in
    let dropped := concat (map fst segs) ++ gap ++ tail in
    Refactor.fs w !! f = Some text
    /\ Refactor.find_data_structure_start lines = Some start
    /\ Refactor.retained lines (Some start) = take start lines
    /\ Refactor.fs w' !! f = Some (Refactor.coordinator_text lines (Some start))
    /\ lines = take start lines ++ segment_lines segs ++ gap ++ tail
    /\ segmented (drop start lines) segs gap tail
    /\ Refactor.extract_data_structures lines (Some start) = map Py.join runs
    /\ (take start lines ++ concat runs) `sublist_of` lines
    /\ start + length (concat runs) + length dropped = length lines
    /\ start + length (concat runs) <= length lines.
Proof.
  intros H.
  destruct (refactor_file_cases f w) as [(o & Ho & Hf & _)|(text & start & Hw)].
  { rewrite Ho in H. injection H as -> _. done. }
  destruct Hw as (Htext & _ & Hstart & _ & Hrun).
  rewrite Hrun in H. injection H as <-.
  destruct (extracted_segments (Py.readlines text) start)
    as (segs & gap & tail & Hseg & Hruns).
  exists text, start, segs, gap, tail. cbv zeta.
  pose proof (find_start_bounds _ _ Hstart) as Hk.
  assert (Py.readlines text
          = take start (Py.readlines text) ++ segment_lines segs ++ gap ++ tail)
    as Hlines.
  { destruct Hseg as (Hdrop & _). rewrite <- Hdrop. by rewrite take_drop. }
  assert ((take start (Py.readlines text) ++ concat (map snd segs))
            `sublist_of` Py.readlines text) as Hall.
  { assert (take start (Py.readlines text)
              `sublist_of` take start (Py.readlines text)) as Hrefl by done.
    pose proof (sublist_app _ _ _ _ Hrefl
                  (segment_runs_sublist segs (gap ++ tail))) as Hs.
    by rewrite <- Hlines in Hs. }
  assert (start + length (concat (map snd segs))
          + length (concat (map fst segs) ++ gap ++ tail)
          = length (Py.readlines text)) as Hcount.
  { pose proof (f_equal length Hlines) as Hlen.
    rewrite !length_app, length_take, segment_lines_length in Hlen.
    rewrite !length_app. lia. }
  split_and!; try done.
  - unfold Refactor.retained. by rewrite (end_line_found _ _ Hstart).
  - unfold split_world, Refactor.write_file. cbn [Refactor.fs].
    by rewrite Hstart, lookup_insert_eq.
  - by rewrite Hruns, map_map.
  - lia.
Qed.

(** The split of the sample file. *)
Lemma split_keeps_lines_in_order_witness :
  Refactor.refactor_file Samples.sample_path Samples.sample_world
  = (Refactor.Refactored,
     snd (Refactor.refactor_file Samples.sample_path Samples.sample_world))
  /\ exists (text : string) (start : nat)
         (segs : list (list string * list string)) (gap tail : list string),
    let lines := Py.readlines text in
    let runs := map snd segs in
    let dropped := concat (map fst segs) ++ gap ++ tail in
    Refactor.fs Samples.sample_world !! Samples.sample_path = Some text
    /\ Refactor.find_data_structure_start lines = Some start
    /\ Refactor.retained lines (Some start) = take start lines
    /\ Refactor.fs
         (snd (Refactor.refactor_file Samples.sample_path Samples.sample_world))
       !! Samples.sample_path
       = Some (Refactor.coordinator_text lines (Some start))
    /\ lines = take start lines ++ segment_lines segs ++ gap ++ tail
    /\ segmented (drop start lines) segs gap tail
    /\ Refactor.extract_data_structures lines (Some start) = map Py.join runs
    /\ (take start lines ++ concat runs) `sublist_of` lines
    /\ start + length (concat runs) + length dropped = length lines
    /\ start + length (concat runs) <= length lines.
Proof.
  assert (Refactor.refactor_file Samples.sample_path Samples.sample_world
          = (Refactor.Refactored,
             snd (Refactor.refactor_file Samples.sample_path
                    Samples.sample_world))) as Hrun
    by (vm_compute; reflexivity).
  split; [exact Hrun|].
  exact (split_keeps_lines_in_order Samples.sample_path Samples.sample_world
           _ Hrun).
Defined.

(** ** Re-running on a file that has a backup *)

(** C5 as stated fails.  The file was split by an earlier run, so its
    backup exists and ten lines are left of it: the re-run skips it as
    already under 500 lines, not as already refactored, because the line
    count is tested before the backup. *)
Lemma rerun_reports_under_limit :
  Refactor.exists_ Samples.rerun_world
    (Refactor.backup_path Samples.sample_path) = true
  /\ fst (Refactor.refactor_file Samples.sample_path Samples.rerun_world)
     = Refactor.UnderLimit
  /\ fst (Refactor.refactor_file Samples.sample_path Samples.rerun_world)
     <> Refactor.AlreadyRefactored.
Proof.
  assert (fst (Refactor.refactor_file Samples.sample_path Samples.rerun_world)
          = Refactor.UnderLimit) as E by (vm_compute; reflexivity).
  split_and!; [vm_compute; reflexivity | exact E | by rewrite E].
Qed.

(** C5, amended.  For every file whose backup path exists, [refactor_file]
    returns [False] and writes nothing: the file system and the record of
    writes are unchanged.  The reason reported is "not found" when the file
    is missing, "already under 500 lines" when it has fewer than 500 lines,
    and "already refactored" exactly when the file exists with at least 500
    lines. *)
Theorem rerun_with_backup_writes_nothing (f : string) (w : Refactor.world) :
  Refactor.exists_ w (Refactor.backup_path f) = true ->
  exists o : Refactor.outcome,
    Refactor.refactor_file f w = (o, w)
    /\ Refactor.returns_true o = false
    /\ (o = Refactor.NotFound <-> Refactor.exists_ w f = false)
    /\ (o = Refactor.UnderLimit
        <-> Refactor.exists_ w f = true /\ Refactor.count_lines w f < 500)
    /\ (o = Refactor.AlreadyRefactored
        <-> Refactor.exists_ w f = true /\ 500 <= Refactor.count_lines w f).
Proof.
  intros Hb. unfold Refactor.refactor_file. rewrite Hb.
  assert (forall P Q : Prop, ~ P -> ~ Q -> P <-> Q) as Hno by tauto.
  destruct (Refactor.exists_ w f); cbn [negb].
  - destruct (Nat.ltb_spec (Refactor.count_lines w f) 500).
    + exists Refactor.UnderLimit. split_and!; try done.
      apply Hno; [done | lia].
    + exists Refactor.AlreadyRefactored. split_and!; try done.
      apply Hno; [done | lia].
  - exists Refactor.NotFound. split_and!; try done;
      (apply Hno; [done | by intros [? _]]).
Qed.

(** A file of 501 lines with a backup is skipped as already refactored. *)
Lemma rerun_with_backup_writes_nothing_witness :
  Refactor.exists_ Samples.backed_up_world
    (Refactor.backup_path Samples.sample_path) = true
  /\ exists o : Refactor.outcome,
    Refactor.refactor_file Samples.sample_path Samples.backed_up_world
    = (o, Samples.backed_up_world)
    /\ Refactor.returns_true o = false
    /\ (o = Refactor.NotFound
        <-> Refactor.exists_ Samples.backed_up_world Samples.sample_path = false)
    /\ (o = Refactor.UnderLimit
        <-> Refactor.exists_ Samples.backed_up_world Samples.sample_path = true
            /\ Refactor.count_lines Samples.backed_up_world Samples.sample_path
               < 500)
    /\ (o = Refactor.AlreadyRefactored
        <-> Refactor.exists_ Samples.backed_up_world Samples.sample_path = true
            /\ 500 <= Refactor.count_lines Samples.backed_up_world
                        Samples.sample_path).
Proof.
  assert (Refactor.exists_ Samples.backed_up_world
            (Refactor.backup_path Samples.sample_path) = true) as Hb
    by (vm_compute; reflexivity).
  split; [exact Hb|].
  exact (rerun_with_backup_writes_nothing Samples.sample_path
           Samples.backed_up_world Hb).
Defined.

(** ** The backup precedes the rewrite *)

(** C6.  Whatever [refactor_file] returns for a file, either it is a skip
    (not found, under 500 lines, backup present, no header found, nothing
    extracted) and the file system is unchanged with nothing written, or it
    is a split and then exactly three things were done, in this order: the
    declarations file, a path other than the original, was written; the
    original text was copied to the backup path; the original was
    overwritten with the coordinator.  At the end the backup holds the
    original text. *)
Theorem original_overwritten_after_backup
    (f : string) (w w' : Refactor.world) (o : Refactor.outcome) :
  Refactor.refactor_file f w = (o, w') ->
  (o = Refactor.NotFound \/ o = Refactor.UnderLimit
   \/ o = Refactor.AlreadyRefactored \/ o = Refactor.NoStructuresFound
   \/ o = Refactor.NoneExtracted \/ o = Refactor.Refactored)
  /\ (o <> Refactor.Refactored -> w' = w)
  /\ (o = Refactor.Refactored ->
      exists text declarations coordinator : string,
        Refactor.fs w !! f = Some text
        /\ Refactor.log w'
           = Refactor.log w
             ++ [ Refactor.EvWrite (Refactor.data_structures_path f) declarations;
                  Refactor.EvCopy f (Refactor.backup_path f) text;
                  Refactor.EvWrite f coordinator ]
        /\ Refactor.data_structures_path f <> f
        /\ Refactor.fs w' !! Refactor.backup_path f = Some text
        /\ Refactor.fs w' !! f = Some coordinator).
Proof.
  intros H.
  destruct (refactor_file_cases f w) as [(o' & Ho & Hf & Hr)|(text & start & Hw)].
  - rewrite Ho in H. injection H as <- <-. split_and!.
    + destruct o'; auto 6; done.
    + done.
    + intros ->. done.
  - destruct Hw as (Htext & _ & _ & _ & Hrun).
    rewrite Hrun in H. injection H as <- <-. split_and!; [auto 6 | done |].
    intros _. eexists text, _, _. unfold split_world, Refactor.write_file.
    cbn [Refactor.fs Refactor.log]. split_and!.
    + done.
    + by rewrite <- !app_assoc.
    + apply data_structures_path_fresh.
    + rewrite lookup_insert_ne
        by (intros E; symmetry in E; by apply backup_path_fresh in E).
      by rewrite lookup_insert_eq.
    + by rewrite lookup_insert_eq.
Qed.

(** The three steps of the split of the sample file. *)
Lemma original_overwritten_after_backup_witness :
  Refactor.refactor_file Samples.sample_path Samples.sample_world
  = (Refactor.Refactored,
     snd (Refactor.refactor_file Samples.sample_path Samples.sample_world))
  /\ Refactor.log
    (snd (Refactor.refactor_file Samples.sample_path Samples.sample_world))
  = [ Refactor.EvWrite (Refactor.data_structures_path Samples.sample_path)
        (Refactor.data_structures_text Samples.sample_path
           (Refactor.extract_data_structures Samples.sample_lines (Some 400))
           "ProjectChimera.Systems" [ "using System;" ]);
      Refactor.EvCopy Samples.sample_path
        (Refactor.backup_path Samples.sample_path) Samples.sample_text;
      Refactor.EvWrite Samples.sample_path
        (Refactor.coordinator_text Samples.sample_lines (Some 400)) ]
  /\ Refactor.fs
       (snd (Refactor.refactor_file Samples.sample_path Samples.sample_world))
     !! Refactor.backup_path Samples.sample_path
     = Some Samples.sample_text.
Proof.
  destruct (original_overwritten_after_backup Samples.sample_path
              Samples.sample_world
              (snd (Refactor.refactor_file Samples.sample_path
                      Samples.sample_world))
              Refactor.Refactored) as (_ & _ & H).
  { vm_compute. reflexivity. }
  split; [vm_compute; reflexivity|].
  destruct (H eq_refl) as (text & d & c & Ht & Hlog & _ & Hb & _).
  assert (text = Samples.sample_text) as ->.
  { assert (Refactor.fs Samples.sample_world !! Samples.sample_path
            = Some Samples.sample_text) as E by (vm_compute; reflexivity).
    rewrite E in Ht. by injection Ht. }
  split; [vm_compute; reflexivity | exact Hb].
Defined.

(** ** The fallback context of enforce_resources_load_ban.py *)

Section Fallback.

Import ResourcesBan.

(** The lines the loop of [_is_legitimate_fallback] inspects are those at
    the indices from [line_idx - 5] (or 0) up to [line_idx + 4]. *)
Lemma window_lookup (lines : list string) (line_idx : nat) (l : string) :
  l ∈ window lines line_idx
  <-> exists i, line_idx - 5 <= i < line_idx + 5 /\ lines !! i = Some l.
Proof.
  unfold window, context_lines. rewrite list_elem_of_lookup. split.
  - intros [j Hj]. rewrite lookup_drop in Hj.
    apply lookup_take_Some in Hj as [Hj Hlt].
    exists (line_idx - 5 + j). split; [lia | done].
  - intros (i & Hi & Hl). exists (i - (line_idx - 5)).
    rewrite lookup_drop. apply lookup_take_Some.
    replace (line_idx - 5 + (i - (line_idx - 5))) with i by lia.
    split; [done|]. apply lookup_lt_Some in Hl. lia.
Qed.

Lemma fallback_with_true (inds lines : list string) (line_idx : nat) :
  fallback_with inds lines line_idx = true
  <-> exists i l, line_idx - 5 <= i < line_idx + 5 /\ lines !! i = Some l
                  /\ Py.any_in inds (Py.lower (Py.strip l)) = true.
Proof.
  unfold fallback_with. rewrite existsb_exists. split.
  - intros (l & Hin & Hl). apply list_elem_of_In, window_lookup in Hin.
    destruct Hin as (i & Hi & Hli). by exists i, l.
  - intros (i & l & Hi & Hli & Hl). exists l. split; [|done].
    apply list_elem_of_In, window_lookup. by exists i.
Qed.

(** A line for which the context check succeeds adds no violation. *)
Lemma fallback_suppresses (file_path : string) (lines : list string)
    (line_num : nat) (line : string) (violations : list rviolation) :
  _is_legitimate_fallback lines (line_num - 1) (Py.strip line) = true ->
  check_line file_path lines line_num line violations = violations.
Proof.
  intros H. unfold check_line. rewrite H. by destruct (skipped _).
Qed.

Lemma guard_never_found (s : string) :
  Py.contains "if (assetManager == null)" (Py.lower s) = false.
Proof.
  destruct (Py.contains _ _) eqn:E; [|done].
  apply (contains_count "M") in E. rewrite lower_no_upper_M in E.
  vm_compute in E. by destruct E.
Qed.

Lemma any_in_without_guard (s : string) :
  Py.any_in indicators (Py.lower s)
  = Py.any_in indicators_without_guard (Py.lower s).
Proof.
  unfold Py.any_in, indicators, indicators_without_guard.
  cbn [existsb]. by rewrite guard_never_found.
Qed.

End Fallback.

(** C3: the code departs from the claim.  A line holding the marker phrase
    [if (assetManager == null)] stands directly above the candidate, yet the
    context check returns false and the call is reported; and a marker five
    lines below the candidate is outside the inspected lines, while one four
    lines below is inside. *)
Theorem fallback_marker_missed :
  ResourcesBan._is_legitimate_fallback Samples.guard_lines 1
    "return Resources.Load<Texture>(path);" = false
  /\ map (fun v => (v_line (ResourcesBan.base v), v_pattern (ResourcesBan.base v)))
       (ResourcesBan.check_resources_load_violations
          [(Samples.gameplay_path, Py.join Samples.guard_lines)])
     = [(2, "Resources\.Load<[^>]+>\s*\(")]
  /\ Samples.remark_below_lines !! 5
     = Some (Py.ln "        // fallback mechanism for the missing atlas")
  /\ ResourcesBan._is_legitimate_fallback Samples.remark_below_lines 0
       "var icon = Resources.Load<Texture>(path);" = false
  /\ ResourcesBan._is_legitimate_fallback Samples.remark_below_lines 1
       "Apply(icon);" = true.
Proof. split_and!; vm_compute; reflexivity. Qed.

(** C10.  The indicator [if (assetManager == null)] is found in no
    lower-cased context line, and [_is_legitimate_fallback] returns, for
    every input, what it returns with that indicator removed from the
    list. *)
Theorem guard_indicator_is_dead
    (lines : list string) (line_idx : nat) (line_content : string) :
  (forall l : string,
     Py.contains "if (assetManager == null)" (Py.lower (Py.strip l)) = false)
  /\ ResourcesBan._is_legitimate_fallback lines line_idx line_content
     = ResourcesBan.fallback_with indicators_without_guard lines line_idx.
Proof.
  split; [intros l; apply guard_never_found|].
  unfold ResourcesBan._is_legitimate_fallback, ResourcesBan.fallback_with.
  induction (ResourcesBan.window lines line_idx) as [|l ls IH]; [done|].
  cbn [existsb]. by rewrite IH, any_in_without_guard.
Qed.

(** ** One violation per matching pattern *)

Section Scan.

Context {V : Type} (mk : Re.pattern -> V) (text : string).

(** The pattern loop appends one entry for each pattern found in the
    text, in the order of the list. *)
Lemma scan_patterns_spec (patterns : list Re.pattern) (violations : list V) :
  Re.scan_patterns mk text patterns violations
  = violations ++ map mk (matching text patterns).
Proof.
  unfold Re.scan_patterns, matching. revert violations.
  induction patterns as [|p ps IH]; intros vs; simpl.
  - by rewrite app_nil_r.
  - rewrite IH. destruct (Re.search (Re.re p) text); simpl; [|done].
    by rewrite <- app_assoc.
Qed.

Lemma scan_patterns_length (patterns : list Re.pattern) (violations : list V) :
  length (Re.scan_patterns mk text patterns violations)
  = length violations + length (matching text patterns).
Proof. by rewrite scan_patterns_spec, length_app, length_map. Qed.

End Scan.

(** ** The code text of the quality gates *)

Section CodeText.

Lemma prefix_append (p s rest : string) :
  String.prefix p s = true -> String.prefix p (s +:+ rest) = true.
Proof.
  revert s. induction p as [|a p IH]; intros s H; [by destruct (s +:+ rest)|].
  destruct s as [|b s]; [done|]. rewrite append_cons. simpl in *.
  destruct (ascii_dec a b); [by apply IH | done].
Qed.

(** A text found in a part of a text is found in the text. *)
Lemma contains_append_r (sub s rest : string) :
  Py.contains sub s = true -> Py.contains sub (s +:+ rest) = true.
Proof.
  induction s as [|b s IH]; rewrite contains_eq; intros H.
  - rewrite orb_false_r in H. rewrite contains_eq.
    apply orb_true_iff. left. by apply (prefix_append sub "" rest).
  - rewrite append_cons, contains_eq. apply orb_true_iff.
    apply orb_true_iff in H as [H|H].
    + left. by apply (prefix_append sub (String b s) rest).
    + right. by apply IH.
Qed.

Lemma contains_append_l (sub pre s : string) :
  Py.contains sub s = true -> Py.contains sub (pre +:+ s) = true.
Proof.
  intros H. induction pre as [|b pre IH]; [done|].
  rewrite append_cons, contains_eq, IH. apply orb_true_r.
Qed.

Lemma lstrip_suffix (s : string) : exists pre, s = pre +:+ Py.lstrip s.
Proof.
  induction s as [|c s [pre IH]]; [by exists ""|]. simpl.
  destruct (Py.is_space c); [|by exists ""].
  exists (String c pre). by rewrite append_cons, <- IH.
Qed.

Lemma rstrip_prefix (s : string) : exists rest, s = Py.rstrip s +:+ rest.
Proof.
  induction s as [|c s [rest IH]]; [by exists ""|]. simpl.
  destruct (Py.rstrip s) as [|d r] eqn:E.
  - destruct (Py.is_space c); [by exists (String c s)|].
    exists s. done.
  - exists rest. by rewrite append_cons, <- IH.
Qed.

Lemma contains_strip (sub s : string) :
  Py.contains sub (Py.strip s) = true -> Py.contains sub s = true.
Proof.
  unfold Py.strip. intros H.
  destruct (lstrip_suffix s) as [pre Hpre].
  destruct (rstrip_prefix (Py.lstrip s)) as [rest Hrest].
  rewrite Hpre. apply contains_append_l. rewrite Hrest.
  by apply contains_append_r.
Qed.

Lemma prefix_split (p t : string) :
  String.prefix p t = true -> exists rest, t = p +:+ rest.
Proof.
  revert t. induction p as [|a p IH]; intros t E; [by exists t|].
  destruct t as [|b t]; [done|]. simpl in E.
  destruct (ascii_dec a b) as [->|]; [|done].
  destruct (IH t E) as [rest Hr]. exists rest. by rewrite append_cons, <- Hr.
Qed.

(** The text before the first marker, the marker and the rest make up the
    line. *)
Lemma split_head_spec (sep s : string) :
  Py.contains sep s = true ->
  exists rest, s = Py.split_head sep s +:+ sep +:+ rest.
Proof.
  induction s as [|c s IH]; rewrite contains_eq; intros H.
  - destruct sep as [|a sep]; [by exists "" | done].
  - cbn [Py.split_head]. unfold Py.startswith.
    destruct (String.prefix sep (String c s)) eqn:E.
    + destruct (prefix_split _ _ E) as [rest Hr]. by exists rest.
    + simpl in H. destruct (IH H) as [rest Hr]. exists rest.
      by rewrite append_cons, <- Hr.
Qed.

Lemma prefix_empty (s : string) : String.prefix "" s = true.
Proof. by destruct s. Qed.

Lemma prefix_cons (a b : ascii) (p s : string) :
  String.prefix (String a p) (String b s) = Ascii.eqb a b && String.prefix p s.
Proof.
  cbn [String.prefix].
  destruct (ascii_dec a b), (Ascii.eqb_spec a b); done.
Qed.

(** The text before the first [//] holds no [//]. *)
Lemma split_head_no_marker (s : string) :
  Py.contains "//" (Py.split_head "//" s) = false.
Proof.
  induction s as [|c s IH]; [done|].
  cbn [Py.split_head]. destruct (Py.startswith "//" (String c s)) eqn:E; [done|].
  rewrite contains_eq, IH, orb_false_r.
  unfold Py.startswith in E. rewrite prefix_cons in E |- *.
  destruct (Ascii.eqb "/" c); [|done]. cbn [andb] in *.
  destruct s as [|d s]; [done|]. cbn [Py.split_head].
  destruct (Py.startswith "//" (String d s)); [done|].
  rewrite prefix_cons, prefix_empty in E |- *. done.
Qed.

(** The code text of a line holds no comment marker. *)
Lemma code_text_no_marker (line_content : string) :
  Py.contains "//" (QualityGates.code_text line_content) = false.
Proof.
  unfold QualityGates.code_text.
  destruct (Py.contains "//" line_content) eqn:E; [|done].
  destruct (Py.contains "//" (Py.strip _)) eqn:C; [|done].
  apply contains_strip in C. by rewrite split_head_no_marker in C.
Qed.


(** What the quality gates add for a line: nothing, or one violation for
    each pattern found in the code text of the line. *)
Lemma quality_gates_line_cases (file_path : string) (i : nat) (line : string)
    (violations : list violation) :
  let code := QualityGates.code_text (Py.strip line) in
  QualityGates.check_line file_path i line violations = violations
  \/ QualityGates.check_line file_path i line violations
     = violations
       ++ map (fun p => Violation file_path i code (Re.src p))
            (matching code QualityGates.FORBIDDEN_PATTERNS).
Proof.
  cbv zeta. unfold QualityGates.check_line.
  repeat (match goal with
          | |- context [if ?b then violations else _] =>
              destruct b; [by left|]
          end).
  right. apply scan_patterns_spec.
Qed.

(** In the quality gates only the text before the first comment marker is
    tested: the code text holds no marker, it is the stripped text before
    the first marker when the line has one, and every violation added for
    the line records a pattern found in the code text. *)
Lemma quality_gates_test_code_only (file_path : string) (i : nat)
    (line : string) (violations : list violation) :
  let code := QualityGates.code_text (Py.strip line) in
  Py.contains "//" code = false
  /\ (Py.contains "//" (Py.strip line) = true ->
      code = Py.strip (Py.split_head "//" (Py.strip line))
      /\ exists comment,
           Py.strip line
           = Py.split_head "//" (Py.strip line) +:+ "//" +:+ comment)
  /\ (forall v, v ∈ QualityGates.check_line file_path i line violations ->
      v ∈ violations
      \/ (v_content v = code
          /\ exists p, p ∈ QualityGates.FORBIDDEN_PATTERNS
                       /\ v_pattern v = Re.src p
                       /\ Re.search (Re.re p) code = true)).
Proof.
  cbv zeta. split_and!.
  - apply code_text_no_marker.
  - intros H. split; [unfold QualityGates.code_text; by rewrite H|].
    by apply split_head_spec.
  - intros v Hv.
    destruct (quality_gates_line_cases file_path i line violations) as [E|E];
      rewrite E in Hv; [by left|].
    apply elem_of_app in Hv as [Hv|Hv]; [by left|]. right.
    apply list_elem_of_fmap in Hv as (p & -> & Hp). split; [done|].
    exists p. unfold matching in Hp.
    apply list_elem_of_In, filter_In in Hp as [Hp Hs].
    split_and!; [by apply list_elem_of_In | done | done].
Qed.

End CodeText.



(** ** Banned tokens in trailing comments *)

(** C8: the code departs from the claim in two checkers.  The only banned
    token of the line stands after the inline comment marker; the
    Resources.Load and FindObjectOfType checkers test the whole raw line
    and report it, while the quality gates, which cut the line at the
    marker, report nothing for the same files. *)
Theorem trailing_comment_reported :
  Py.split_head "//" (Py.strip Samples.commented_load) = "int count = 1; "
  /\ map (fun v => (v_line (ResourcesBan.base v), v_pattern (ResourcesBan.base v)))
       (ResourcesBan.check_resources_load_violations
          [(Samples.gameplay_path, Samples.commented_load)])
     = [(1, "Resources\.Load\s*\(")]
  /\ map (fun v => (v_line v, v_pattern v))
       (FindObjectBan.check_findobjectoftype_violations
          [(Samples.gameplay_path, Samples.commented_find)])
     = [(1, "FindObjectOfType<[^>]+>\s*\(")]
  /\ QualityGates.check_anti_patterns
       [(Samples.gameplay_path, Samples.commented_load);
        (Samples.gameplay_path, Samples.commented_find)] = [].
Proof. split_and!; vm_compute; reflexivity. Qed.

(** ** Severity grading of enforce_file_size_limits.py *)

Section Severity.

Import FileSize.

Lemma tier_critical (r : Q) : tier r = CRITICAL <-> (1 <= r)%Q.
Proof.
  unfold tier. destruct (Qle_bool 1 r) eqn:E1.
  { apply Qle_bool_iff in E1. done. }
  assert (~ (1 <= r)%Q) as N1 by (rewrite <- Qle_bool_iff; congruence).
  destruct (Qle_bool (1 # 2) r); [done|].
  by destruct (Qle_bool (1 # 4) r).
Qed.

Lemma tier_high (r : Q) : tier r = HIGH <-> (1 # 2 <= r)%Q /\ (r < 1)%Q.
Proof.
  unfold tier. destruct (Qle_bool 1 r) eqn:E1.
  { apply Qle_bool_iff in E1. split; [done | intros [_ ?]; lra]. }
  assert (~ (1 <= r)%Q) as N1 by (rewrite <- Qle_bool_iff; congruence).
  destruct (Qle_bool (1 # 2) r) eqn:E2.
  { apply Qle_bool_iff in E2. split; [intros _; split; lra | done]. }
  assert (~ (1 # 2 <= r)%Q) as N2 by (rewrite <- Qle_bool_iff; congruence).
  destruct (Qle_bool (1 # 4) r); (split; [done | intros [? _]; lra]).
Qed.

Lemma tier_medium (r : Q) : tier r = MEDIUM <-> (1 # 4 <= r)%Q /\ (r < 1 # 2)%Q.
Proof.
  unfold tier. destruct (Qle_bool 1 r) eqn:E1.
  { apply Qle_bool_iff in E1. split; [done | intros [_ ?]; lra]. }
  destruct (Qle_bool (1 # 2) r) eqn:E2.
  { apply Qle_bool_iff in E2. split; [done | intros [_ ?]; lra]. }
  assert (~ (1 # 2 <= r)%Q) as N2 by (rewrite <- Qle_bool_iff; congruence).
  destruct (Qle_bool (1 # 4) r) eqn:E3.
  { apply Qle_bool_iff in E3. split; [intros _; split; lra | done]. }
  assert (~ (1 # 4 <= r)%Q) as N3 by (rewrite <- Qle_bool_iff; congruence).
  split; [done | intros [? _]; lra].
Qed.

Lemma tier_low (r : Q) : tier r = LOW <-> (r < 1 # 4)%Q.
Proof.
  unfold tier. destruct (Qle_bool 1 r) eqn:E1.
  { apply Qle_bool_iff in E1. split; [done | intros ?; lra]. }
  destruct (Qle_bool (1 # 2) r) eqn:E2.
  { apply Qle_bool_iff in E2. split; [done | intros ?; lra]. }
  destruct (Qle_bool (1 # 4) r) eqn:E3.
  { apply Qle_bool_iff in E3. split; [done | intros ?; lra]. }
  assert (~ (1 # 4 <= r)%Q) as N3 by (rewrite <- Qle_bool_iff; congruence).
  split; [intros _; lra | done].
Qed.

(** For both budgets of the table and every line count up to 4000 lines
    over budget, the binary64 grading is the grading of the exact ratio. *)
Lemma binary64_tier_agrees :
  forallb (fun c => bool_decide (binary64_tier c 500 = tier (excess_ratio c 500)))
    (map Z.of_nat (seq 501 4000)) = true
  /\ forallb (fun c => bool_decide (binary64_tier c 600 = tier (excess_ratio c 600)))
       (map Z.of_nat (seq 601 4000)) = true.
Proof. split; vm_compute; reflexivity. Qed.

(** The tier does not decrease when the ratio grows. *)
Lemma tier_monotone (r1 r2 : Q) :
  (r1 <= r2)%Q -> rank (tier r1) <= rank (tier r2).
Proof.
  intros Hle.
  destruct (tier r1) eqn:T1; [simpl; lia | | |].
  - apply tier_medium in T1 as [? _].
    destruct (tier r2) eqn:T2; simpl; try lia.
    apply tier_low in T2. lra.
  - apply tier_high in T1 as [? _].
    destruct (tier r2) eqn:T2; simpl; try lia.
    + apply tier_low in T2. lra.
    + apply tier_medium in T2 as [_ ?]. lra.
  - apply tier_critical in T1.
    destruct (tier r2) eqn:T2; simpl; try lia.
    + apply tier_low in T2. lra.
    + apply tier_medium in T2 as [_ ?]. lra.
    + apply tier_high in T2 as [_ ?]. lra.
Qed.

(** The comparisons of [tier] in whole numbers. *)
Lemma ratio_ge (a b : positive) (c l : Z) :
  (0 < l)%Z ->
  ((Z.pos a # b) <= excess_ratio c l)%Q <-> (Z.pos a * l <= Z.pos b * (c - l))%Z.
Proof.
  intros Hl. unfold excess_ratio, Qdiv, Qmult, Qinv, Qle, inject_Z.
  destruct l as [|p|p]; try lia. cbn [Qnum Qden]. lia.
Qed.

(** With the exact quotient the grading is the whole-number grading. *)
Lemma calculate_severity_graded (line_count limit : Z) :
  (0 < limit)%Z ->
  calculate_severity line_count limit = Some (graded line_count limit).
Proof.
  intros Hl. unfold calculate_severity, graded.
  destruct (Z.eqb_spec limit 0); [lia|]. f_equal.
  pose proof (ratio_ge 1 1 line_count limit Hl) as H1.
  pose proof (ratio_ge 1 2 line_count limit Hl) as H2.
  pose proof (ratio_ge 1 4 line_count limit Hl) as H4.
  destruct (Z.leb_spec (2 * limit) line_count).
  { apply tier_critical, H1. lia. }
  destruct (Z.leb_spec (3 * limit) (2 * line_count)).
  { apply tier_high. split; [apply H2; lia|]. apply Qnot_le_lt. rewrite H1. lia. }
  destruct (Z.leb_spec (5 * limit) (4 * line_count)).
  { apply tier_medium. split; [apply H4; lia|]. apply Qnot_le_lt. rewrite H2. lia. }
  apply tier_low. apply Qnot_le_lt. rewrite H4. lia.
Qed.

End Severity.

(** ** The quotient that Python rounds *)

Section Rounding.

Local Open Scope Z_scope.

Lemma round_half_even_bounds (n d : Z) :
  n / d <= Py.round_half_even n d <= n / d + 1.
Proof.
  unfold Py.round_half_even.
  destruct (2 * (n mod d) <? d); [lia|].
  destruct (d <? 2 * (n mod d)); [lia|].
  destruct (Z.even (n / d)); lia.
Qed.

(** A quotient below [m] is rounded to [m] at most. *)
Lemma round_half_even_below (n d m : Z) :
  0 < d -> n < m * d -> Py.round_half_even n d <= m.
Proof.
  intros Hd Hn.
  assert (n / d < m) by (apply Z.div_lt_upper_bound; lia).
  pose proof (round_half_even_bounds n d). lia.
Qed.

(** A quotient from [m] on is rounded to [m] at least. *)
Lemma round_half_even_above (n d m : Z) :
  0 < d -> m * d <= n -> m <= Py.round_half_even n d.
Proof.
  intros Hd Hn.
  assert (m <= n / d) by (apply Z.div_le_lower_bound; lia).
  pose proof (round_half_even_bounds n d). lia.
Qed.

(** The exponent of the quantum, for a quotient below [2 ^ t]. *)
Lemma quantum_below (n b t : Z) :
  0 < b -> 53 <= t -> n < 2 ^ t * b ->
  0 <= Z.max 0 (Z.log2 (n / b) - 52) <= t - 53.
Proof.
  intros Hb Ht Hn.
  assert (n / b < 2 ^ t) as Hq by (apply Z.div_lt_upper_bound; lia).
  assert (Z.log2 (n / b) < t \/ Z.log2 (n / b) = 0) as Hl.
  { destruct (Z_lt_le_dec 0 (n / b)) as [Hpos|Hneg].
    - left. apply Z.log2_lt_pow2; [done|]. exact Hq.
    - right. by apply Z.log2_nonpos. }
  lia.
Qed.

(** Below [2 ^ 53] the divisor is too small for a quotient under a power
    of two to be rounded up to it. *)
Lemma nearest_lt_exact (a b t : Z) :
  0 < b < 2 ^ 53 -> 53 <= t <= 1074 ->
  a * 2 ^ 1074 < 2 ^ t * b ->
  Py.nearest_binary64 a b < 2 ^ t.
Proof.
  intros Hb Ht Hn. unfold Py.nearest_binary64.
  pose proof (quantum_below _ b t ltac:(lia) ltac:(lia) Hn) as Hq.
  set (g := Z.max 0 (Z.log2 (a * 2 ^ 1074 / b) - 52)) in *. clearbody g.
  assert (a * 2 ^ 1074 = a * 2 ^ (1074 - t) * 2 ^ t) as HE.
  { rewrite <- Z.mul_assoc, <- Z.pow_add_r by lia. do 2 f_equal. lia. }
  assert (2 ^ t = 2 ^ (t - g) * 2 ^ g) as HK
    by (rewrite <- Z.pow_add_r by lia; f_equal; lia).
  assert (2 ^ t = 2 ^ 53 * 2 ^ (t - 53)) as HF
    by (rewrite <- Z.pow_add_r by lia; f_equal; lia).
  assert (2 ^ g <= 2 ^ (t - 53)) as HG by (apply Z.pow_le_mono_r; lia).
  assert (0 < 2 ^ g) as Hpg by (apply Z.pow_pos_nonneg; lia).
  assert (0 < 2 ^ t) as Hpt by (apply Z.pow_pos_nonneg; lia).
  assert (0 < 2 ^ (t - g)) as Hpk by (apply Z.pow_pos_nonneg; lia).
  set (n := a * 2 ^ 1074) in *. clearbody n.
  remember (2 ^ t) as P eqn:EP. remember (2 ^ g) as G eqn:EG.
  remember (2 ^ (t - g)) as K eqn:EK. remember (2 ^ (t - 53)) as F eqn:EF.
  remember (a * 2 ^ (1074 - t)) as m eqn:Em.
  remember (2 ^ 53) as B eqn:EB.
  clear EP EG EK EF Em EB.
  assert (m < b) as Hlt by nia.
  assert (n + P <= P * b) as Hstep by nia.
  assert (b * G < P) as HD by nia.
  assert (Py.round_half_even n (b * G) <= K - 1) as Hr.
  { apply round_half_even_below; nia. }
  nia.
Qed.

(** A quotient below half a power of two is rounded below that power. *)
Lemma nearest_lt_half (a b t : Z) :
  0 < b -> 54 <= t ->
  a * 2 ^ 1074 < 2 ^ (t - 1) * b ->
  Py.nearest_binary64 a b < 2 ^ t.
Proof.
  intros Hb Ht Hn. unfold Py.nearest_binary64.
  pose proof (quantum_below _ b (t - 1) ltac:(lia) ltac:(lia) Hn) as Hq.
  set (g := Z.max 0 (Z.log2 (a * 2 ^ 1074 / b) - 52)) in *. clearbody g.
  assert (2 ^ (t - 1) = 2 ^ (t - 1 - g) * 2 ^ g) as HK
    by (rewrite <- Z.pow_add_r by lia; f_equal; lia).
  assert (2 ^ t = 2 * 2 ^ (t - 1)) as HT
    by (rewrite <- Z.pow_succ_r by lia; f_equal; lia).
  assert (0 < 2 ^ g) as Hpg by (apply Z.pow_pos_nonneg; lia).
  assert (0 < 2 ^ (t - 1)) as Hpt by (apply Z.pow_pos_nonneg; lia).
  set (n := a * 2 ^ 1074) in *. clearbody n.
  remember (2 ^ t) as P eqn:EP. remember (2 ^ (t - 1)) as H eqn:EH.
  remember (2 ^ g) as G eqn:EG. remember (2 ^ (t - 1 - g)) as K eqn:EK.
  clear EP EH EG EK.
  assert (Py.round_half_even n (b * G) <= K) as Hr.
  { apply round_half_even_below; nia. }
  nia.
Qed.

(** A quotient from a power of two on is rounded to that power at least. *)
Lemma nearest_ge (a b t : Z) :
  0 < b -> 52 <= t ->
  2 ^ t * b <= a * 2 ^ 1074 ->
  2 ^ t <= Py.nearest_binary64 a b.
Proof.
  intros Hb Ht Hn. unfold Py.nearest_binary64.
  set (n := a * 2 ^ 1074) in *.
  assert (0 < 2 ^ t) as Hpt by (apply Z.pow_pos_nonneg; lia).
  assert (2 ^ t <= n / b) as Hq by (apply Z.div_le_lower_bound; lia).
  assert (t <= Z.log2 (n / b)) as Hl.
  { rewrite <- (Z.log2_pow2 t) by lia. by apply Z.log2_le_mono. }
  destruct (Z.log2_spec (n / b)) as [Hlow _]; [lia|].
  set (L := Z.log2 (n / b)) in *.
  replace (Z.max 0 (L - 52)) with (L - 52) by lia.
  assert (2 ^ L = 2 ^ 52 * 2 ^ (L - 52)) as HL
    by (rewrite <- Z.pow_add_r by lia; f_equal; lia).
  assert (2 ^ t <= 2 ^ L) as Hmono by (apply Z.pow_le_mono_r; lia).
  assert (0 < 2 ^ (L - 52)) as Hpg by (apply Z.pow_pos_nonneg; lia).
  assert (b * (n / b) <= n) as Hdiv by (apply Z.mul_div_le; lia).
  assert (2 ^ 52 <= Py.round_half_even n (b * 2 ^ (L - 52))) as Hr.
  { apply round_half_even_above; [nia|]. nia. }
  nia.
Qed.

(** The rounded quotient of numbers that are not negative is not
    negative. *)
Lemma nearest_nonneg (a b : Z) :
  0 <= a -> 0 < b -> 0 <= Py.nearest_binary64 a b.
Proof.
  intros Ha Hb. unfold Py.nearest_binary64.
  set (g := Z.max 0 _).
  assert (0 < 2 ^ g) as Hpg by (apply Z.pow_pos_nonneg; lia).
  assert (0 <= Py.round_half_even (a * 2 ^ 1074) (b * 2 ^ g)).
  { apply round_half_even_above; [nia|]. lia. }
  nia.
Qed.

Lemma nearest_zero (b : Z) : 0 < b -> Py.nearest_binary64 0 b = 0.
Proof.
  intros Hb. unfold Py.nearest_binary64, Py.round_half_even.
  rewrite Z.mul_0_l, !Zdiv_0_l, Zmod_0_l.
  set (g := Z.max 0 _).
  assert (0 < 2 ^ g) as Hpg by (apply Z.pow_pos_nonneg; lia).
  destruct (Z.ltb_spec (2 * 0) (b * 2 ^ g)); [lia | nia].
Qed.

End Rounding.

Section Grading.

Import FileSize.
Local Open Scope Z_scope.

(** With the quotient rounded as Python rounds it, the grading is the
    whole-number grading too, for limits below 2^53 and line counts that
    do not overflow. *)
Lemma calculate_severity_binary64_graded (line_count limit : Z) :
  0 < limit < 2 ^ 53 -> 0 <= line_count < 2 ^ 1023 ->
  calculate_severity_binary64 line_count limit
  = Some (graded line_count limit).
Proof.
  intros Hl Hc. unfold calculate_severity_binary64, Py.true_divide, graded.
  destruct (Z.eqb_spec limit 0) as [|_]; [lia|].
  rewrite (Z.abs_eq limit), (Z.sgn_pos limit) by lia.
  assert (2 ^ 2097 = 2 ^ 1023 * 2 ^ 1074) as H2097
    by (rewrite <- Z.pow_add_r by lia; done).
  assert (2 ^ 1074 = 2 * 2 ^ 1073) as H1074
    by (rewrite <- Z.pow_succ_r by lia; done).
  assert (2 ^ 1073 = 2 * 2 ^ 1072) as H1073
    by (rewrite <- Z.pow_succ_r by lia; done).
  assert (0 < 2 ^ 1072) as Hp by (apply Z.pow_pos_nonneg; lia).
  assert (2 ^ 53 < 2 ^ 1023) as H53 by (apply Z.pow_lt_mono_r; lia).
  set (a := line_count - limit).
  pose proof (nearest_nonneg (Z.abs a) limit ltac:(lia) ltac:(lia)) as Hv.
  assert (Py.nearest_binary64 (Z.abs a) limit < 2 ^ 2098) as Hfin.
  { apply nearest_lt_half; [lia | lia |].
    replace (2098 - 1) with 2097 by lia. rewrite H2097.
    remember (2 ^ 1074) as U. remember (2 ^ 1023) as M. remember (2 ^ 53) as B.
    clear HeqU HeqM HeqB H1074. nia. }
  destruct (Z.leb_spec (2 ^ 2098) (Py.nearest_binary64 (Z.abs a) limit));
    [lia|].
  f_equal.
  destruct (Z_lt_le_dec a 0) as [Hneg|Hpos].
  { rewrite (Z.sgn_neg a) by lia.
    repeat match goal with
           | |- context [(?x <=? ?y)] => destruct (Z.leb_spec x y); try lia
           end; reflexivity. }
  rewrite (Z.abs_eq a) in * by lia.
  assert (Z.sgn a * 1 * Py.nearest_binary64 a limit
          = Py.nearest_binary64 a limit) as ->.
  { destruct (Z.eq_dec a 0) as [->|]; [|rewrite Z.sgn_pos; lia].
    rewrite nearest_zero by lia. done. }
  assert (forall t k, 53 <= t <= 1074 -> 2 ^ 1074 = k * 2 ^ t -> 0 < k ->
            (2 ^ t <=? Py.nearest_binary64 a limit) = (limit <=? k * a))
    as Hcmp.
  { intros t k Ht Hk Hkpos.
    assert (0 < 2 ^ t) by (apply Z.pow_pos_nonneg; lia).
    destruct (Z.leb_spec limit (k * a)).
    - apply Z.leb_le, nearest_ge; [lia | lia |]. rewrite Hk.
      remember (2 ^ t) as T. clear HeqT Hk. nia.
    - apply Z.leb_gt, nearest_lt_exact; [lia | lia |]. rewrite Hk.
      remember (2 ^ t) as T. clear HeqT Hk. nia. }
  rewrite (Hcmp 1074 1), (Hcmp 1073 2), (Hcmp 1072 4); try lia.
  subst a.
  repeat match goal with
         | |- context [(?x <=? ?y)] => destruct (Z.leb_spec x y); try lia
         end; reflexivity.
Qed.

(** On the budgets of the table and around the grade boundaries, and on
    quotients of numbers next to 2^53, the machine's binary64 division
    gives the quotient that [Py.true_divide] computes. *)
Lemma true_divide_is_machine_division :
  forallb (fun c => same_quotient c 500)
    (map Z.of_nat (seq 501 30 ++ [624; 625; 626; 749; 750; 751; 999; 1000;
                                  1001; 1500; 4000]%nat)) = true
  /\ forallb (fun c => same_quotient c 600)
       (map Z.of_nat (seq 601 30 ++ [749; 750; 751; 899; 900; 901; 1199;
                                     1200; 1201; 4000]%nat)) = true
  /\ forallb (fun l => same_quotient 9007199254740991 l)
       (map Z.of_nat (seq 1 20)) = true
  /\ forallb (fun c => same_quotient c 9007199254740991)
       (map (fun k => (9007199254740991 + Z.of_nat k)%Z) (seq 1 20)) = true.
Proof. split_and!; vm_compute; reflexivity. Qed.

(** Why the bounds are there: with the limit 2^60 the quotient of the line
    count 2^61 - 1 is rounded up to 1.0 and graded CRITICAL, where the
    exact quotient is below 1.0; and a quotient of 2^1024 raises. *)
Example severity_outside_the_bounds :
  calculate_severity_binary64 (2 ^ 61 - 1) (2 ^ 60) = Some CRITICAL
  /\ calculate_severity (2 ^ 61 - 1) (2 ^ 60) = Some HIGH
  /\ calculate_severity_binary64 (2 ^ 1024 + 1) 1 = None
  /\ calculate_severity_binary64 1 0 = None.
Proof. split_and!; vm_compute; reflexivity. Qed.

End Grading.


(** C7.  For budgets below 2^53 and line counts above the budget and
    below 2^1023, so for every budget of the table and every file,
    [calculate_severity] returns a tier, also when the quotient is rounded
    to binary64 as Python rounds it; the tier does not decrease when the
    excess ratio [(count - budget) / budget] grows; and the tier is
    CRITICAL exactly from ratio 1.0 on, HIGH from 0.5 up to 1.0, MEDIUM
    from 0.25 up to 0.5 and LOW below 0.25, so the ratios 0.25, 0.5 and
    1.0 themselves give MEDIUM, HIGH and CRITICAL. *)
Theorem severity_monotone_with_inclusive_bounds (c1 l1 c2 l2 : Z) :
  (0 < l1 < 2 ^ 53)%Z -> (l1 < c1 < 2 ^ 1023)%Z ->
  (0 < l2 < 2 ^ 53)%Z -> (l2 < c2 < 2 ^ 1023)%Z ->
  let r1 := (inject_Z (c1 - l1) / inject_Z l1)%Q in
  let r2 := (inject_Z (c2 - l2) / inject_Z l2)%Q in
  exists s1 s2 : FileSize.severity,
    FileSize.calculate_severity c1 l1 = Some s1
    /\ FileSize.calculate_severity c2 l2 = Some s2
    /\ FileSize.calculate_severity_binary64 c1 l1 = Some s1
    /\ FileSize.calculate_severity_binary64 c2 l2 = Some s2
    /\ ((r1 <= r2)%Q -> FileSize.rank s1 <= FileSize.rank s2)
    /\ (s1 = FileSize.CRITICAL <-> (1 <= r1)%Q)
    /\ (s1 = FileSize.HIGH <-> (1 # 2 <= r1)%Q /\ (r1 < 1)%Q)
    /\ (s1 = FileSize.MEDIUM <-> (1 # 4 <= r1)%Q /\ (r1 < 1 # 2)%Q)
    /\ (s1 = FileSize.LOW <-> (r1 < 1 # 4)%Q)
    /\ ((r1 == 1 # 4)%Q -> s1 = FileSize.MEDIUM)
    /\ ((r1 == 1 # 2)%Q -> s1 = FileSize.HIGH)
    /\ ((r1 == 1)%Q -> s1 = FileSize.CRITICAL).
Proof.
  intros Hl1 Hc1 Hl2 Hc2 r1 r2.
  pose proof (calculate_severity_graded c1 l1 ltac:(lia)) as He1.
  pose proof (calculate_severity_graded c2 l2 ltac:(lia)) as He2.
  pose proof (calculate_severity_binary64_graded c1 l1 Hl1 ltac:(lia)) as Hb1.
  pose proof (calculate_severity_binary64_graded c2 l2 Hl2 ltac:(lia)) as Hb2.
  rewrite <- He1 in Hb1. rewrite <- He2 in Hb2. clear He1 He2.
  revert Hb1 Hb2. unfold FileSize.calculate_severity.
  destruct (Z.eqb_spec l1 0); [lia|]. destruct (Z.eqb_spec l2 0); [lia|].
  change (FileSize.excess_ratio c1 l1) with r1.
  change (FileSize.excess_ratio c2 l2) with r2.
  intros Hb1 Hb2. eexists _, _. split_and!; try reflexivity.
  - exact Hb1.
  - exact Hb2.
  - apply tier_monotone.
  - apply tier_critical.
  - apply tier_high.
  - apply tier_medium.
  - apply tier_low.
  - intros E. apply tier_medium. rewrite E. split; [lra | reflexivity].
  - intros E. apply tier_high. rewrite E. split; [lra | reflexivity].
  - intros E. apply tier_critical. rewrite E. lra.
Qed.

(** A file a quarter over its budget and a file at twice its budget. *)
Lemma severity_monotone_with_inclusive_bounds_witness :
  exists s1 s2 : FileSize.severity,
    FileSize.calculate_severity 625 500 = Some s1
    /\ FileSize.calculate_severity 1000 500 = Some s2
    /\ FileSize.calculate_severity_binary64 625 500 = Some s1
    /\ FileSize.calculate_severity_binary64 1000 500 = Some s2
    /\ FileSize.rank s1 <= FileSize.rank s2
    /\ s1 = FileSize.MEDIUM.
Proof.
  destruct (severity_monotone_with_inclusive_bounds 625 500 1000 500)
    as (s1 & s2 & H1 & H2 & H3 & H4 & Hmono & _ & _ & _ & _ & Hq & _);
    [lia..|].
  exists s1, s2.
  split; [exact H1|]. split; [exact H2|]. split; [exact H3|].
  split; [exact H4|]. split.
  - apply Hmono. vm_compute. discriminate.
  - apply Hq. reflexivity.
Defined.

(** The grades at the documented ratios and just below them, and the two
    examples of the specification: a file at its budget is no violation
    (the caller tests [line_count > limit]); one line over is LOW. *)
Example severity_at_boundaries :
  FileSize.calculate_severity 1000 500 = Some FileSize.CRITICAL
  /\ FileSize.calculate_severity 999 500 = Some FileSize.HIGH
  /\ FileSize.calculate_severity 750 500 = Some FileSize.HIGH
  /\ FileSize.calculate_severity 749 500 = Some FileSize.MEDIUM
  /\ FileSize.calculate_severity 625 500 = Some FileSize.MEDIUM
  /\ FileSize.calculate_severity 624 500 = Some FileSize.LOW
  /\ FileSize.calculate_severity 501 500 = Some FileSize.LOW.
Proof. split_and!; reflexivity. Qed.

(** A file at its budget is not reported, a file one line over is LOW, and
    a file at twice its budget is CRITICAL and makes [main] return 1. *)
Example size_budget_examples :
  FileSize.check_file_size_violations
    [("Assets/ProjectChimera/Systems/A.cs", Py.join (replicate 500 (Py.ln "x")))]
  = []
  /\ map FileSize.sv_severity
       (FileSize.check_file_size_violations
          [("Assets/ProjectChimera/Systems/A.cs",
            Py.join (replicate 501 (Py.ln "x")))])
     = [FileSize.LOW]
  /\ FileSize.main
       [("Assets/ProjectChimera/Systems/A.cs",
         Py.join (replicate 501 (Py.ln "x")))] = 0%Z
  /\ FileSize.main
       [("Assets/ProjectChimera/Systems/A.cs",
         Py.join (replicate 501 (Py.ln "x")));
        ("Assets/ProjectChimera/Core/B.cs",
         Py.join (replicate 1000 (Py.ln "x")))] = 1%Z.
Proof. split_and!; vm_compute; reflexivity. Qed.

(** ** The exit status of enforce_file_size_limits.py *)

Section ExitStatus.

Import FileSize.

Lemma severity_counts_fold (vs : list size_violation)
    (counts : severity -> Z) (s : severity) :
  fold_left bump vs counts s = (counts s + occurrences s vs)%Z.
Proof.
  revert counts. induction vs as [|v vs IH]; intros counts; simpl; [lia|].
  rewrite IH. unfold bump. destruct (decide (s = sv_severity v)); lia.
Qed.

Lemma severity_counts_occurrences (vs : list size_violation) (s : severity) :
  severity_counts vs s = occurrences s vs.
Proof. unfold severity_counts. by rewrite severity_counts_fold. Qed.

Lemma occurrences_insert (s : severity) (v : size_violation)
    (sorted : list size_violation) :
  occurrences s (insert_desc v sorted) = occurrences s (v :: sorted).
Proof.
  induction sorted as [|x rest IH]; [done|]. cbn [insert_desc].
  destruct (key_lt (sort_key v) (sort_key x)); [|done].
  cbn [occurrences] in *. rewrite IH. lia.
Qed.

(** Sorting keeps the number of violations of each severity. *)
Lemma occurrences_sort (s : severity) (vs : list size_violation) :
  occurrences s (sort_desc vs) = occurrences s vs.
Proof.
  induction vs as [|v vs IH]; [done|].
  unfold sort_desc in *. cbn [foldr]. rewrite occurrences_insert.
  cbn [occurrences]. by rewrite IH.
Qed.

Lemma length_insert_desc (v : size_violation) (sorted : list size_violation) :
  length (insert_desc v sorted) = S (length sorted).
Proof.
  induction sorted as [|x rest IH]; [done|]. cbn [insert_desc].
  destruct (key_lt (sort_key v) (sort_key x)); simpl; [by rewrite IH | done].
Qed.

Lemma length_sort_desc (vs : list size_violation) :
  length (sort_desc vs) = length vs.
Proof.
  induction vs as [|v vs IH]; [done|].
  unfold sort_desc in *. cbn [foldr]. by rewrite length_insert_desc, IH.
Qed.

Lemma occurrences_nonneg (s : severity) (vs : list size_violation) :
  (0 <= occurrences s vs)%Z.
Proof.
  induction vs as [|v vs IH]; simpl; [done|].
  destruct (decide (s = sv_severity v)); lia.
Qed.

Lemma occurrences_pos (s : severity) (vs : list size_violation) :
  (0 < occurrences s vs)%Z <-> exists v, v ∈ vs /\ sv_severity v = s.
Proof.
  induction vs as [|v vs IH]; simpl.
  - split; [lia | intros (v & Hv & _); by apply elem_of_nil in Hv].
  - pose proof (occurrences_nonneg s vs). split.
    + destruct (decide (s = sv_severity v)) as [->|].
      * intros _. exists v. split; [left | done].
      * intros Hpos. destruct IH as [IH _].
        destruct IH as (x & Hx & Hs); [lia|]. exists x. split; [by right | done].
    + intros (x & Hx & Hs). apply elem_of_cons in Hx as [->|Hx].
      * destruct (decide (s = sv_severity v)); [lia | congruence].
      * destruct IH as [_ IH]. specialize (IH (ex_intro _ x (conj Hx Hs))).
        destruct (decide (s = sv_severity v)); lia.
Qed.

(** [main] returns 1 exactly when some finding is CRITICAL. *)
Lemma main_exit_spec (found : list size_violation) :
  main_exit found
  = if (0 <? occurrences CRITICAL found)%Z then 1%Z else 0%Z.
Proof.
  unfold main_exit. destruct found as [|v vs]; [done|].
  rewrite severity_counts_occurrences, occurrences_sort.
  destruct (0 <? occurrences CRITICAL (v :: vs))%Z; [done|].
  by destruct (total_ceiling <? _).
Qed.

End ExitStatus.

(** C9.  A CRITICAL finding makes [main] return 1 whatever the number of
    findings; without a CRITICAL finding and with fewer findings than the
    ceiling of 110, [main] returns 0 (and it returns 0 above the ceiling
    too, where it only warns). *)
Theorem critical_blocks_others_pass (found : list FileSize.size_violation) :
  ((exists v, v ∈ found /\ FileSize.sv_severity v = FileSize.CRITICAL) ->
   FileSize.main_exit found = 1%Z)
  /\ ((forall v, v ∈ found -> FileSize.sv_severity v <> FileSize.CRITICAL) ->
      length found < FileSize.total_ceiling ->
      FileSize.main_exit found = 0%Z)
  /\ ((forall v, v ∈ found -> FileSize.sv_severity v <> FileSize.CRITICAL) ->
      FileSize.main_exit found = 0%Z).
Proof.
  rewrite main_exit_spec.
  destruct (Z.ltb_spec 0 (occurrences FileSize.CRITICAL found)) as [Hpos|Hnone].
  - apply occurrences_pos in Hpos as (v & Hv & Hs).
    split_and!; [done | |]; intros Hno; by apply Hno in Hv.
  - split_and!; [|done..].
    intros Hex. apply occurrences_pos in Hex. lia.
Qed.

(** Three findings with a CRITICAL one, and two findings without. *)
Lemma critical_blocks_others_pass_witness :
  FileSize.main_exit
    [ Samples.finding 510 FileSize.LOW; Samples.finding 1200 FileSize.CRITICAL;
      Samples.finding 800 FileSize.HIGH ] = 1%Z
  /\ FileSize.main_exit
       [ Samples.finding 510 FileSize.LOW; Samples.finding 800 FileSize.HIGH ]
     = 0%Z.
Proof.
  split.
  - destruct (critical_blocks_others_pass
                [ Samples.finding 510 FileSize.LOW;
                  Samples.finding 1200 FileSize.CRITICAL;
                  Samples.finding 800 FileSize.HIGH ]) as (Hcrit & _ & _).
    apply Hcrit. exists (Samples.finding 1200 FileSize.CRITICAL).
    split; [right; left | reflexivity].
  - destruct (critical_blocks_others_pass
                [ Samples.finding 510 FileSize.LOW;
                  Samples.finding 800 FileSize.HIGH ]) as (_ & Hpass & _).
    apply Hpass.
    + intros v Hv.
      apply elem_of_cons in Hv as [->|Hv]; [discriminate|].
      apply elem_of_cons in Hv as [->|Hv]; [discriminate|].
      by apply elem_of_nil in Hv.
    + vm_compute. lia.
Defined.

(** ** Loops that only append *)

Section Loops.

Context {V : Type}.

Lemma enumerate_from_acc (body : nat -> string -> list V -> list V) :
  (forall i l vs, body i l vs = vs ++ body i l []) ->
  forall lines i vs,
    enumerate_from body i lines vs = vs ++ enumerate_from body i lines [].
Proof.
  intros H lines. induction lines as [|l lines IH]; intros i vs; simpl.
  - by rewrite app_nil_r.
  - rewrite IH, (IH _ (body i l [])), (H i l vs). by rewrite app_assoc.
Qed.

Lemma enumerate_from_elem (body : nat -> string -> list V -> list V) :
  (forall i l vs, body i l vs = vs ++ body i l []) ->
  forall lines i (v : V),
    v ∈ enumerate_from body i lines []
    <-> exists k l, lines !! k = Some l /\ v ∈ body (i + k) l [].
Proof.
  intros H lines. induction lines as [|l lines IH]; intros i v; simpl.
  - split; [by intros ?%elem_of_nil | by intros (k & l & ? & _)].
  - rewrite (enumerate_from_acc body H), elem_of_app, IH. split.
    + intros [Hv|(k & l' & Hk & Hv)].
      * exists 0, l. by rewrite Nat.add_0_r.
      * exists (S k), l'. by rewrite Nat.add_succ_r.
    + intros (k & l' & Hk & Hv). destruct k as [|k].
      * left. injection Hk as <-. by rewrite Nat.add_0_r in Hv.
      * right. exists k, l'. by rewrite Nat.add_succ_r in Hv.
Qed.

Context {A : Type}.

Lemma fold_files_acc (step : list V -> A -> list V) :
  (forall vs a, step vs a = vs ++ step [] a) ->
  forall l vs, fold_left step l vs = vs ++ fold_left step l [].
Proof.
  intros H l. induction l as [|a l IH]; intros vs; simpl.
  - by rewrite app_nil_r.
  - rewrite IH, (IH (step [] a)), (H vs a). by rewrite app_assoc.
Qed.

Lemma fold_files_app (step : list V -> A -> list V) :
  (forall vs a, step vs a = vs ++ step [] a) ->
  forall l1 l2,
    fold_left step (l1 ++ l2) [] = fold_left step l1 [] ++ fold_left step l2 [].
Proof.
  intros H l1 l2. rewrite fold_left_app. apply (fold_files_acc step H).
Qed.

Lemma fold_files_elem (step : list V -> A -> list V) :
  (forall vs a, step vs a = vs ++ step [] a) ->
  forall l (v : V),
    v ∈ fold_left step l [] <-> exists a, a ∈ l /\ v ∈ step [] a.
Proof.
  intros H l. induction l as [|a l IH]; intros v; simpl.
  - split; [by intros ?%elem_of_nil | by intros (a & ?%elem_of_nil & _)].
  - rewrite (fold_files_acc step H), elem_of_app, IH. split.
    + intros [Hv|(b & Hb & Hv)]; [exists a | exists b]; split; try done.
      * by left.
      * by right.
    + intros (b & Hb & Hv). apply elem_of_cons in Hb as [->|Hb]; [by left|].
      right. by exists b.
Qed.

End Loops.

Section Checkers.

Lemma matching_elem (text : string) (patterns : list Re.pattern) (p : Re.pattern) :
  p ∈ matching text patterns
  <-> p ∈ patterns /\ Re.search (Re.re p) text = true.
Proof.
  unfold matching. rewrite !list_elem_of_In. apply filter_In.
Qed.

(** What the pattern loop adds for a text, in terms of membership. *)
Lemma scan_patterns_elem {V : Type} (mk : Re.pattern -> V) (text : string)
    (patterns : list Re.pattern) (v : V) :
  v ∈ Re.scan_patterns mk text patterns []
  <-> exists p, p ∈ patterns /\ Re.search (Re.re p) text = true /\ v = mk p.
Proof.
  rewrite scan_patterns_spec, app_nil_l, list_elem_of_fmap. split.
  - intros (p & -> & Hp). apply matching_elem in Hp as [? ?]. by exists p.
  - intros (p & Hp & Hs & ->). exists p. split; [done|]. by apply matching_elem.
Qed.

Lemma scan_patterns_acc {V : Type} (mk : Re.pattern -> V) (text : string)
    (patterns : list Re.pattern) (vs : list V) :
  Re.scan_patterns mk text patterns vs
  = vs ++ Re.scan_patterns mk text patterns [].
Proof. by rewrite !scan_patterns_spec. Qed.

Lemma debug_line_acc (f : string) (n : nat) (line : string) (vs : list violation) :
  DebugLogBan.check_line f n line vs = vs ++ DebugLogBan.check_line f n line [].
Proof.
  unfold DebugLogBan.check_line. destruct (DebugLogBan.skipped _).
  - by rewrite app_nil_r.
  - apply scan_patterns_acc.
Qed.

Lemma debug_file_acc (vs : list violation) (f : string * string) :
  DebugLogBan.check_file vs f = vs ++ DebugLogBan.check_file [] f.
Proof.
  unfold DebugLogBan.check_file.
  repeat (match goal with
          | |- context [if ?b then vs else _] =>
              destruct b; [by rewrite app_nil_r|]
          end).
  apply enumerate_from_acc. apply debug_line_acc.
Qed.

End Checkers.

(** X1.  The Debug.Log checker reports a violation exactly for a line of a
    file that is neither exempted nor a backup, whose stripped text is not
    skipped, and a pattern of the list found in the raw line; the
    violation carries the path, the line number counted from 1, the
    stripped line and the pattern. *)
Theorem debug_log_report_exact
    (cs_files : list (string * string)) (v : violation) :
  v ∈ DebugLogBan.check_debug_log_violations cs_files
  <-> exists path text n line p,
        (path, text) ∈ cs_files
        /\ Py.any_in DebugLogBan.exempted_files path = false
        /\ Py.any_in DebugLogBan.exempted_dirs path = false
        /\ Py.contains ".backup" path = false
        /\ Py.readlines text !! n = Some line
        /\ DebugLogBan.skipped (Py.strip line) = false
        /\ p ∈ DebugLogBan.violation_patterns
        /\ Re.search (Re.re p) line = true
        /\ v = Violation path (S n) (Py.strip line) (Re.src p).
Proof.
  unfold DebugLogBan.check_debug_log_violations.
  rewrite (fold_files_elem _ debug_file_acc). split.
  - intros ([path text] & Hin & Hv). unfold DebugLogBan.check_file in Hv.
    cbn [fst snd] in Hv.
    destruct (Py.any_in DebugLogBan.exempted_files path) eqn:E1;
      [by apply elem_of_nil in Hv|].
    destruct (Py.any_in DebugLogBan.exempted_dirs path) eqn:E2;
      [by apply elem_of_nil in Hv|].
    destruct (Py.contains ".backup" path) eqn:E3;
      [by apply elem_of_nil in Hv|].
    apply (enumerate_from_elem _ (debug_line_acc path)) in Hv
      as (n & line & Hl & Hv).
    unfold DebugLogBan.check_line in Hv.
    destruct (DebugLogBan.skipped (Py.strip line)) eqn:E4;
      [by apply elem_of_nil in Hv|].
    apply scan_patterns_elem in Hv as (p & Hp & Hs & ->).
    by exists path, text, n, line, p.
  - intros (path & text & n & line & p & Hin & E1 & E2 & E3 & Hl & E4 & Hp & Hs & ->).
    exists (path, text). split; [done|].
    unfold DebugLogBan.check_file. cbn [fst snd]. rewrite E1, E2, E3.
    apply (enumerate_from_elem _ (debug_line_acc path)).
    exists n, line. split; [done|].
    unfold DebugLogBan.check_line. rewrite E4.
    apply scan_patterns_elem. by exists p.
Qed.

Section MoreCheckers.

Lemma find_line_acc (f : string) (n : nat) (line : string) (vs : list violation) :
  FindObjectBan.check_line f n line vs = vs ++ FindObjectBan.check_line f n line [].
Proof.
  unfold FindObjectBan.check_line. destruct (FindObjectBan.skipped _).
  - by rewrite app_nil_r.
  - apply scan_patterns_acc.
Qed.

Lemma find_file_acc (vs : list violation) (f : string * string) :
  FindObjectBan.check_file vs f = vs ++ FindObjectBan.check_file [] f.
Proof.
  unfold FindObjectBan.check_file.
  repeat (match goal with
          | |- context [if ?b then vs else _] =>
              destruct b; [by rewrite app_nil_r|]
          end).
  apply enumerate_from_acc. apply find_line_acc.
Qed.

Lemma update_line_acc (f : string) (n : nat) (line : string) (vs : list violation) :
  UpdateBan.check_line f n line vs = vs ++ UpdateBan.check_line f n line [].
Proof.
  unfold UpdateBan.check_line. destruct (UpdateBan.skipped _).
  - by rewrite app_nil_r.
  - apply scan_patterns_acc.
Qed.

Lemma update_file_acc (vs : list violation) (f : string * string) :
  UpdateBan.check_file vs f = vs ++ UpdateBan.check_file [] f.
Proof.
  unfold UpdateBan.check_file.
  repeat (match goal with
          | |- context [if ?b then vs else _] =>
              destruct b; [by rewrite app_nil_r|]
          end).
  apply enumerate_from_acc. apply update_line_acc.
Qed.

Lemma resources_line_acc (f : string) (lines : list string) (n : nat)
    (line : string) (vs : list ResourcesBan.rviolation) :
  ResourcesBan.check_line f lines n line vs
  = vs ++ ResourcesBan.check_line f lines n line [].
Proof.
  unfold ResourcesBan.check_line. destruct (ResourcesBan.skipped _).
  - by rewrite app_nil_r.
  - destruct (ResourcesBan._is_legitimate_fallback _ _ _).
    + by rewrite app_nil_r.
    + apply scan_patterns_acc.
Qed.

Lemma resources_file_acc (vs : list ResourcesBan.rviolation)
    (f : string * string) :
  ResourcesBan.check_file vs f = vs ++ ResourcesBan.check_file [] f.
Proof.
  unfold ResourcesBan.check_file.
  repeat (match goal with
          | |- context [if ?b then vs else _] =>
              destruct b; [by rewrite app_nil_r|]
          end).
  apply enumerate_from_acc. apply resources_line_acc.
Qed.

Lemma prefix_shorter (a b s : string) :
  String.prefix (a +:+ b) s = true -> String.prefix a s = true.
Proof.
  revert s. induction a as [|c a IH]; intros s H; [apply prefix_empty|].
  destruct s as [|d s]; [done|]. rewrite append_cons, prefix_cons in H.
  rewrite prefix_cons. apply andb_true_iff in H as [-> H]. by apply IH.
Qed.

(** A text that holds [a] followed by [b] holds [a]. *)
Lemma contains_shorter (a b s : string) :
  Py.contains (a +:+ b) s = true -> Py.contains a s = true.
Proof.
  induction s as [|c s IH]; rewrite (contains_eq (a +:+ b)), (contains_eq a);
    intros H.
  - rewrite orb_false_r in *. by apply prefix_shorter in H.
  - apply orb_true_iff in H as [H|H]; apply orb_true_iff.
    + left. by apply prefix_shorter in H.
    + right. by apply IH.
Qed.

Lemma code_text_no_remark (remark line_content : string) :
  Py.contains ("//" +:+ remark) (QualityGates.code_text line_content) = false.
Proof.
  destruct (Py.contains _ _) eqn:E; [|done].
  apply contains_shorter in E. by rewrite code_text_no_marker in E.
Qed.

(** The quality gates add nothing for a suppressed line and scan the code
    text of any other. *)
Lemma quality_gates_line_exact (f : string) (i : nat) (line : string)
    (vs : list violation) :
  QualityGates.check_line f i line vs
  = if quality_gate_suppressed f line then vs
    else Re.scan_patterns
           (fun p => Violation f i (QualityGates.code_text (Py.strip line))
                       (Re.src p))
           (QualityGates.code_text (Py.strip line))
           QualityGates.FORBIDDEN_PATTERNS vs.
Proof.
  unfold QualityGates.check_line, quality_gate_suppressed. cbv zeta.
  rewrite (code_text_no_remark " Legacy"), (code_text_no_remark " MIGRATION").
  rewrite !orb_false_r.
  repeat (match goal with
          | |- context [if ?b then vs else _] =>
              destruct b; cbn [orb andb]; [done|]
          end).
  done.
Qed.

Lemma quality_line_acc (f : string) (n : nat) (line : string) (vs : list violation) :
  QualityGates.check_line f n line vs = vs ++ QualityGates.check_line f n line [].
Proof.
  rewrite !quality_gates_line_exact. destruct (quality_gate_suppressed f line).
  - by rewrite app_nil_r.
  - apply scan_patterns_acc.
Qed.

Lemma quality_file_acc (vs : list violation) (f : string * string) :
  QualityGates.check_file vs f = vs ++ QualityGates.check_file [] f.
Proof. apply enumerate_from_acc. apply quality_line_acc. Qed.

Lemma find_cs_files_elem (found : list (string * string)) (f : string * string) :
  f ∈ QualityGates.find_cs_files found
  <-> f ∈ found /\ Py.contains "Testing" (fst f) = false
               /\ Py.contains "Editor" (fst f) = false.
Proof.
  unfold QualityGates.find_cs_files. rewrite list_elem_of_filter.
  rewrite negb_True, orb_True. split.
  - intros [Hn Hin]. split; [done|].
    destruct (Py.contains "Testing" (fst f)), (Py.contains "Editor" (fst f));
      try done; exfalso; apply Hn; simpl; auto.
  - intros (Hin & -> & ->). split; [|done]. simpl. tauto.
Qed.

End MoreCheckers.

(** X2.  The FindObjectOfType checker reports a violation exactly for a line
    of a file that is neither exempted nor a backup, whose stripped text is
    not skipped, and a pattern of the list found in the raw line. *)
Theorem findobjectoftype_report_exact
    (cs_files : list (string * string)) (v : violation) :
  v ∈ FindObjectBan.check_findobjectoftype_violations cs_files
  <-> exists path text n line p,
        (path, text) ∈ cs_files
        /\ Py.any_in FindObjectBan.exempted_files path = false
        /\ Py.contains ".backup" path = false
        /\ Py.readlines text !! n = Some line
        /\ FindObjectBan.skipped (Py.strip line) = false
        /\ p ∈ FindObjectBan.violation_patterns
        /\ Re.search (Re.re p) line = true
        /\ v = Violation path (S n) (Py.strip line) (Re.src p).
Proof.
  unfold FindObjectBan.check_findobjectoftype_violations.
  rewrite (fold_files_elem _ find_file_acc). split.
  - intros ([path text] & Hin & Hv). unfold FindObjectBan.check_file in Hv.
    cbn [fst snd] in Hv.
    destruct (Py.any_in FindObjectBan.exempted_files path) eqn:E1;
      [by apply elem_of_nil in Hv|].
    destruct (Py.contains ".backup" path) eqn:E3;
      [by apply elem_of_nil in Hv|].
    apply (enumerate_from_elem _ (find_line_acc path)) in Hv
      as (n & line & Hl & Hv).
    unfold FindObjectBan.check_line in Hv.
    destruct (FindObjectBan.skipped (Py.strip line)) eqn:E4;
      [by apply elem_of_nil in Hv|].
    apply scan_patterns_elem in Hv as (p & Hp & Hs & ->).
    by exists path, text, n, line, p.
  - intros (path & text & n & line & p & Hin & E1 & E3 & Hl & E4 & Hp & Hs & ->).
    exists (path, text). split; [done|].
    unfold FindObjectBan.check_file. cbn [fst snd]. rewrite E1, E3.
    apply (enumerate_from_elem _ (find_line_acc path)).
    exists n, line. split; [done|].
    unfold FindObjectBan.check_line. rewrite E4.
    apply scan_patterns_elem. by exists p.
Qed.

(** X3.  The Update() checker reports a violation exactly for a line of a
    file outside the exempted files and directories, whose stripped text is
    not skipped, and a pattern of the list found in the raw line. *)
Theorem update_method_report_exact
    (cs_files : list (string * string)) (v : violation) :
  v ∈ UpdateBan.check_update_method_violations cs_files
  <-> exists path text n line p,
        (path, text) ∈ cs_files
        /\ Py.any_in UpdateBan.exempted_files path = false
        /\ Py.any_in UpdateBan.exempted_dirs path = false
        /\ Py.any_in [".backup"; "Testing/"; "Tests/"; "Editor/"] path = false
        /\ Py.readlines text !! n = Some line
        /\ UpdateBan.skipped (Py.strip line) = false
        /\ p ∈ UpdateBan.violation_patterns
        /\ Re.search (Re.re p) line = true
        /\ v = Violation path (S n) (Py.strip line) (Re.src p).
Proof.
  unfold UpdateBan.check_update_method_violations.
  rewrite (fold_files_elem _ update_file_acc). split.
  - intros ([path text] & Hin & Hv). unfold UpdateBan.check_file in Hv.
    cbn [fst snd] in Hv.
    destruct (Py.any_in UpdateBan.exempted_files path) eqn:E1;
      [by apply elem_of_nil in Hv|].
    destruct (Py.any_in UpdateBan.exempted_dirs path) eqn:E2;
      [by apply elem_of_nil in Hv|].
    destruct (Py.any_in [".backup"; "Testing/"; "Tests/"; "Editor/"] path) eqn:E3;
      [by apply elem_of_nil in Hv|].
    apply (enumerate_from_elem _ (update_line_acc path)) in Hv
      as (n & line & Hl & Hv).
    unfold UpdateBan.check_line in Hv.
    destruct (UpdateBan.skipped (Py.strip line)) eqn:E4;
      [by apply elem_of_nil in Hv|].
    apply scan_patterns_elem in Hv as (p & Hp & Hs & ->).
    by exists path, text, n, line, p.
  - intros (path & text & n & line & p & Hin & E1 & E2 & E3 & Hl & E4 & Hp & Hs & ->).
    exists (path, text). split; [done|].
    unfold UpdateBan.check_file. cbn [fst snd]. rewrite E1, E2, E3.
    apply (enumerate_from_elem _ (update_line_acc path)).
    exists n, line. split; [done|].
    unfold UpdateBan.check_line. rewrite E4.
    apply scan_patterns_elem. by exists p.
Qed.

(** X4.  The Resources.Load checker reports a violation exactly for a line
    of a file that is not exempted, whose stripped text is not skipped, for
    which the context check fails, and a pattern of the list found in the
    raw line; the severity is that of the stripped line and the
    path. *)
Theorem resources_load_report_exact
    (cs_files : list (string * string)) (v : ResourcesBan.rviolation) :
  v ∈ ResourcesBan.check_resources_load_violations cs_files
  <-> exists path text n line p,
        (path, text) ∈ cs_files
        /\ Py.any_in ResourcesBan.exempted_files path = false
        /\ Py.any_in [".backup"; "Testing/"; "Tests/"; "Editor/"] path = false
        /\ Py.readlines text !! n = Some line
        /\ ResourcesBan.skipped (Py.strip line) = false
        /\ ResourcesBan._is_legitimate_fallback (Py.readlines text) n
             (Py.strip line) = false
        /\ p ∈ ResourcesBan.violation_patterns
        /\ Re.search (Re.re p) line = true
        /\ v = ResourcesBan.RViolation
                 (Violation path (S n) (Py.strip line) (Re.src p))
                 (ResourcesBan._assess_severity (Py.strip line) path).
Proof.
  unfold ResourcesBan.check_resources_load_violations.
  rewrite (fold_files_elem _ resources_file_acc). split.
  - intros ([path text] & Hin & Hv). unfold ResourcesBan.check_file in Hv.
    cbn [fst snd] in Hv.
    destruct (Py.any_in ResourcesBan.exempted_files path) eqn:E1;
      [by apply elem_of_nil in Hv|].
    destruct (Py.any_in [".backup"; "Testing/"; "Tests/"; "Editor/"] path) eqn:E3;
      [by apply elem_of_nil in Hv|].
    apply (enumerate_from_elem _ (resources_line_acc path _)) in Hv
      as (n & line & Hl & Hv).
    unfold ResourcesBan.check_line in Hv.
    destruct (ResourcesBan.skipped (Py.strip line)) eqn:E4;
      [by apply elem_of_nil in Hv|].
    replace (1 + n - 1) with n in Hv by lia.
    destruct (ResourcesBan._is_legitimate_fallback _ n _) eqn:E5;
      [by apply elem_of_nil in Hv|].
    apply scan_patterns_elem in Hv as (p & Hp & Hs & ->).
    by exists path, text, n, line, p.
  - intros (path & text & n & line & p & Hin & E1 & E3 & Hl & E4 & E5 & Hp & Hs & ->).
    exists (path, text). split; [done|].
    unfold ResourcesBan.check_file. cbn [fst snd]. rewrite E1, E3.
    apply (enumerate_from_elem _ (resources_line_acc path _)).
    exists n, line. split; [done|].
    unfold ResourcesBan.check_line. rewrite E4.
    replace (1 + n - 1) with n by lia. rewrite E5.
    apply scan_patterns_elem. by exists p.
Qed.

(** X5.  The quality gates report a violation exactly for a line of a file
    outside the Testing and Editor directories that is not suppressed, and
    a forbidden pattern found in the code text of the line; the
    violation records the code text, not the whole line. *)
Theorem quality_gates_report_exact
    (found : list (string * string)) (v : violation) :
  v ∈ QualityGates.check_anti_patterns found
  <-> exists path text n line p,
        (path, text) ∈ found
        /\ Py.contains "Testing" path = false
        /\ Py.contains "Editor" path = false
        /\ Py.readlines text !! n = Some line
        /\ quality_gate_suppressed path line = false
        /\ p ∈ QualityGates.FORBIDDEN_PATTERNS
        /\ Re.search (Re.re p) (QualityGates.code_text (Py.strip line)) = true
        /\ v = Violation path (S n) (QualityGates.code_text (Py.strip line))
                 (Re.src p).
Proof.
  unfold QualityGates.check_anti_patterns.
  rewrite (fold_files_elem _ quality_file_acc). split.
  - intros ([path text] & Hin & Hv).
    apply find_cs_files_elem in Hin as (Hin & E1 & E2). cbn [fst] in E1, E2.
    unfold QualityGates.check_file in Hv. cbn [fst snd] in Hv.
    apply (enumerate_from_elem _ (quality_line_acc path)) in Hv
      as (n & line & Hl & Hv).
    rewrite quality_gates_line_exact in Hv.
    destruct (quality_gate_suppressed path line) eqn:E4;
      [by apply elem_of_nil in Hv|].
    apply scan_patterns_elem in Hv as (p & Hp & Hs & ->).
    by exists path, text, n, line, p.
  - intros (path & text & n & line & p & Hin & E1 & E2 & Hl & E4 & Hp & Hs & ->).
    exists (path, text). split; [by apply find_cs_files_elem|].
    unfold QualityGates.check_file. cbn [fst snd].
    apply (enumerate_from_elem _ (quality_line_acc path)).
    exists n, line. split; [done|].
    rewrite quality_gates_line_exact, E4.
    apply scan_patterns_elem. by exists p.
Qed.

(** ** Patterns that find the same lines *)

Section Patterns.

Import Re.

Lemma lit_lang (s w : string) : lang (lit s) w <-> w = s.
Proof.
  revert w. induction s as [|c s IH]; intros w.
  - split; [apply lang_eps_inv | intros ->; constructor].
  - destruct s as [|d s].
    + cbn [lit]. split.
      * inversion 1 as [|k a Hk| | | | |]; subst. cbn [in_cls] in Hk.
        by apply Ascii.eqb_eq in Hk as ->.
      * intros ->. constructor. apply Ascii.eqb_refl.
    + change (lit (String c (String d s)))
        with (Cat (Cls (CChr c)) (lit (String d s))). split.
      * inversion 1 as [| |? ? s1 s2 H1 H2| | | |]; subst.
        apply IH in H2 as ->.
        inversion H1 as [|k a Hk| | | | |]; subst. cbn [in_cls] in Hk.
        by apply Ascii.eqb_eq in Hk as ->.
      * intros ->. apply (lang_cat _ _ (String c "") (String d s)).
        -- constructor. apply Ascii.eqb_refl.
        -- by apply IH.
Qed.

(** A pattern that starts with a longer literal finds nothing that the
    pattern with the end of that literal does not find. *)
Lemma search_longer_literal (a b : string) (r : regex) (s : string) :
  search (Cat (lit (a +:+ b)) r) s = true -> search (Cat (lit b) r) s = true.
Proof.
  rewrite !search_lang. intros (pre & p & post & -> & H).
  inversion H as [| |? ? s1 s2 H1 H2| | | |]; subst.
  apply lit_lang in H1 as ->.
  exists (pre +:+ a), (b +:+ s2), post. split.
  - by rewrite !append_assoc.
  - constructor; [by apply lit_lang | done].
Qed.

Lemma update_patterns_agree (s : string) :
  search (seq [opt (alts [lit "private"; lit "protected"; lit "public"]);
               Star ws; UpdateBan.VOID_UPDATE]) s
  = search UpdateBan.VOID_UPDATE s.
Proof.
  apply eq_true_iff_eq. rewrite !search_lang. split.
  - intros (pre & p & post & -> & H). cbn [seq] in H.
    inversion H as [| |? ? s1 s2 H1 H2| | | |]; subst.
    inversion H2 as [| |? ? s3 s4 H3 H4| | | |]; subst.
    exists (pre +:+ s1 +:+ s3), s4, post. split; [by rewrite !append_assoc | done].
  - intros (pre & p & post & -> & H). exists pre, p, post. split; [done|].
    cbn [seq]. apply (lang_cat _ _ "" p); [apply lang_alt_r; constructor|].
    apply (lang_cat _ _ "" p); [constructor | done].
Qed.

End Patterns.

Section EvenLoops.

Context {V : Type}.

Lemma even_enumerate (body : nat -> string -> list V -> list V) :
  (forall i l vs, body i l vs = vs ++ body i l []) ->
  (forall i l, Nat.even (length (body i l [])) = true) ->
  forall lines i, Nat.even (length (enumerate_from body i lines [])) = true.
Proof.
  intros Hacc Hev lines. induction lines as [|l lines IH]; intros i; [done|].
  simpl. rewrite (enumerate_from_acc body Hacc), length_app, Nat.even_add.
  by rewrite Hev, IH.
Qed.

Lemma even_fold_files {A : Type} (step : list V -> A -> list V) :
  (forall vs a, step vs a = vs ++ step [] a) ->
  (forall a, Nat.even (length (step [] a)) = true) ->
  forall l, Nat.even (length (fold_left step l [])) = true.
Proof.
  intros Hacc Hev l. induction l as [|a l IH]; [done|].
  simpl. rewrite (fold_files_acc step Hacc), length_app, Nat.even_add.
  by rewrite Hev, IH.
Qed.

End EvenLoops.

(** X6.  The two patterns of the Update() checker find the same lines, so a
    line is reported either not at all or twice, once under each pattern,
    and the number of violations of a run is even. *)
Theorem update_method_reported_twice
    (cs_files : list (string * string)) (path : string) (n : nat)
    (line : string) :
  (UpdateBan.check_line path n line [] = []
   \/ UpdateBan.check_line path n line []
      = map (fun p => Violation path n (Py.strip line) (Re.src p))
          UpdateBan.violation_patterns)
  /\ Nat.even (length (UpdateBan.check_update_method_violations cs_files))
     = true.
Proof.
  assert (forall f i l,
            UpdateBan.check_line f i l [] = []
            \/ UpdateBan.check_line f i l []
               = map (fun p => Violation f i (Py.strip l) (Re.src p))
                   UpdateBan.violation_patterns) as Hline.
  { intros f i l. unfold UpdateBan.check_line.
    destruct (UpdateBan.skipped _); [by left|].
    rewrite scan_patterns_spec. unfold matching, UpdateBan.violation_patterns.
    cbn [List.filter Re.re]. rewrite update_patterns_agree.
    destruct (Re.search UpdateBan.VOID_UPDATE l); [by right | by left]. }
  split; [apply Hline|].
  apply (even_fold_files _ update_file_acc). intros [f text].
  unfold UpdateBan.check_file. cbn [fst snd].
  repeat (match goal with
          | |- context [if ?b then [] else _] => destruct b; [done|]
          end).
  apply (even_enumerate _ (update_line_acc f)). intros i l.
  by destruct (Hline f i l) as [-> | ->].
Qed.

(** X7.  A line that is not skipped and is found by the pattern for a
    qualified call is reported under the pattern for the bare call and
    under the qualified pattern, in this order: the checker records at
    least two violations for it.  This holds for the [UnityEngine.Debug.Log]
    pattern of the Debug.Log checker and for the three qualified patterns
    of the FindObjectOfType checker. *)
Theorem qualified_calls_reported_twice
    (file_path : string) (line_num : nat) (line : string) :
  (DebugLogBan.skipped (Py.strip line) = false ->
   forall p, p ∈ DebugLogBan.violation_patterns ->
     Re.src p = "UnityEngine\.Debug\.Log\s*\(" ->
     Re.search (Re.re p) line = true ->
     [ Violation file_path line_num (Py.strip line) "Debug\.Log\s*\(";
       Violation file_path line_num (Py.strip line) (Re.src p) ]
       `sublist_of` DebugLogBan.check_line file_path line_num line [])
  /\ (FindObjectBan.skipped (Py.strip line) = false ->
      forall p, p ∈ FindObjectBan.violation_patterns ->
        Re.src p <> "FindObjectOfType<[^>]+>\s*\(" ->
        Re.src p <> "FindObjectsOfType<[^>]+>\s*\(" ->
        Re.search (Re.re p) line = true ->
        [ Violation file_path line_num (Py.strip line)
            "FindObjectOfType<[^>]+>\s*\(";
          Violation file_path line_num (Py.strip line) (Re.src p) ]
          `sublist_of` FindObjectBan.check_line file_path line_num line []).
Proof.
  split.
  - intros Hskip p Hp Hsrc Hs.
    unfold DebugLogBan.check_line. rewrite Hskip, scan_patterns_spec.
    unfold DebugLogBan.violation_patterns in *.
    repeat (apply elem_of_cons in Hp as [->|Hp]); try done;
      [|by apply elem_of_nil in Hp].
    cbn [Re.re Re.src] in *.
    assert (Re.search (Re.seq [Re.lit "Debug.Log"; Re.Star Re.ws; Re.lit "("])
              line = true) as Hbare.
    { cbn [Re.seq] in *.
      by apply (search_longer_literal "UnityEngine." "Debug.Log"). }
    unfold matching. cbn [List.filter Re.re]. rewrite Hbare, Hs.
    repeat match goal with
           | |- context [Re.search ?r line] => destruct (Re.search r line)
           end;
      cbn [map app Re.src];
      repeat first [apply sublist_nil | apply sublist_skip | apply sublist_cons].
  - intros Hskip p Hp Hne1 Hne2 Hs.
    unfold FindObjectBan.check_line. rewrite Hskip, scan_patterns_spec.
    assert (forall a,
              Re.search (FindObjectBan.generic_call (a +:+ "FindObjectOfType")) line
              = true ->
              Re.search (FindObjectBan.generic_call "FindObjectOfType") line
              = true) as Hsub.
    { intros a. unfold FindObjectBan.generic_call. cbn [Re.seq].
      replace ((a +:+ "FindObjectOfType") +:+ "<")
        with (a +:+ ("FindObjectOfType" +:+ "<")) by (by rewrite append_assoc).
      apply search_longer_literal. }
    unfold FindObjectBan.violation_patterns in *.
    repeat (apply elem_of_cons in Hp as [->|Hp]); try done;
      try (by apply elem_of_nil in Hp);
      cbn [Re.re Re.src] in *;
      [ pose proof (Hsub "GameObject." Hs) as Hbare
      | pose proof (Hsub "UnityEngine.Object." Hs) as Hbare
      | pose proof (Hsub "Object." Hs) as Hbare ];
      unfold matching; cbn [List.filter Re.re]; rewrite Hbare, Hs;
      repeat match goal with
             | |- context [Re.search ?r line] => destruct (Re.search r line)
             end;
      cbn [map app Re.src];
      repeat first [apply sublist_nil | apply sublist_skip | apply sublist_cons].
Qed.

(** X8.  The violations found in a list of files are those of its first
    part followed by those of its second part: no checker carries anything
    from one file to the next. *)
Theorem checkers_compose (files1 files2 : list (string * string)) :
  DebugLogBan.check_debug_log_violations (files1 ++ files2)
  = DebugLogBan.check_debug_log_violations files1
    ++ DebugLogBan.check_debug_log_violations files2
  /\ FindObjectBan.check_findobjectoftype_violations (files1 ++ files2)
     = FindObjectBan.check_findobjectoftype_violations files1
       ++ FindObjectBan.check_findobjectoftype_violations files2
  /\ UpdateBan.check_update_method_violations (files1 ++ files2)
     = UpdateBan.check_update_method_violations files1
       ++ UpdateBan.check_update_method_violations files2
  /\ ResourcesBan.check_resources_load_violations (files1 ++ files2)
     = ResourcesBan.check_resources_load_violations files1
       ++ ResourcesBan.check_resources_load_violations files2
  /\ QualityGates.check_anti_patterns (files1 ++ files2)
     = QualityGates.check_anti_patterns files1
       ++ QualityGates.check_anti_patterns files2.
Proof.
  split_and!.
  - apply fold_files_app, debug_file_acc.
  - apply fold_files_app, find_file_acc.
  - apply fold_files_app, update_file_acc.
  - apply fold_files_app, resources_file_acc.
  - unfold QualityGates.check_anti_patterns, QualityGates.find_cs_files.
    rewrite filter_app. apply fold_files_app, quality_file_acc.
Qed.

(** X9.  The context check succeeds exactly when one of the lines at the
    indices [line_idx - 5] (or 0) to [line_idx + 4] holds, stripped and
    lower-cased, one of the five lower-case indicators. *)
Theorem fallback_window_exact
    (lines : list string) (line_idx : nat) (line_content : string) :
  ResourcesBan._is_legitimate_fallback lines line_idx line_content = true
  <-> exists i l,
        line_idx - 5 <= i <= line_idx + 4
        /\ lines !! i = Some l
        /\ Py.any_in indicators_without_guard (Py.lower (Py.strip l)) = true.
Proof.
  unfold ResourcesBan._is_legitimate_fallback. rewrite fallback_with_true.
  split; intros (i & l & Hi & Hl & Hany); exists i, l.
  - rewrite <- any_in_without_guard. split; [lia | done].
  - rewrite any_in_without_guard. split; [lia | done].
Qed.

(** ** Budgets and violations of enforce_file_size_limits.py *)

Section SizeFacts.

Import FileSize.

Lemma split_slash_go_nonempty (cur s : string) : split_slash_go cur s <> [].
Proof.
  revert cur. induction s as [|c s IH]; intros cur; simpl; [done|].
  destruct (Ascii.eqb c "/"); [done | apply IH].
Qed.

Lemma concat_cons_nonempty (sep x : string) (l : list string) :
  l <> [] -> String.concat sep (x :: l) = x +:+ sep +:+ String.concat sep l.
Proof. by destruct l. Qed.

Lemma split_slash_go_join (s cur : string) :
  String.concat "/" (split_slash_go cur s) = String.rev cur +:+ s.
Proof.
  revert cur. induction s as [|c s IH]; intros cur; cbn [split_slash_go].
  - cbn [String.concat]. by rewrite append_empty_r.
  - destruct (Ascii.eqb_spec c "/"%char) as [->|].
    + rewrite concat_cons_nonempty by apply split_slash_go_nonempty.
      by rewrite IH.
    + by rewrite IH, rev_cons, append_assoc.
Qed.

Lemma split_slash_join (s : string) : String.concat "/" (split_slash s) = s.
Proof. unfold split_slash. by rewrite split_slash_go_join. Qed.

Lemma limit_cases (file_path : string) : budget file_path = 500%Z \/ budget file_path = 600%Z.
Proof.
  unfold budget, determine_system_type.
  repeat (match goal with
          | |- context [if ?b then _ else _] => destruct b
          end); vm_compute; auto.
Qed.

End SizeFacts.

Section SizeLoops.

Import FileSize.

Lemma budget_pos (file_path : string) : (0 < budget file_path)%Z.
Proof. destruct (limit_cases file_path) as [-> | ->]; lia. Qed.

Lemma size_file_acc (vs : list size_violation) (f : string * string) :
  check_file vs f = vs ++ check_file [] f.
Proof.
  unfold check_file.
  repeat (match goal with
          | |- context [if ?b then vs else _] =>
              destruct b; [by rewrite app_nil_r|]
          end).
  destruct (_ <? _)%Z; [|by rewrite app_nil_r].
  destruct (calculate_severity _ _); [done | by rewrite app_nil_r].
Qed.

(** What [check_file_size_violations] adds for one file. *)
Lemma size_file_exact (path text : string) :
  check_file [] (path, text)
  = if Py.contains ".backup" path || Py.any_in exempted_files path then []
    else
      let n := Z.of_nat (length (Py.readlines text)) in
      if (budget path <? n)%Z
      then [SizeViolation path n (budget path) (n - budget path)
              (determine_system_type (split_slash path))
              (tier (excess_ratio n (budget path)))]
      else [].
Proof.
  unfold check_file. cbn [fst snd].
  destruct (Py.contains ".backup" path); [done|].
  destruct (Py.any_in exempted_files path); [done|]. cbn [orb]. cbv zeta.
  fold (budget path). destruct (_ <? _)%Z; [|done].
  unfold calculate_severity. pose proof (budget_pos path).
  destruct (Z.eqb_spec (budget path) 0); [lia | done].
Qed.

Lemma size_warning_acc (vs : list QualityGates.size_warning)
    (f : string * string) :
  QualityGates.check_size_file vs f = vs ++ QualityGates.check_size_file [] f.
Proof.
  unfold QualityGates.check_size_file.
  destruct (_ <? _); [done | by rewrite app_nil_r].
Qed.

Lemma di_file_acc (vs : list QualityGates.di_issue) (f : string * string) :
  QualityGates.check_di_file vs f = vs ++ QualityGates.check_di_file [] f.
Proof.
  unfold QualityGates.check_di_file. cbv zeta.
  repeat (match goal with
          | |- context [if ?b then _ else _] => destruct b
          end); by rewrite ?app_nil_r, <- ?app_assoc.
Qed.

End SizeLoops.

(** X10.  Splitting a path at the slashes and joining the parts gives the path
    back, so the subsystem is decided by the lower-cased path alone; the
    budget is 600 lines only for a test path that holds none of the markers
    /core/, /systems/, /data/ and /ui/, and 500 lines for every other
    path. *)
Theorem budget_by_markers (file_path : string) :
  let lowered := Py.lower file_path in
  String.concat "/" (FileSize.split_slash file_path) = file_path
  /\ budget file_path
     = if Py.contains "/core/" lowered || Py.contains "/systems/" lowered
          || Py.contains "/data/" lowered || Py.contains "/ui/" lowered
       then 500%Z
       else if Py.contains "/testing/" lowered || Py.contains "/tests/" lowered
       then 600%Z
       else 500%Z.
Proof.
  cbv zeta. split; [apply split_slash_join|].
  unfold budget, FileSize.determine_system_type. rewrite split_slash_join.
  repeat (match goal with
          | |- context [if Py.contains ?m ?s then _ else _] =>
              destruct (Py.contains m s); cbn [orb]; [vm_compute; reflexivity|]
          end).
  destruct (Py.contains "/testing/" _ || Py.contains "/tests/" _);
    [vm_compute; reflexivity|].
  destruct (Py.contains "/editor/" _); vm_compute; reflexivity.
Qed.

(** X11.  For a limit below 2^53 and a line count that is not negative
    and below 2^1023, [calculate_severity] is decided by whole-number
    tests on the line count, with the exact quotient and with the quotient
    rounded to binary64 as Python rounds it. *)
Theorem severity_by_line_counts (line_count limit : Z) :
  (0 < limit < 2 ^ 53)%Z -> (0 <= line_count < 2 ^ 1023)%Z ->
  FileSize.calculate_severity line_count limit
  = Some (if (2 * limit <=? line_count)%Z then FileSize.CRITICAL
          else if (3 * limit <=? 2 * line_count)%Z then FileSize.HIGH
          else if (5 * limit <=? 4 * line_count)%Z then FileSize.MEDIUM
          else FileSize.LOW)
  /\ FileSize.calculate_severity_binary64 line_count limit
     = Some (if (2 * limit <=? line_count)%Z then FileSize.CRITICAL
             else if (3 * limit <=? 2 * line_count)%Z then FileSize.HIGH
             else if (5 * limit <=? 4 * line_count)%Z then FileSize.MEDIUM
             else FileSize.LOW).
Proof.
  intros Hl Hc. split.
  - apply calculate_severity_graded. lia.
  - by apply calculate_severity_binary64_graded.
Qed.

Lemma severity_by_line_counts_witness :
  FileSize.calculate_severity 749 500 = Some FileSize.MEDIUM
  /\ FileSize.calculate_severity_binary64 749 500 = Some FileSize.MEDIUM.
Proof.
  apply (severity_by_line_counts 749 500); lia.
Defined.

Lemma size_report_elem
    (cs_files : list (string * string)) (v : FileSize.size_violation) :
  v ∈ FileSize.check_file_size_violations cs_files
  <-> exists path text,
        (path, text) ∈ cs_files
        /\ Py.contains ".backup" path = false
        /\ Py.any_in FileSize.exempted_files path = false
        /\ (budget path < Z.of_nat (length (Py.readlines text)))%Z
        /\ v = FileSize.SizeViolation path
                 (Z.of_nat (length (Py.readlines text))) (budget path)
                 (Z.of_nat (length (Py.readlines text)) - budget path)
                 (FileSize.determine_system_type (FileSize.split_slash path))
                 (FileSize.tier
                    (FileSize.excess_ratio
                       (Z.of_nat (length (Py.readlines text))) (budget path))).
Proof.
  unfold FileSize.check_file_size_violations.
  rewrite (fold_files_elem _ size_file_acc). split.
  - intros ([path text] & Hin & Hv). rewrite size_file_exact in Hv.
    destruct (Py.contains ".backup" path) eqn:E1; [by apply elem_of_nil in Hv|].
    destruct (Py.any_in FileSize.exempted_files path) eqn:E2;
      [by apply elem_of_nil in Hv|].
    cbn [orb] in Hv. cbv zeta in Hv.
    destruct (Z.ltb_spec (budget path) (Z.of_nat (length (Py.readlines text))));
      [|by apply elem_of_nil in Hv].
    apply list_elem_of_singleton in Hv as ->. by exists path, text.
  - intros (path & text & Hin & E1 & E2 & Hlt & ->).
    exists (path, text). split; [done|].
    rewrite size_file_exact, E1, E2. cbn [orb]. cbv zeta.
    destruct (Z.ltb_spec (budget path) (Z.of_nat (length (Py.readlines text))));
      [|lia].
    by apply list_elem_of_singleton.
Qed.

(** X12.  A size violation is reported exactly for a file that is neither a
    backup nor exempted and has more lines than the budget of its path; it
    records the line count, the budget, the excess, the subsystem and the
    tier of the excess ratio. *)
Theorem file_size_report_exact
    (cs_files : list (string * string)) (v : FileSize.size_violation) :
  v ∈ FileSize.check_file_size_violations cs_files
  <-> exists path text,
        (path, text) ∈ cs_files
        /\ Py.contains ".backup" path = false
        /\ Py.any_in FileSize.exempted_files path = false
        /\ (budget path < Z.of_nat (length (Py.readlines text)))%Z
        /\ v = FileSize.SizeViolation path
                 (Z.of_nat (length (Py.readlines text))) (budget path)
                 (Z.of_nat (length (Py.readlines text)) - budget path)
                 (FileSize.determine_system_type (FileSize.split_slash path))
                 (FileSize.tier
                    (FileSize.excess_ratio
                       (Z.of_nat (length (Py.readlines text))) (budget path))).
Proof. apply size_report_elem. Qed.

(** X13.  [main] of the size check returns 1 exactly when a file that is
    neither a backup nor exempted has at least twice its budget in lines,
    and 0 otherwise. *)
Theorem file_size_main_blocks_iff (cs_files : list (string * string)) :
  (FileSize.main cs_files = 1%Z
   <-> exists path text,
         (path, text) ∈ cs_files
         /\ Py.contains ".backup" path = false
         /\ Py.any_in FileSize.exempted_files path = false
         /\ (2 * budget path <= Z.of_nat (length (Py.readlines text)))%Z)
  /\ (FileSize.main cs_files = 1%Z \/ FileSize.main cs_files = 0%Z).
Proof.
  unfold FileSize.main. rewrite main_exit_spec.
  destruct (Z.ltb_spec 0
              (occurrences FileSize.CRITICAL
                 (FileSize.check_file_size_violations cs_files))) as [Hpos|Hno].
  - split; [|by left]. split; [intros _|done].
    apply occurrences_pos in Hpos as (v & Hv & Hs).
    apply size_report_elem in Hv as (path & text & Hin & E1 & E2 & Hlt & ->).
    exists path, text. split_and!; try done.
    cbn [FileSize.sv_severity] in Hs. apply tier_critical in Hs.
    apply (ratio_ge 1 1 _ _ (budget_pos path)) in Hs. lia.
  - split; [|by right]. split; [done|].
    intros (path & text & Hin & E1 & E2 & Hge). exfalso.
    pose proof (budget_pos path) as Hb.
    assert (0 < occurrences FileSize.CRITICAL
                  (FileSize.check_file_size_violations cs_files))%Z; [|lia].
    apply occurrences_pos. eexists. split.
    + apply size_report_elem. exists path, text.
      split_and!; [done | done | done | lia | reflexivity].
    + cbn [FileSize.sv_severity]. apply tier_critical.
      apply (ratio_ge 1 1 _ _ Hb). lia.
Qed.

(** ** The warnings and issues of run_quality_gates.py *)

Section Substrings.

(** [sub in s] holds exactly when [s] is some text, [sub], some text. *)
Lemma contains_spec (sub s : string) :
  Py.contains sub s = true <-> exists pre post, s = pre +:+ sub +:+ post.
Proof.
  induction s as [|c s IH]; rewrite contains_eq.
  - rewrite orb_false_r. split.
    + intros H. apply prefix_split in H as [rest ->]. by exists "", rest.
    + intros (pre & post & E). symmetry in E.
      apply append_eq_empty in E as [-> E].
      apply append_eq_empty in E as [-> _]. done.
  - rewrite orb_true_iff, IH. split.
    + intros [H|(pre & post & ->)].
      * apply prefix_split in H as [rest ->]. by exists "", rest.
      * by exists (String c pre), post.
    + intros (pre & post & E). destruct pre as [|d pre].
      * left. rewrite append_empty_l in E. rewrite E.
        apply (prefix_append sub sub post).
        clear. induction sub as [|a sub IH]; [done|].
        by rewrite prefix_cons, Ascii.eqb_refl.
      * rewrite append_cons in E. injection E as <- ->. right. by exists pre, post.
Qed.

(** Searching a literal pattern is the substring test. *)
Lemma search_lit (sub s : string) : Re.search (Re.lit sub) s = Py.contains sub s.
Proof.
  apply eq_true_iff_eq. rewrite search_lang, contains_spec. split.
  - intros (pre & p & post & -> & H). apply lit_lang in H as ->. by exists pre, post.
  - intros (pre & post & ->). exists pre, sub, post. split; [done | by apply lit_lang].
Qed.

End Substrings.

Section GateLoops.

Import QualityGates.

Lemma filter_length_le {A : Type} (P : A -> bool) (l : list A) :
  length (List.filter P l) <= length l.
Proof. induction l as [|a l IH]; simpl; [done|]. destruct (P a); simpl; lia. Qed.

Lemma size_warnings_elem (found : list (string * string)) (v : size_warning) :
  v ∈ check_file_sizes found
  <-> exists path text,
        (path, text) ∈ found
        /\ Py.contains "Testing" path = false
        /\ Py.contains "Editor" path = false
        /\ 500 < length (List.filter counted (Py.readlines text))
        /\ v = SizeWarning path
                 (length (List.filter counted (Py.readlines text))) 500.
Proof.
  unfold check_file_sizes. rewrite (fold_files_elem _ size_warning_acc). split.
  - intros ([path text] & Hin & Hv).
    apply find_cs_files_elem in Hin as (Hin & E1 & E2). cbn [fst] in E1, E2.
    unfold check_size_file, max_lines in Hv. cbn [fst snd] in Hv.
    destruct (Nat.ltb_spec 500 (length (List.filter counted (Py.readlines text))));
      [|by apply elem_of_nil in Hv].
    apply list_elem_of_singleton in Hv as ->. by exists path, text.
  - intros (path & text & Hin & E1 & E2 & Hlt & ->).
    exists (path, text). split; [by apply find_cs_files_elem|].
    unfold check_size_file, max_lines. cbn [fst snd].
    destruct (Nat.ltb_spec 500 (length (List.filter counted (Py.readlines text))));
      [|lia].
    by apply list_elem_of_singleton.
Qed.

Lemma di_issues_elem (found : list (string * string)) (issue : di_issue) :
  issue ∈ check_dependency_injection found
  <-> exists path text,
        (path, text) ∈ found
        /\ Py.contains "Testing" path = false
        /\ Py.contains "Editor" path = false
        /\ ((Py.contains "ServiceLocator." (Py.universal_newlines text) = true
             /\ Py.contains "Fallback" (Py.universal_newlines text) = false
             /\ issue = DiIssue path "Deprecated ServiceLocator"
                          "Using legacy ServiceLocator - migrate to ServiceContainer")
            \/ (Py.contains "using ProjectChimera.Core.DependencyInjection"
                  (Py.universal_newlines text) = true
                /\ Py.contains "/Core/" path = false
                /\ Py.contains "/CI/" path = false
                /\ issue = DiIssue path "Deprecated DI Namespace"
                             "Using deprecated DependencyInjection namespace - migrate to ServiceContainer")).
Proof.
  unfold check_dependency_injection. rewrite (fold_files_elem _ di_file_acc).
  split.
  - intros ([path text] & Hin & Hv).
    apply find_cs_files_elem in Hin as (Hin & E1 & E2). cbn [fst] in E1, E2.
    exists path, text. split_and!; try done.
    unfold check_di_file, SERVICE_LOCATOR in Hv. cbn [fst snd] in Hv.
    cbv zeta in Hv. rewrite search_lit in Hv.
    destruct (Py.contains "ServiceLocator." _) eqn:A1;
      destruct (Py.contains "Fallback" _) eqn:A2;
      destruct (Py.contains "using ProjectChimera.Core.DependencyInjection" _) eqn:B1;
      destruct (Py.contains "/Core/" path) eqn:B2;
      destruct (Py.contains "/CI/" path) eqn:B3;
      cbn [andb negb app] in Hv;
      repeat (apply elem_of_cons in Hv as [->|Hv]);
      try (by apply elem_of_nil in Hv); auto.
  - intros (path & text & Hin & E1 & E2 & Hcase).
    exists (path, text). split; [by apply find_cs_files_elem|].
    unfold check_di_file, SERVICE_LOCATOR. cbn [fst snd]. cbv zeta.
    rewrite search_lit.
    destruct Hcase as [(A1 & A2 & ->)|(B1 & B2 & B3 & ->)].
    + rewrite A1, A2. cbn [andb negb app].
      destruct (_ && _ && _); cbn [app]; by left.
    + rewrite B1, B2, B3. cbn [andb negb].
      apply elem_of_app. right. by left.
Qed.

End GateLoops.

(** ** Where the declarations start *)

Section Finding.

Import Refactor.

Lemma find_from_exact (rest : list string) (i k : nat) :
  50 < i ->
  find_from i rest = Some k
  <-> i <= k
      /\ (exists l, rest !! (k - i) = Some l /\ is_header (Py.strip l) = true)
      /\ (forall j l, j < k - i -> rest !! j = Some l ->
                      is_header (Py.strip l) = false).
Proof.
  revert i. induction rest as [|l rest IH]; intros i Hi; cbn [find_from].
  - split; [done | by intros (_ & (l & Hl & _) & _)].
  - destruct (Nat.ltb_spec 50 i); [|lia]. rewrite andb_true_r.
    destruct (is_header (Py.strip l)) eqn:E.
    + split.
      * intros [= <-]. rewrite Nat.sub_diag. split_and!; [done | by exists l | lia].
      * intros (Hk & _ & Hno). f_equal.
        destruct (decide (k = i)) as [->|]; [done|]. exfalso.
        specialize (Hno 0 l). rewrite E in Hno.
        assert (true = false) as Habs by (apply Hno; [lia | done]). done.
    + rewrite IH by lia. split.
      * intros (Hk & (l' & Hl & Hh) & Hno). split_and!; [lia | |].
        -- exists l'. by replace (k - i) with (S (k - S i)) by lia.
        -- intros j l'' Hj Hl''. destruct j as [|j]; [by injection Hl'' as <-|].
           apply (Hno j); [lia | done].
      * intros (Hk & (l' & Hl & Hh) & Hno).
        assert (k <> i) as Hne.
        { intros ->. rewrite Nat.sub_diag in Hl. injection Hl as <-. congruence. }
        split_and!; [lia | |].
        -- exists l'. by replace (k - i) with (S (k - S i)) in Hl by lia.
        -- intros j l'' Hj Hl''. apply (Hno (S j)); [lia | done].
Qed.

Lemma find_start_exact (lines : list string) (k : nat) :
  find_data_structure_start lines = Some k
  <-> 400 <= k
      /\ (exists l, lines !! k = Some l /\ is_header (Py.strip l) = true)
      /\ (forall j l, 400 <= j < k -> lines !! j = Some l ->
                      is_header (Py.strip l) = false).
Proof.
  unfold find_data_structure_start, min_line.
  rewrite find_from_exact by lia. split.
  - intros (Hk & (l & Hl & Hh) & Hno). split_and!; [done | |].
    + exists l. rewrite lookup_drop in Hl. by replace (400 + (k - 400)) with k in Hl by lia.
    + intros j l' Hj Hl'. apply (Hno (j - 400)); [lia|].
      rewrite lookup_drop. by replace (400 + (j - 400)) with j by lia.
  - intros (Hk & (l & Hl & Hh) & Hno). split_and!; [done | |].
    + exists l. rewrite lookup_drop. by replace (400 + (k - 400)) with k by lia.
    + intros j l' Hj Hl'. rewrite lookup_drop in Hl'.
      apply (Hno (400 + j)); [lia | done].
Qed.

Lemma find_start_none (lines : list string) :
  find_data_structure_start lines = None
  <-> forall j l, 400 <= j -> lines !! j = Some l ->
                  is_header (Py.strip l) = false.
Proof.
  split.
  - intros Hnone j. induction j as [j IH] using lt_wf_ind. intros l Hj Hl.
    destruct (is_header (Py.strip l)) eqn:E; [|done]. exfalso.
    assert (find_data_structure_start lines = Some j) as Hs; [|congruence].
    apply find_start_exact. split_and!; [done | by exists l |].
    intros j' l' Hj' Hl'. apply (IH j'); [lia | lia | done].
  - intros Hno. destruct (find_data_structure_start lines) as [k|] eqn:E; [|done].
    apply find_start_exact in E as (Hk & (l & Hl & Hh) & _).
    rewrite (Hno k l Hk Hl) in Hh. done.
Qed.

End Finding.

(** X14.  [find_data_structure_start] returns the index of the first line, from
    index 400 on, whose stripped text is a declaration header, and [None]
    exactly when no line from index 400 on is one; a file of at most 400
    lines has none. *)
Theorem first_header_after_cutoff (lines : list string) :
  (forall k,
     Refactor.find_data_structure_start lines = Some k
     <-> 400 <= k
         /\ (exists l, lines !! k = Some l
                       /\ Refactor.is_header (Py.strip l) = true)
         /\ (forall j l, 400 <= j < k -> lines !! j = Some l ->
                         Refactor.is_header (Py.strip l) = false))
  /\ (Refactor.find_data_structure_start lines = None
      <-> forall j l, 400 <= j -> lines !! j = Some l ->
                      Refactor.is_header (Py.strip l) = false)
  /\ (length lines <= 400 -> Refactor.find_data_structure_start lines = None).
Proof.
  split_and!.
  - apply find_start_exact.
  - apply find_start_none.
  - intros Hlen. apply find_start_none. intros j l Hj Hl.
    apply lookup_lt_Some in Hl. lia.
Qed.

(** X15.  [extract_data_structures] reads the lines from the start line on
    as dropped lines and captured declarations, by turns.  A captured
    declaration is the text of consecutive lines of the file: a header
    line and the lines after it up to the first one that brings the brace
    balance back to 0, at least one; the dropped lines before it hold no
    header; after the last captured declaration come dropped lines and
    then nothing, or a declaration that is never closed.  The result is
    the list of the captured declarations, and there is no other way to
    read the lines. *)
Theorem declarations_start_with_header (lines : list string) (start : nat) :
  (exists segs gap tail,
     segmented (drop start lines) segs gap tail
     /\ Refactor.extract_data_structures lines (Some start)
        = map (fun s => Py.join (snd s)) segs)
  /\ (forall segs gap tail,
        segmented (drop start lines) segs gap tail ->
        Refactor.extract_data_structures lines (Some start)
        = map (fun s => Py.join (snd s)) segs).
Proof.
  split; [apply extracted_segments|].
  intros segs gap tail. apply extract_segmented.
Qed.

(** ** Namespace and using statements *)

Section Metadata.

Import Refactor.

Lemma take_while_name (s : string) : name_text (Py.take_while is_name_char s) = true.
Proof.
  induction s as [|c s IH]; [done|]. simpl.
  destruct (is_name_char c) eqn:E; [|done]. simpl. by rewrite E, IH.
Qed.

Lemma namespace_at_name (s n : string) :
  namespace_at s = Some n ->
  n <> "" /\ name_text n = true /\ Py.startswith "namespace" s = true.
Proof.
  unfold namespace_at. destruct (Py.startswith "namespace" s); [|done].
  destruct (Py.skip 9 s) as [|c rest]; [done|].
  destruct (Py.is_space c); [|done].
  pose proof (take_while_name (Py.lstrip rest)) as Hn.
  destruct (Py.take_while is_name_char (Py.lstrip rest)); [done|].
  intros [= <-]. done.
Qed.

Lemma namespace_search_name (s n : string) :
  namespace_search s = Some n ->
  n <> "" /\ name_text n = true /\ Py.contains "namespace" s = true.
Proof.
  induction s as [|c s IH]; cbn [namespace_search].
  - intros H. by vm_compute in H.
  - destruct (namespace_at (String c s)) eqn:E.
    + intros [= <-]. apply namespace_at_name in E as (? & ? & Hs).
      split_and!; try done. rewrite contains_eq. unfold Py.startswith in Hs.
      by rewrite Hs.
    + intros H. apply IH in H as (? & ? & Hc). split_and!; try done.
      rewrite contains_eq, Hc. apply orb_true_r.
Qed.

Lemma name_text_no_brace (c : ascii) (s : string) :
  is_name_char c = false -> name_text s = true -> Py.count c s = 0%Z.
Proof.
  intros Hc. induction s as [|a s IH]; [done|]. simpl.
  intros [Ha Hs]%andb_true_iff. rewrite (IH Hs).
  destruct (Ascii.eqb_spec a c) as [->|]; [congruence | done].
Qed.

Lemma extract_namespace_name (content : string) :
  extract_namespace content <> ""
  /\ name_text (extract_namespace content) = true.
Proof.
  unfold extract_namespace. destruct (namespace_search content) eqn:E.
  - by apply namespace_search_name in E as (? & ? & _).
  - done.
Qed.

Lemma using_elem (lines : list string) (u : string) :
  u ∈ extract_using_statements lines ->
  exists line, line ∈ lines /\ u = Py.rstrip line
               /\ Py.startswith "using " (Py.strip line) = true
               /\ Py.startswith "using (" (Py.strip line) = false.
Proof.
  induction lines as [|line rest IH]; cbn [extract_using_statements].
  - by intros ?%elem_of_nil.
  - cbv zeta.
    destruct (Py.startswith "using " (Py.strip line)) eqn:E1;
      destruct (Py.startswith "using (" (Py.strip line)) eqn:E2; cbn [andb negb].
    2:{ intros [->|H]%elem_of_cons.
        - exists line. split; [by left | done].
        - destruct (IH H) as (l' & ? & ?). exists l'. split; [by right | done]. }
    all: destruct (_ && _ && _); [by intros ?%elem_of_nil|];
      intros H; destruct (IH H) as (l' & ? & ?); exists l';
      (split; [by right | done]).
Qed.

Lemma using_sublist (lines : list string) :
  extract_using_statements lines `sublist_of` map Py.rstrip lines.
Proof.
  induction lines as [|line rest IH]; cbn [extract_using_statements map].
  - constructor.
  - cbv zeta. destruct (_ && negb _); [by constructor|].
    destruct (_ && _ && _); [apply sublist_nil_l | by constructor].
Qed.

Lemma using_stops (pre post : list string) (stop : string) :
  stops_scan stop = true ->
  extract_using_statements (pre ++ stop :: post) = extract_using_statements pre.
Proof.
  intros Hstop. induction pre as [|line pre IH].
  - cbn [app extract_using_statements]. cbv zeta.
    unfold stops_scan in Hstop. rewrite Hstop.
    apply andb_true_iff in Hstop as [_ Hu]. apply negb_true_iff in Hu.
    destruct (Py.startswith "using " (Py.strip stop)) eqn:E; [|done].
    apply (prefix_shorter "using" " ") in E. unfold Py.startswith in Hu. congruence.
  - rewrite <- app_comm_cons. cbn [extract_using_statements]. cbv zeta.
    rewrite IH. done.
Qed.

End Metadata.

(** X16.  The namespace written to the declarations file is never empty and is
    made of word characters and dots only, so it holds no brace; without the
    word [namespace] in the file it is [ProjectChimera]. *)
Theorem namespace_is_a_name (content : string) :
  Refactor.extract_namespace content <> ""
  /\ name_text (Refactor.extract_namespace content) = true
  /\ Refactor.braces (Refactor.extract_namespace content) = 0%Z
  /\ (Py.contains "namespace" content = false ->
      Refactor.extract_namespace content = "ProjectChimera").
Proof.
  destruct (extract_namespace_name content) as [Hne Hname]. split_and!; try done.
  - unfold Refactor.braces. by rewrite !name_text_no_brace.
  - intros Hno. unfold Refactor.extract_namespace.
    destruct (Refactor.namespace_search content) eqn:E; [|done].
    apply namespace_search_name in E as (_ & _ & Hc). congruence.
Qed.

(** X17.  Every using statement collected is a line of the file with its
    trailing blanks removed, whose stripped text starts with [using ] and
    not with [using (]; they are collected in file order; and nothing after
    the first line that is neither blank, nor a comment, nor starting with
    [using] is collected. *)
Theorem using_statements_come_from_the_head
    (lines : list string) :
  (forall u, u ∈ Refactor.extract_using_statements lines ->
     exists line, line ∈ lines /\ u = Py.rstrip line
                  /\ Py.startswith "using " (Py.strip line) = true
                  /\ Py.startswith "using (" (Py.strip line) = false)
  /\ Refactor.extract_using_statements lines `sublist_of` map Py.rstrip lines
  /\ (forall pre stop post,
        lines = pre ++ stop :: post -> stops_scan stop = true ->
        Refactor.extract_using_statements lines
        = Refactor.extract_using_statements pre).
Proof.
  split_and!.
  - apply using_elem.
  - apply using_sublist.
  - intros pre stop post -> Hstop. by apply using_stops.
Qed.

(** ** The files [refactor_file] touches *)

Section ThreeFiles.

Import Refactor.

Lemma last_char_append (a b : string) :
  b <> "" -> last_char (a +:+ b) = last_char b.
Proof.
  intros Hb. induction a as [|c a IH]; [done|].
  rewrite append_cons. cbn [last_char]. rewrite IH.
  destruct (a +:+ b) eqn:E; [|done].
  apply append_eq_empty in E as [_ ->]. done.
Qed.

(** The declarations file is never the backup file. *)
Lemma data_structures_path_not_backup (f : string) :
  data_structures_path f <> backup_path f.
Proof.
  intros E. apply (f_equal last_char) in E. revert E.
  unfold data_structures_path, backup_path, sibling.
  rewrite (last_char_append f ".backup") by done.
  destruct (rsplit "/" f) as [[d n]|].
  - rewrite (last_char_append d), (last_char_append "/"),
      (last_char_append _ "DataStructures.cs"); try done.
    by destruct (path_stem f).
  - by rewrite (last_char_append _ "DataStructures.cs").
Qed.

(** What [refactor_file] leaves alone: every path but the original, its
    backup and its declarations file; and no file disappears. *)
Lemma refactor_file_frame (f : string) (w w' : world) (o : outcome) :
  refactor_file f w = (o, w') ->
  (forall p, p <> f -> p <> backup_path f -> p <> data_structures_path f ->
             fs w' !! p = fs w !! p)
  /\ (forall p, is_Some (fs w !! p) -> is_Some (fs w' !! p)).
Proof.
  intros H.
  destruct (refactor_file_cases f w) as [(o' & Ho & _)|(text & start & Hw)].
  { rewrite Ho in H. injection H as <- <-. done. }
  destruct Hw as (_ & _ & _ & _ & Hrun). rewrite Hrun in H. injection H as <- <-.
  unfold split_world, write_file. cbn [fs]. split.
  - intros p H1 H2 H3. by rewrite !lookup_insert_ne.
  - intros p Hp. rewrite !lookup_insert_is_Some'. tauto.
Qed.

Lemma braces_fold (ls : list string) (z : Z) :
  fold_left (fun bc l => (bc + braces l)%Z) ls z = (z + braces (Py.join ls))%Z.
Proof.
  revert z. induction ls as [|l ls IH]; intros z; simpl.
  - unfold braces. simpl. lia.
  - rewrite IH, join_cons, braces_app. lia.
Qed.

Lemma braces_closers (n : nat) :
  braces (Py.join (replicate n (Py.ln "    }"))) = (- Z.of_nat n)%Z.
Proof.
  induction n as [|n IH]; [done|].
  cbn [replicate]. rewrite join_cons, braces_app, IH.
  change (braces (Py.ln "    }")) with (-1)%Z. lia.
Qed.

Lemma main_step_tally (st : tally * world) (f : string) :
  refactored_count (fst (main_step st f)) + skipped_count (fst (main_step st f))
  = S (refactored_count (fst st) + skipped_count (fst st)).
Proof.
  destruct st as [t w]. unfold main_step.
  destruct (refactor_file f w) as [o w']. destruct (returns_true o); simpl; lia.
Qed.

Lemma main_step_world (t : tally) (w : world) (f : string) :
  snd (main_step (t, w) f) = snd (refactor_file f w).
Proof.
  unfold main_step. destruct (refactor_file f w) as [o w'].
  by destruct (returns_true o).
Qed.

Lemma main_over_spec (files : list string) (st : tally * world) :
  let st' := fold_left main_step files st in
  refactored_count (fst st') + skipped_count (fst st')
  = refactored_count (fst st) + skipped_count (fst st) + length files
  /\ (forall p,
        (forall f, f ∈ files ->
           p <> f /\ p <> backup_path f /\ p <> data_structures_path f) ->
        fs (snd st') !! p = fs (snd st) !! p)
  /\ (forall p, is_Some (fs (snd st) !! p) -> is_Some (fs (snd st') !! p)).
Proof.
  revert st. induction files as [|f files IH]; intros st; cbv zeta.
  - simpl. split_and!; [lia | done | done].
  - cbn [fold_left]. destruct (IH (main_step st f)) as (H1 & H2 & H3).
    cbv zeta in *. destruct st as [t w].
    destruct (refactor_file_frame f w (snd (refactor_file f w))
                (fst (refactor_file f w))) as [Hframe Hkeep];
      [by destruct (refactor_file f w)|].
    split_and!.
    + rewrite H1, main_step_tally. simpl. lia.
    + intros p Hp. rewrite H2 by (intros g Hg; apply Hp; by right).
      rewrite main_step_world. cbn [snd].
      destruct (Hp f) as (? & ? & ?); [by left|]. by apply Hframe.
    + intros p Hp. apply H3. rewrite main_step_world. by apply Hkeep.
Qed.

End ThreeFiles.

(** X18.  The original, its backup and its declarations file are three
    different paths. *)
Theorem split_paths_distinct (f : string) :
  Refactor.data_structures_path f <> f
  /\ Refactor.backup_path f <> f
  /\ Refactor.data_structures_path f <> Refactor.backup_path f.
Proof.
  split_and!.
  - apply data_structures_path_fresh.
  - apply backup_path_fresh.
  - apply data_structures_path_not_backup.
Qed.

(** X19.  Whatever [refactor_file] returns, every path other than the
    original, its backup and its declarations file holds what it held, and
    no file disappears; after a split the declarations file holds the
    header, the using statements and, inside the namespace block, the
    extracted declarations. *)
Theorem refactor_file_touches_three_paths
    (f : string) (w w' : Refactor.world) (o : Refactor.outcome) :
  Refactor.refactor_file f w = (o, w') ->
  (forall p, p <> f -> p <> Refactor.backup_path f ->
             p <> Refactor.data_structures_path f ->
             Refactor.fs w' !! p = Refactor.fs w !! p)
  /\ (forall p, is_Some (Refactor.fs w !! p) -> is_Some (Refactor.fs w' !! p))
  /\ (o = Refactor.Refactored ->
      exists text,
        Refactor.fs w !! f = Some text
        /\ Refactor.fs w' !! Refactor.data_structures_path f
           = Some (Refactor.data_structures_text f
                     (Refactor.extract_data_structures (Py.readlines text)
                        (Refactor.find_data_structure_start (Py.readlines text)))
                     (Refactor.extract_namespace (Py.join (Py.readlines text)))
                     (Refactor.extract_using_statements (Py.readlines text)))).
Proof.
  intros H. destruct (refactor_file_frame f w w' o H) as [H1 H2].
  split_and!; [done | done |]. intros ->.
  destruct (refactor_file_cases f w) as [(o' & Ho & Hf & _)|(text & start & Hw)].
  { rewrite Ho in H. injection H as -> _. done. }
  destruct Hw as (Htext & _ & _ & _ & Hrun). rewrite Hrun in H. injection H as <-.
  exists text. split; [done|]. unfold split_world, Refactor.write_file.
  cbn [Refactor.fs].
  rewrite lookup_insert_ne
    by (intros E; symmetry in E; by apply data_structures_path_fresh in E).
  rewrite lookup_insert_ne
    by (intros E; symmetry in E; by apply data_structures_path_not_backup in E).
  by rewrite lookup_insert_eq.
Qed.

Lemma refactor_file_touches_three_paths_witness :
  Refactor.refactor_file Samples.sample_path Samples.sample_world
  = (Refactor.Refactored,
     snd (Refactor.refactor_file Samples.sample_path Samples.sample_world))
  /\ is_Some (Refactor.fs
                (snd (Refactor.refactor_file Samples.sample_path
                        Samples.sample_world))
              !! Samples.sample_path).
Proof.
  assert (Refactor.refactor_file Samples.sample_path Samples.sample_world
          = (Refactor.Refactored,
             snd (Refactor.refactor_file Samples.sample_path
                    Samples.sample_world))) as Hrun
    by (vm_compute; reflexivity).
  split; [exact Hrun|].
  destruct (refactor_file_touches_three_paths _ _ _ _ Hrun) as (_ & Hkeep & _).
  apply Hkeep. vm_compute. eauto.
Defined.

(** X20.  Running [refactor_file] again on a file it has just split changes
    nothing and returns [False]. *)
Theorem second_run_is_a_skip (f : string) (w w' : Refactor.world) :
  Refactor.refactor_file f w = (Refactor.Refactored, w') ->
  exists o, Refactor.refactor_file f w' = (o, w')
            /\ Refactor.returns_true o = false.
Proof.
  intros H.
  destruct (refactor_file_cases f w) as [(o' & Ho & Hf & _)|(text & start & Hw)].
  { rewrite Ho in H. injection H as -> _. done. }
  destruct Hw as (_ & _ & _ & _ & Hrun). rewrite Hrun in H. injection H as <-.
  assert (Refactor.exists_ (split_world f text w) (Refactor.backup_path f) = true)
    as Hb.
  { unfold Refactor.exists_, split_world, Refactor.write_file. cbn [Refactor.fs].
    rewrite lookup_insert_ne
      by (intros E; symmetry in E; by apply backup_path_fresh in E).
    by rewrite lookup_insert_eq. }
  unfold Refactor.refactor_file. rewrite Hb.
  destruct (Refactor.exists_ (split_world f text w) f); cbn [negb];
    [|by exists Refactor.NotFound].
  destruct (_ <? 500); [by exists Refactor.UnderLimit
                       | by exists Refactor.AlreadyRefactored].
Qed.

Lemma second_run_is_a_skip_witness :
  Refactor.refactor_file Samples.sample_path Samples.sample_world
  = (Refactor.Refactored,
     snd (Refactor.refactor_file Samples.sample_path Samples.sample_world))
  /\ exists o,
       Refactor.refactor_file Samples.sample_path
         (snd (Refactor.refactor_file Samples.sample_path Samples.sample_world))
       = (o, snd (Refactor.refactor_file Samples.sample_path
                    Samples.sample_world))
       /\ Refactor.returns_true o = false.
Proof.
  assert (Refactor.refactor_file Samples.sample_path Samples.sample_world
          = (Refactor.Refactored,
             snd (Refactor.refactor_file Samples.sample_path
                    Samples.sample_world))) as Hrun
    by (vm_compute; reflexivity).
  split; [exact Hrun | exact (second_run_is_a_skip _ _ _ Hrun)].
Defined.

(** The residual count is the brace balance of the retained lines; the
    synthetic closing lines close a surplus of opening braces and leave a
    surplus of closing braces as it is. *)
Lemma coordinator_text_braces (lines : list string) (start : option nat) :
  Refactor.residual lines start
  = Refactor.braces (Py.join (Refactor.retained lines start))
  /\ Refactor.braces (Refactor.coordinator_text lines start)
     = Z.min 0 (Refactor.residual lines start).
Proof.
  assert (Refactor.residual lines start
          = Refactor.braces (Py.join (Refactor.retained lines start))) as Hres.
  { unfold Refactor.residual. by rewrite braces_fold. }
  split; [done|].
  unfold Refactor.coordinator_text.
  change (?a ++ ?b)%string with (a +:+ b).
  rewrite braces_app, braces_closers, <- Hres. lia.
Qed.

(** X21.  When [create_streamlined_coordinator] returns, the text it has
    written to the original path is brace balanced exactly when the lines it
    retains do not close more braces than they open: a surplus of opening
    braces is closed by the synthetic lines, a surplus of closing braces is
    left as it is. *)
Theorem coordinator_balance
    (f : string) (lines : list string) (start : option nat)
    (w w' : Refactor.world) (backup : string) :
  Refactor.create_streamlined_coordinator f lines start w = (Some backup, w') ->
  exists text,
    Refactor.fs w' !! f = Some text
    /\ Refactor.braces text
       = Z.min 0 (Refactor.braces (Py.join (Refactor.retained lines start)))
    /\ (balanced text
        <-> (0 <= Refactor.braces (Py.join (Refactor.retained lines start)))%Z).
Proof.
  unfold Refactor.create_streamlined_coordinator, Refactor.copy2.
  destruct (Refactor.fs w !! f) as [c|]; [|discriminate].
  destruct (length lines <? Refactor.end_line lines start); [discriminate|].
  intros [= _ <-].
  destruct (coordinator_text_braces lines start) as [Hres Hbal].
  exists (Refactor.coordinator_text lines start).
  split_and!.
  - cbn [Refactor.write_file Refactor.fs]. by rewrite lookup_insert_eq.
  - by rewrite Hbal, Hres.
  - unfold balanced. unfold Refactor.braces in *. lia.
Qed.

Lemma coordinator_balance_witness :
  exists text,
    Refactor.fs
      (snd (Refactor.create_streamlined_coordinator Samples.sample_path
              ["class A {"; "}"] None Samples.sample_world))
    !! Samples.sample_path = Some text
    /\ balanced text.
Proof.
  destruct (coordinator_balance Samples.sample_path ["class A {"; "}"] None
              Samples.sample_world
              (snd (Refactor.create_streamlined_coordinator Samples.sample_path
                      ["class A {"; "}"] None Samples.sample_world))
              (Refactor.backup_path Samples.sample_path))
    as (text & Htext & _ & Hbal); [vm_compute; reflexivity|].
  exists text. split; [exact Htext|]. apply Hbal. vm_compute. discriminate.
Defined.

(** X22.  [main] counts every listed file once, as refactored or as skipped;
    it changes no path other than the listed files, their backups and their
    declarations files, and removes no file. *)
Theorem main_counts_and_frame (files : list string) (w : Refactor.world) :
  let result := Refactor.main_over files w in
  Refactor.refactored_count (fst result) + Refactor.skipped_count (fst result)
  = length files
  /\ (forall p,
        (forall f, f ∈ files ->
           p <> f /\ p <> Refactor.backup_path f
           /\ p <> Refactor.data_structures_path f) ->
        Refactor.fs (snd result) !! p = Refactor.fs w !! p)
  /\ (forall p, is_Some (Refactor.fs w !! p) ->
                is_Some (Refactor.fs (snd result) !! p)).
Proof.
  cbv zeta. unfold Refactor.main_over.
  destruct (main_over_spec files (Refactor.Tally 0 0, w)) as (H1 & H2 & H3).
  cbv zeta in *. split_and!; [by rewrite H1 | done | done].
Qed.

(** ** The declarations file and the quality gates *)

Section DeclarationsFile.

Import Refactor.

Lemma braces_ln (s : string) : braces (Py.ln s) = braces s.
Proof.
  unfold Py.ln. change (?a ++ ?b)%string with (a +:+ b).
  rewrite braces_app. change (braces Py.nl) with 0%Z. lia.
Qed.

Lemma braces_join_ln (l : list string) :
  braces (Py.join (map Py.ln l)) = braces (Py.join l).
Proof.
  induction l as [|x l IH]; [done|].
  cbn [map]. by rewrite !join_cons, !braces_app, braces_ln, IH.
Qed.

Lemma braces_join_balanced (l : list string) :
  Forall balanced l -> braces (Py.join l) = 0%Z.
Proof.
  induction 1 as [|x l Hx _ IH]; [done|].
  rewrite join_cons, braces_app, IH. unfold balanced in Hx. unfold braces. lia.
Qed.

Lemma data_structures_text_braces (f : string) (ds : list string)
    (ns : string) (usings : list string) :
  Forall balanced ds -> braces ns = 0%Z ->
  braces (data_structures_text f ds ns usings)
  = (braces (path_name f) + braces (Py.join usings))%Z.
Proof.
  intros Hds Hns. unfold data_structures_text.
  repeat change (?a ++ ?b)%string with (a +:+ b).
  rewrite !braces_app, !braces_ln, !braces_app, !braces_join_ln.
  rewrite (braces_join_balanced ds Hds), Hns.
  change (braces Py.nl) with 0%Z.
  change (braces "// REFACTORED: Data Structures") with 0%Z.
  change (braces "// Extracted from ") with 0%Z.
  change (braces " for better separation of concerns") with 0%Z.
  change (braces "namespace ") with 0%Z.
  change (braces "{") with 1%Z. change (braces "}") with (-1)%Z. lia.
Qed.

End DeclarationsFile.

(** X23.  The declarations file written for the declarations extracted from
    any lines and the namespace found in any text has the brace balance of
    the file name and of the using statements it repeats: the extracted
    declarations are balanced, the namespace holds no brace and the
    namespace block is opened and closed once. *)
Theorem declarations_file_balance
    (f content : string) (lines : list string) (start : option nat)
    (usings : list string) (w : Refactor.world) :
  let result :=
    Refactor.create_data_structures_file f
      (Refactor.extract_data_structures lines start)
      (Refactor.extract_namespace content) usings w in
  fst result = Refactor.data_structures_path f
  /\ exists text,
       Refactor.fs (snd result) !! fst result = Some text
       /\ Refactor.braces text
          = (Refactor.braces (Refactor.path_name f)
             + Refactor.braces (Py.join usings))%Z.
Proof.
  cbn zeta. unfold Refactor.create_data_structures_file.
  cbn [fst snd Refactor.write_file Refactor.fs]. split; [done|].
  eexists. split; [by rewrite lookup_insert_eq|].
  apply data_structures_text_braces.
  - destruct start as [start|]; simpl; [|constructor].
    apply scan_inv_fold, scan_inv_init.
  - destruct (extract_namespace_name content) as [_ Hname].
    unfold Refactor.braces. by rewrite !name_text_no_brace.
Qed.

(** X24.  After the cut at the comment marker the code text holds neither
    [// Legacy] nor [// MIGRATION], so these two tests of the quality gates
    never succeed: such a remark exempts no line, and a line is suppressed
    exactly under the remaining tests. *)
Theorem legacy_remarks_never_found (file_path line : string) (i : nat)
    (violations : list violation) :
  Py.contains "// Legacy" (QualityGates.code_text (Py.strip line)) = false
  /\ Py.contains "// MIGRATION" (QualityGates.code_text (Py.strip line)) = false
  /\ QualityGates.check_line file_path i line violations
     = if quality_gate_suppressed file_path line then violations
       else Re.scan_patterns
              (fun p => Violation file_path i
                          (QualityGates.code_text (Py.strip line)) (Re.src p))
              (QualityGates.code_text (Py.strip line))
              QualityGates.FORBIDDEN_PATTERNS violations.
Proof.
  split_and!.
  - apply (code_text_no_remark " Legacy").
  - apply (code_text_no_remark " MIGRATION").
  - apply quality_gates_line_exact.
Qed.

(** A call with a [// Legacy] remark in an ordinary file is reported. *)
Example legacy_remark_reported :
  map v_pattern
    (QualityGates.check_line Samples.gameplay_path 7
       (Py.ln "        var a = Resources.Load(path); // Legacy") [])
  = ["Resources\.Load"].
Proof. vm_compute. reflexivity. Qed.

(** X25.  The quality gates warn about a file exactly when it lies outside
    the Testing and Editor directories and has more than 500 lines that are
    neither blank nor comment lines; such a file has more than 500 lines. *)
Theorem size_warnings_exact
    (found : list (string * string)) (v : QualityGates.size_warning) :
  (v ∈ QualityGates.check_file_sizes found
   <-> exists path text,
         (path, text) ∈ found
         /\ Py.contains "Testing" path = false
         /\ Py.contains "Editor" path = false
         /\ 500 < length (List.filter QualityGates.counted (Py.readlines text))
         /\ v = QualityGates.SizeWarning path
                  (length (List.filter QualityGates.counted (Py.readlines text)))
                  500)
  /\ (v ∈ QualityGates.check_file_sizes found ->
      exists path text,
        (path, text) ∈ found /\ QualityGates.w_file v = path
        /\ 500 < QualityGates.w_line_count v <= length (Py.readlines text)).
Proof.
  split; [apply size_warnings_elem|].
  intros (path & text & Hin & _ & _ & Hlt & ->)%size_warnings_elem.
  exists path, text. split_and!; try done.
  apply filter_length_le.
Qed.

(** X26.  For a file outside the Testing and Editor directories, the
    ServiceLocator issue is reported exactly when the text holds
    [ServiceLocator.] and not [Fallback], and the namespace issue exactly
    when the text holds the using line of the deprecated namespace and the
    path holds neither [/Core/] nor [/CI/]; nothing else is reported.
    [main] of the quality gates returns 1 exactly when there is an
    anti-pattern violation or such an issue, whatever the file size
    warnings are. *)
Theorem dependency_issues_exact
    (found : list (string * string)) (issue : QualityGates.di_issue) :
  (issue ∈ QualityGates.check_dependency_injection found
   <-> exists path text,
         (path, text) ∈ found
         /\ Py.contains "Testing" path = false
         /\ Py.contains "Editor" path = false
         /\ ((Py.contains "ServiceLocator." (Py.universal_newlines text) = true
              /\ Py.contains "Fallback" (Py.universal_newlines text) = false
              /\ issue = QualityGates.DiIssue path "Deprecated ServiceLocator"
                           "Using legacy ServiceLocator - migrate to ServiceContainer")
             \/ (Py.contains "using ProjectChimera.Core.DependencyInjection"
                   (Py.universal_newlines text) = true
                 /\ Py.contains "/Core/" path = false
                 /\ Py.contains "/CI/" path = false
                 /\ issue = QualityGates.DiIssue path "Deprecated DI Namespace"
                              "Using deprecated DependencyInjection namespace - migrate to ServiceContainer")))
  /\ (QualityGates.main found = 0%Z
      <-> QualityGates.check_anti_patterns found = []
          /\ QualityGates.check_dependency_injection found = [])
  /\ (QualityGates.main found = 0%Z \/ QualityGates.main found = 1%Z).
Proof.
  split_and!; [apply di_issues_elem | |].
  - unfold QualityGates.main. cbv zeta.
    destruct (QualityGates.check_anti_patterns found),
      (QualityGates.check_dependency_injection found); simpl; split; try done;
      by intros [? ?].
  - unfold QualityGates.main. cbv zeta. destruct (0 <? _); auto.
Qed.

(** ** Line counts and the order of the size report *)

Section LineCounts.

Lemma last_char_cons (c : ascii) (s : string) :
  exists d, last_char (String c s) = Some d.
Proof.
  revert c. induction s as [|e s IH]; intros c; [by exists c|].
  destruct (IH e) as [d Hd]. exists d. by rewrite <- Hd.
Qed.

Lemma lines_go_length (s cur : string) :
  Z.of_nat (length (Py.lines_go cur s))
  = (Py.count "010" s
     + match last_char s with
       | Some c => if Ascii.eqb c "010"%char then 0 else 1
       | None => match cur with "" => 0 | _ => 1 end
       end)%Z.
Proof.
  revert cur. induction s as [|c s IH]; intros cur.
  - by destruct cur.
  - assert (last_char (String c s)
            = match s with "" => Some c | _ => last_char s end) as ->
      by (by destruct s).
    cbn [Py.lines_go Py.count].
    destruct (Ascii.eqb c "010") eqn:Hc.
    + cbn [length]. rewrite Nat2Z.inj_succ, IH.
      destruct s as [|d s]; [rewrite Hc; cbn [last_char Py.count]; lia|].
      cbv beta iota. destruct (last_char_cons d s) as [e ->]. lia.
    + rewrite IH. destruct s as [|d s]; [rewrite Hc; cbn [last_char Py.count]; lia|].
      cbv beta iota. destruct (last_char_cons d s) as [e ->]. lia.
Qed.

End LineCounts.

Section ReportOrder.

Import FileSize.

Lemma key_lt_irrefl (k : bool * Z) : key_lt k k = false.
Proof. destruct k as [[] z]; unfold key_lt; cbn; lia. Qed.

Lemma key_lt_asym (k1 k2 : bool * Z) :
  key_lt k1 k2 = true -> key_lt k2 k1 = false.
Proof. destruct k1 as [[] a], k2 as [[] b]; unfold key_lt; cbn; lia. Qed.

Lemma not_below_trans (a b c : size_violation) :
  not_below a b -> not_below b c -> not_below a c.
Proof.
  unfold not_below.
  destruct (sort_key a) as [[] x], (sort_key b) as [[] y],
    (sort_key c) as [[] z]; unfold key_lt; cbn; lia.
Qed.

Lemma insert_desc_perm (v : size_violation) (l : list size_violation) :
  insert_desc v l ≡ₚ v :: l.
Proof.
  induction l as [|x l IH]; [done|]. cbn [insert_desc].
  destruct (key_lt (sort_key v) (sort_key x)); [|done].
  rewrite IH. apply Permutation_swap.
Qed.

Lemma sort_desc_perm (vs : list size_violation) : sort_desc vs ≡ₚ vs.
Proof.
  induction vs as [|v vs IH]; [done|].
  cbn [sort_desc foldr]. fold (sort_desc vs).
  by rewrite insert_desc_perm, IH.
Qed.

Lemma insert_desc_sorted (v : size_violation) (l : list size_violation) :
  StronglySorted not_below l -> StronglySorted not_below (insert_desc v l).
Proof.
  induction 1 as [|x l Hl IH Hx]; [repeat constructor|].
  cbn [insert_desc].
  destruct (key_lt (sort_key v) (sort_key x)) eqn:Hvx.
  - constructor; [done|].
    rewrite insert_desc_perm. constructor; [|done].
    by apply key_lt_asym.
  - constructor; [by constructor|].
    constructor; [done|].
    eapply Forall_impl; [exact Hx|].
    intros y Hy. by apply (not_below_trans v x y).
Qed.

Lemma sort_desc_sorted (vs : list size_violation) :
  StronglySorted not_below (sort_desc vs).
Proof.
  induction vs as [|v vs IH]; [constructor|].
  cbn [sort_desc foldr]. by apply insert_desc_sorted.
Qed.

Lemma insert_desc_stable (k : bool * Z) (v : size_violation)
    (l : list size_violation) :
  filter (fun x => sort_key x = k) (insert_desc v l)
  = filter (fun x => sort_key x = k) (v :: l).
Proof.
  induction l as [|x l IH]; [done|]. cbn [insert_desc].
  destruct (key_lt (sort_key v) (sort_key x)) eqn:Hvx; [|done].
  rewrite filter_cons, IH, !(filter_cons _ v), (filter_cons _ x).
  destruct (decide (sort_key x = k)) as [Hx|Hx]; [|done].
  destruct (decide (sort_key v = k)) as [Hv|Hv]; [|done].
  rewrite Hx, Hv, key_lt_irrefl in Hvx. discriminate.
Qed.

Lemma sort_desc_stable (k : bool * Z) (vs : list size_violation) :
  filter (fun x => sort_key x = k) (sort_desc vs)
  = filter (fun x => sort_key x = k) vs.
Proof.
  induction vs as [|v vs IH]; [done|].
  cbn [sort_desc foldr]. fold (sort_desc vs).
  by rewrite insert_desc_stable, !filter_cons, IH.
Qed.

End ReportOrder.

(** X27.  The line count of a file is the number of newlines of its text, once
    [\r\n] and [\r] are read as newlines, plus one when the text does not
    end with a newline: a last line without a newline counts as a line. *)
Theorem count_lines_counts_newlines
    (w : Refactor.world) (filepath text : string) :
  Refactor.fs w !! filepath = Some text ->
  Z.of_nat (Refactor.count_lines w filepath)
  = (Py.count "010" (Py.universal_newlines text)
     + open_last_line (Py.universal_newlines text))%Z.
Proof.
  intros Hf. unfold Refactor.count_lines, Py.readlines, open_last_line.
  rewrite Hf, lines_go_length.
  by destruct (last_char (Py.universal_newlines text)).
Qed.

Lemma count_lines_counts_newlines_witness :
  Z.of_nat (Refactor.count_lines Samples.sample_world Samples.sample_path)
  = (Py.count "010" (Py.universal_newlines Samples.sample_text)
     + open_last_line (Py.universal_newlines Samples.sample_text))%Z.
Proof.
  apply (count_lines_counts_newlines Samples.sample_world Samples.sample_path
           Samples.sample_text).
  vm_compute. reflexivity.
Defined.

(** X28.  The size report lists the violations found, each once, with the
    critical ones first and, among the critical ones and among the others,
    by decreasing excess; violations with the same sort key keep the order
    in which they were found. *)
Theorem size_report_order (vs : list FileSize.size_violation) :
  FileSize.sort_desc vs ≡ₚ vs
  /\ StronglySorted not_below (FileSize.sort_desc vs)
  /\ (forall k,
        filter (fun x => FileSize.sort_key x = k) (FileSize.sort_desc vs)
        = filter (fun x => FileSize.sort_key x = k) vs)
  /\ (forall a b, not_below a b
        <-> (FileSize.sv_severity b = FileSize.CRITICAL
             -> FileSize.sv_severity a = FileSize.CRITICAL)
            /\ ((FileSize.sv_severity a = FileSize.CRITICAL
                 <-> FileSize.sv_severity b = FileSize.CRITICAL)
                -> (FileSize.sv_excess b <= FileSize.sv_excess a)%Z)).
Proof.
  split_and!.
  - apply sort_desc_perm.
  - apply sort_desc_sorted.
  - intros k. apply sort_desc_stable.
  - intros a b. unfold not_below, FileSize.sort_key, FileSize.key_lt.
    cbn [fst snd].
    destruct (decide (FileSize.sv_severity a = FileSize.CRITICAL)) as [Ha|Ha],
      (decide (FileSize.sv_severity b = FileSize.CRITICAL)) as [Hb|Hb].
    + rewrite !bool_decide_eq_true_2 by done. rewrite Z.ltb_ge. tauto.
    + rewrite bool_decide_eq_true_2, bool_decide_eq_false_2 by done. tauto.
    + rewrite bool_decide_eq_false_2, bool_decide_eq_true_2 by done.
      split; [discriminate|]. intros [H _]. by specialize (H Hb).
    + rewrite !bool_decide_eq_false_2 by done. rewrite Z.ltb_ge. tauto.
Qed.
